(** * MealMD: the scoring engine and the recommender of [mealmd_wizard.py]

    A shallow embedding of the core of the wizard: the meal catalog
    [MEALS], the weight table [WEIGHTS], [score_meal] and [recommend].

    Conventions of the embedding.
    - Python [str] is [string], compared with [String.eqb]; the enums of
      the program are plain strings in the source, and stay strings here,
      so that an answer holding a value outside its enum is representable.
    - Python [int] is [Z].  The running score starts at the float [50.0]
      and only ever has integer weights added or subtracted, so every
      value it takes is a small integer, which a float holds exactly; it
      is a [Z] here, and [round(s, 1)] is the identity on it.
    - The answer dictionary [ans] is a record with its seven keys.
    - The two pieces of process-global state that [recommend] touches, the
      module-level list [MEALS] and the hidden generator of the [random]
      module, are the two fields of [World]; [recommend] is written in a
      state monad over it. *)

From Stdlib Require Import ZArith List Ascii String Bool Lia Permutation Sorted.
From Stdlib Require Decimal DecimalString DecimalPos DecimalZ.
Import ListNotations.

Local Open Scope string_scope.
Local Open Scope Z_scope.

(** Python's [==] on two strings. *)
Infix "==" := String.eqb (at level 70, no associativity).

(** ** Data *)

Module Meal.
Record t : Type := mk {
  name : string;
  items : list string;
  calories : Z;
  protein_g : Z;
  carbs_g : Z;
  fat_g : Z;
  sodium_mg : Z;
  calcium_mg : Z;
  protein_type : string;
  allergens : list string;
  effort : string;
  takeout_ok : bool;
  spice : string;
  notes : list string
}.
End Meal.

(** The dictionary built by the wizard and read by [score_meal]. *)
Module Ans.
Record t : Type := mk {
  goal : string;
  timing : string;
  protein_pref : string;
  avoids : list string;
  effort : string;
  sodium_pref : string;
  spice_pref : string
}.
End Ans.

Definition MEALS : list Meal.t := [
  Meal.mk "Grilled Salmon Bowl"
    ["grilled salmon 5 oz"; "quinoa 1 cup"; "spinach"; "tomato"; "olive oil"; "lemon"; "plain yogurt 1/2 cup"]
    650 45 55 24 520 250 "fish" ["dairy"] "med" true "mild" ["Omega-3s"];
  Meal.mk "Chicken Thigh + Sweet Potato Plate"
    ["roasted chicken thigh 6 oz"; "baked sweet potato"; "steamed broccoli"; "tahini drizzle"]
    620 42 62 18 480 180 "poultry" ["sesame"] "med" true "mild" ["balanced"];
  Meal.mk "Tofu Stir-Fry"
    ["extra-firm tofu 6 oz"; "mixed vegetables"; "brown rice 1 cup"; "garlic-ginger sauce (low sodium)"]
    600 36 70 16 420 350 "plant" ["soy"; "gluten?"] "low" false "medium" ["plant protein"];
  Meal.mk "Lentil Curry + Rice"
    ["red lentil curry 1.5 cups"; "basmati rice 1 cup"; "cucumber salad"]
    680 32 98 16 540 140 "plant" [] "med" true "medium" ["good fiber"];
  Meal.mk "Turkey Chili (Lean)"
    ["ground turkey 93% 6 oz"; "beans"; "tomato"; "onion"; "spices"]
    640 48 58 18 620 160 "poultry" [] "med" true "medium" ["high protein"];
  Meal.mk "Beef Steak Plate"
    ["sirloin steak 6 oz"; "roasted potatoes"; "asparagus"; "butter"]
    720 50 46 30 540 60 "beef" ["dairy?"] "high" true "mild" ["creatine-rich"];
  Meal.mk "Egg White Veggie Omelet + Oats"
    ["egg white omelet (4 whites)"; "mixed veggies"; "rolled oats 1 cup"; "berries"]
    520 36 66 8 420 180 "plant" ["eggs"; "gluten?"] "low" false "mild" ["light"];
  Meal.mk "Greek Yogurt Power Bowl"
    ["plain Greek yogurt 1.5 cups"; "berries"; "chia seeds"; "walnuts"; "honey"]
    580 42 48 20 180 450 "plant" ["dairy"; "nuts"] "low" false "mild" ["easy"];
  Meal.mk "Sardine Avocado Toast"
    ["whole-grain toast 2 slices"; "sardines in olive oil 1 tin"; "avocado"; "lemon"]
    560 32 44 28 520 320 "fish" ["gluten?"; "fish"] "low" true "mild" ["omega-3s"];
  Meal.mk "Tempeh Buddha Bowl"
    ["tempeh 6 oz"; "farro 1 cup"; "kale"; "roasted peppers"; "tahini-lemon"]
    620 38 70 16 460 220 "plant" ["soy"; "sesame"] "med" false "mild" ["fermented"];
  Meal.mk "Shrimp Rice Bowl"
    ["shrimp 6 oz"; "jasmine rice 1 cup"; "cabbage slaw"; "lime"; "olive oil"]
    600 42 64 14 640 160 "shellfish" ["shellfish"] "low" true "mild" ["lean protein"];
  Meal.mk "Chickpea Pasta Primavera"
    ["chickpea pasta 3 oz dry"; "zucchini"; "tomato"; "olive oil"; "basil"]
    580 34 70 14 380 120 "plant" [] "low" false "mild" ["high fiber"]
].

(** Centralized weights: the dictionary, key by key. *)
Definition WEIGHTS : list (string * Z) := [
  ("match_protein_pref", 8);
  ("mismatch_protein_pref", 4);
  ("plant_only_penalty", 30);
  ("fish_pref_bonus", 6);
  ("goal_cut", 10);
  ("goal_bulk", 10);
  ("goal_maint", 5);
  ("fat_penalty_cut", 4);
  ("pre_low_fat", 6);
  ("pre_good_carbs", 4);
  ("pre_mod_protein", 3);
  ("post_protein", 6);
  ("post_carbs", 4);
  ("post_low_fat", 2);
  ("effort_low_bonus", 6);
  ("effort_low_penalty", 3);
  ("effort_med_bonus", 3);
  ("effort_high_bonus", 4);
  ("effort_restaurant_bonus", 5);
  ("effort_restaurant_penalty", 4);
  ("sodium_low_bonus", 5);
  ("sodium_high_penalty", 6);
  ("sodium_too_high_penalty", 2);
  ("spice_match_bonus", 2)
].

Fixpoint lookup (key : string) (d : list (string * Z)) : option Z :=
  match d with
  | [] => None
  | (k, v) :: rest => if String.eqb k key then Some v else lookup key rest
  end.

(** [WEIGHTS[key]].  Every key the scoring code uses is a literal that is
    bound in the table ([weights_bound] below), so the [KeyError] of a
    missing key cannot arise; the default is never taken. *)
Definition W (key : string) : Z :=
  match lookup key WEIGHTS with
  | Some v => v
  | None => 0
  end.

(** ** Scoring *)

(** [x in xs] on a list or tuple of strings. *)
Fixpoint str_in (x : string) (xs : list string) : bool :=
  match xs with
  | [] => false
  | y :: rest => String.eqb x y || str_in x rest
  end.

(** [any(a in meal.allergens for a in avoids)].  The source iterates over
    [set(ans["avoids"])]; duplicates and order do not change [any]. *)
Definition conflicts (meal : Meal.t) (ans : Ans.t) : bool :=
  existsb (fun a => str_in a (Meal.allergens meal)) (Ans.avoids ans).

(** The two accumulators every rule updates: [score] and [reasons]. *)
Record Acc : Type := mkAcc {
  score : Z;
  reasons : list string
}.

(** [score += w] / [score -= w], and [reasons.append(r)]. *)
Definition add (w : Z) (st : Acc) : Acc := mkAcc (score st + w) (reasons st).
Definition sub (w : Z) (st : Acc) : Acc := mkAcc (score st - w) (reasons st).
Definition say (r : string) (st : Acc) : Acc := mkAcc (score st) (reasons st ++ [r])%list.

(* Protein preference *)
Definition protein_rule (meal : Meal.t) (ans : Ans.t) (st : Acc) : Acc :=
  let protein_pref := Ans.protein_pref ans in
  if protein_pref == "no-preference" then st
  else if protein_pref == "plant-only" then
    if negb (Meal.protein_type meal == "plant")
    then say "prefers plant-only" (sub (W "plant_only_penalty") st)
    else st
  else if protein_pref == "fish/seafood" then
    if negb (str_in (Meal.protein_type meal) ["fish"; "shellfish"])
    then sub (W "mismatch_protein_pref") st
    else say "matches fish/seafood preference" (add (W "fish_pref_bonus") st)
  else
    if Meal.protein_type meal == protein_pref
    then say "matches protein preference" (add (W "match_protein_pref") st)
    else sub (W "mismatch_protein_pref") st.

(* Goals *)
Definition goal_rule (meal : Meal.t) (ans : Ans.t) (st : Acc) : Acc :=
  let goal := Ans.goal ans in
  if goal == "cut" then
    let st :=
      if (Meal.calories meal <=? 600)%Z && (Meal.protein_g meal >=? 35)%Z
      then say "cut: high protein, moderate calories" (add (W "goal_cut") st)
      else st in
    if (Meal.fat_g meal >? 22)%Z then sub (W "fat_penalty_cut") st else st
  else if goal == "bulk" then
    if (Meal.calories meal >=? 650)%Z && (Meal.protein_g meal >=? 40)%Z
    then say "bulk: higher cals & protein" (add (W "goal_bulk") st)
    else if (Meal.calories meal <? 600)%Z then sub 3 st
    else st
  else (* maintenance *)
    if (500 <=? Meal.calories meal)%Z && (Meal.calories meal <=? 700)%Z
    then say "maintenance-friendly calories" (add (W "goal_maint") st)
    else st.

(* Timing *)
Definition timing_rule (meal : Meal.t) (ans : Ans.t) (st : Acc) : Acc :=
  let timing := Ans.timing ans in
  if timing == "pre" then
    let st :=
      if (Meal.fat_g meal <=? 20)%Z
      then say "pre: lighter fat" (add (W "pre_low_fat") st)
      else sub (W "pre_low_fat") st in
    let st :=
      if (40 <=? Meal.carbs_g meal)%Z && (Meal.carbs_g meal <=? 90)%Z
      then say "pre: good carbs" (add (W "pre_good_carbs") st)
      else st in
    if (25 <=? Meal.protein_g meal)%Z && (Meal.protein_g meal <=? 40)%Z
    then add (W "pre_mod_protein") st
    else st
  else if timing == "post" then
    let st :=
      if (Meal.protein_g meal >=? 35)%Z
      then say "post: protein for recovery" (add (W "post_protein") st)
      else st in
    let st := if (Meal.carbs_g meal >=? 50)%Z then add (W "post_carbs") st else st in
    if (Meal.fat_g meal <=? 20)%Z then add (W "post_low_fat") st else st
  else st.

(* Effort *)
Definition effort_rule (meal : Meal.t) (ans : Ans.t) (st : Acc) : Acc :=
  let effort := Ans.effort ans in
  if effort == "low" then
    if Meal.effort meal == "low"
    then say "low effort prep" (add (W "effort_low_bonus") st)
    else sub (W "effort_low_penalty") st
  else if effort == "med" then
    if str_in (Meal.effort meal) ["low"; "med"] then add (W "effort_med_bonus") st else st
  else if effort == "high" then
    if Meal.effort meal == "high" then add (W "effort_high_bonus") st else sub 2 st
  else if effort == "restaurant" then
    if Meal.takeout_ok meal
    then say "restaurant/takeout friendly" (add (W "effort_restaurant_bonus") st)
    else sub (W "effort_restaurant_penalty") st
  else st.

(* Sodium *)
Definition sodium_rule (meal : Meal.t) (ans : Ans.t) (st : Acc) : Acc :=
  let sodium_pref := Ans.sodium_pref ans in
  if sodium_pref == "lower" then
    if (Meal.sodium_mg meal <=? 500)%Z then say "lower sodium" (add (W "sodium_low_bonus") st)
    else if (Meal.sodium_mg meal >? 700)%Z then sub (W "sodium_high_penalty") st
    else st
  else
    if (Meal.sodium_mg meal >? 850)%Z then sub (W "sodium_too_high_penalty") st else st.

(* Spice *)
Definition spice_rule (meal : Meal.t) (ans : Ans.t) (st : Acc) : Acc :=
  let spice_pref := Ans.spice_pref ans in
  if negb (spice_pref == "no-pref") && (Meal.spice meal == spice_pref)
  then add (W "spice_match_bonus") st
  else st.

(* Flags for optional ingredients *)
Definition advisory_flags (meal : Meal.t) : list string :=
  let flags := [] in
  let flags :=
    if str_in "gluten?" (Meal.allergens meal)
    then (flags ++ ["gluten depends on ingredients"])%list else flags in
  let flags :=
    if str_in "dairy?" (Meal.allergens meal)
    then (flags ++ ["omit butter to be dairy-free"])%list else flags in
  flags.

(** What [score_meal] returns: [(score, reasons, flags)]. *)
Definition Scored : Type := (Z * list string * list string)%type.

Definition score_meal (meal : Meal.t) (ans : Ans.t) : Scored :=
  (* Avoidances filter *)
  if conflicts meal ans then
    (-999, ["conflicts with avoidances"], ["contains allergen"])
  else
    let st := mkAcc 50 [] in
    let st := protein_rule meal ans st in
    let st := goal_rule meal ans st in
    let st := timing_rule meal ans st in
    let st := effort_rule meal ans st in
    let st := sodium_rule meal ans st in
    let st := spice_rule meal ans st in
    (score st, reasons st, advisory_flags meal).

(** ** The [random] module

    [recommend] calls [random.seed(seed)] and [random.shuffle(scored)] on
    the module-level generator of Python's [random].  The generator itself
    (a Mersenne Twister in CPython) is library code; what the recommender
    relies on is its interface: seeding replaces the hidden state by one
    that depends on the seed alone, and [_randbelow(n)] draws an index below
    [n] and advances the state. *)
Class RandomModule : Type := {
  rng : Type;
  seed_state : Z -> rng;
  randbelow : nat -> rng -> nat * rng;
  randbelow_lt : forall n g, (0 < n)%nat -> (fst (randbelow n g) < n)%nat
}.

(** [x[i] = v] on a list; an index out of range leaves the list as it is
    (Python raises [IndexError] there; see [swap]). *)
Fixpoint set_nth {X : Type} (i : nat) (v : X) (x : list X) : list X :=
  match x, i with
  | [], _ => []
  | _ :: rest, O => v :: rest
  | a :: rest, S i' => a :: set_nth i' v rest
  end.

(** [x[i], x[j] = x[j], x[i]]: both reads, then the two writes in order.
    Python raises [IndexError] when an index is out of range; the shuffle
    never gets there ([shuffle_indices_in_range]), and the model leaves the
    list unchanged in that case. *)
Definition swap {X : Type} (i j : nat) (x : list X) : list X :=
  match nth_error x j, nth_error x i with
  | Some xj, Some xi => set_nth j xi (set_nth i xj x)
  | _, _ => x
  end.

(** The exchange as Python runs it: [None] is the [IndexError] of an index
    that is out of range. *)
Definition swap_strict {X : Type} (i j : nat) (x : list X) : option (list X) :=
  match nth_error x j, nth_error x i with
  | Some xj, Some xi => Some (set_nth j xi (set_nth i xj x))
  | _, _ => None
  end.

Section Shuffle.
Context {R : RandomModule} {X : Type}.

(** The loop of [random.shuffle]:
    [for i in reversed(range(1, len(x))): j = randbelow(i + 1); swap],
    entered with [i] the highest index still to be visited. *)
Fixpoint shuffle_from (i : nat) (x : list X) (g : rng) : list X * rng :=
  match i with
  | O => (x, g)
  | S i' =>
      let (j, g') := randbelow (i + 1) g in
      shuffle_from i' (swap i j x) g'
  end.

Definition shuffle (x : list X) (g : rng) : list X * rng :=
  shuffle_from (List.length x - 1) x g.

(** The loop with the raising exchange. *)
Fixpoint shuffle_from_strict (i : nat) (x : list X) (g : rng) : option (list X * rng) :=
  match i with
  | O => Some (x, g)
  | S i' =>
      let (j, g') := randbelow (i + 1) g in
      match swap_strict i j x with
      | Some x' => shuffle_from_strict i' x' g'
      | None => None
      end
  end.

End Shuffle.

(** ** The recommender *)

(** One element of the list [scored]: the tuple [(s, m, r, f)]. *)
Definition Entry : Type := (Z * Meal.t * list string * list string)%type.

Definition entry_score (e : Entry) : Z := let '(s, _, _, _) := e in s.
Definition entry_meal (e : Entry) : Meal.t := let '(_, m, _, _) := e in m.

(** The list the first loop of [recommend] builds: the tuples of the meals
    scored above -500, in catalog order ([score_loop] below is the loop). *)
Fixpoint score_all (meals : list Meal.t) (ans : Ans.t) : list Entry :=
  match meals with
  | [] => []
  | m :: rest =>
      let '(s, r, f) := score_meal m ans in
      if (s >? -500)%Z then (s, m, r, f) :: score_all rest ans
      else score_all rest ans
  end.

(** The tuple appended for a meal that passes the filter. *)
Definition entry_of (ans : Ans.t) (m : Meal.t) : Entry :=
  let '(s, r, f) := score_meal m ans in (s, m, r, f).

(** The filter [s > -500]. *)
Definition survives (ans : Ans.t) (m : Meal.t) : bool :=
  (fst (fst (score_meal m ans)) >? -500)%Z.

(** [scored.sort(key=lambda x: x[0], reverse=True)].  Python's sort is
    stable, and with [reverse=True] entries of equal score still keep their
    relative order; a stable sort has one possible result, which insertion
    from the right computes: a new entry goes in front of the first entry
    whose score is not greater than its own. *)
Fixpoint insert_desc (e : Entry) (l : list Entry) : list Entry :=
  match l with
  | [] => [e]
  | y :: rest =>
      if (entry_score y <=? entry_score e)%Z then e :: y :: rest
      else y :: insert_desc e rest
  end.

Fixpoint sort_desc (l : list Entry) : list Entry :=
  match l with
  | [] => []
  | e :: rest => insert_desc e (sort_desc rest)
  end.

(** The order of the ranking: scores do not increase along the list. *)
Definition score_ge (a b : Entry) : Prop := entry_score a >= entry_score b.

(** The slice [x[:k]] for a Python integer [k]: a negative [k] counts from
    the end of the list. *)
Definition slice_to {X : Type} (k : Z) (x : list X) : list X :=
  if (k <? 0)%Z then firstn (Z.to_nat (Z.of_nat (List.length x) + k)) x
  else firstn (Z.to_nat k) x.

(** The output dictionaries. *)
Module Rec.
Record macros_t : Type := mk_macros {
  calories : Z;
  protein_g : Z;
  carbs_g : Z;
  fat_g : Z
}.
Record t : Type := mk {
  name : string;
  items : list string;
  macros : macros_t;
  sodium_mg : Z;
  score : Z;
  reasons : list string;
  flags : list string
}.
End Rec.

Record Result : Type := mkResult {
  top_recommendations : list Rec.t;
  explanation : string
}.

(** The body of the last loop: one output dictionary per entry.
    [round(s, 1)] leaves an integral score as it is. *)
Definition package (e : Entry) : Rec.t :=
  let '(s, m, r, f) := e in
  Rec.mk (Meal.name m) (Meal.items m)
    (Rec.mk_macros (Meal.calories m) (Meal.protein_g m) (Meal.carbs_g m) (Meal.fat_g m))
    (Meal.sodium_mg m) s r f.

Definition no_meals_message : string :=
  "No meals fit all choices. Try relaxing one avoidance or picking 'No preference'.".

Definition helper_message : string := "Simple terminal helper for meal ideas.".

Section Recommender.
Context {R : RandomModule}.

(** The process-global state in reach of [recommend]: the module-level list
    [MEALS] and the state of the generator behind [random.seed] and
    [random.shuffle]. *)
Record World : Type := mkWorld {
  catalog : list Meal.t;
  random : rng
}.

(** The program starts with the catalog as written in the source. *)
Definition startup (g : rng) : World := mkWorld MEALS g.

(** Computations over the global state. *)
Definition M (X : Type) : Type := World -> X * World.

Definition ret {X : Type} (x : X) : M X := fun w => (x, w).

Definition bind {X Y : Type} (c : M X) (k : X -> M Y) : M Y :=
  fun w => let (x, w') := c w in k x w'.

Notation "x <- c ;; k" := (bind c (fun x => k))
  (at level 61, c at next level, right associativity).
Notation "c ;; k" := (bind c (fun _ => k))
  (at level 61, right associativity).

(** Reading the global [MEALS]. *)
Definition read_MEALS : M (list Meal.t) := fun w => (catalog w, w).

(** [random.seed(seed)]. *)
Definition random_seed (seed : Z) : M unit :=
  fun w => (tt, mkWorld (catalog w) (seed_state seed)).

(** [random.shuffle(x)], on a list local to the caller. *)
Definition random_shuffle {X : Type} (x : list X) : M (list X) :=
  fun w => let (x', g') := shuffle x (random w) in (x', mkWorld (catalog w) g').

(** A call [score_meal(m, ans)] from inside a computation: the function
    reads its arguments and writes nothing. *)
Definition call_score_meal (m : Meal.t) (ans : Ans.t) : M Scored :=
  ret (score_meal m ans).

(** The first loop:
    [for m in MEALS: s, r, f = score_meal(m, ans); if s > -500: scored.append((s, m, r, f))],
    entered with the list [scored] built so far. *)
Fixpoint score_loop (meals : list Meal.t) (ans : Ans.t) (scored : list Entry)
    : M (list Entry) :=
  match meals with
  | [] => ret scored
  | m :: rest =>
      srf <- call_score_meal m ans ;;
      let '(s, r, f) := srf in
      if (s >? -500)%Z then score_loop rest ans (scored ++ [(s, m, r, f)])%list
      else score_loop rest ans scored
  end.

Definition recommend (ans : Ans.t) (top_k : Z) (seed : option Z) : M Result :=
  meals <- read_MEALS ;;
  scored <- score_loop meals ans [] ;;
  match scored with
  | [] => ret (mkResult [] no_meals_message)
  | _ :: _ =>
      scored <- match seed with
                | Some s => random_seed s ;; random_shuffle scored
                | None => ret scored
                end ;;
      let scored := sort_desc scored in
      let top := slice_to top_k scored in
      ret (mkResult (map package top) helper_message)
  end.

(** The order in which the surviving entries reach the sort. *)
Definition arrange (seed : option Z) (scored : list Entry) : list Entry :=
  match seed with
  | Some s => fst (shuffle scored (seed_state s))
  | None => scored
  end.

End Recommender.

(** ** Strings, as the prompts use them

    A [string] stands for a Python [str] whose characters have code points
    below 256, the code point of a character being [nat_of_ascii].  The
    methods of [str] that the prompts call are defined on that range. *)

(** [c.isspace()]. *)
Definition isspace (c : ascii) : bool :=
  let n := nat_of_ascii c in
  ((9 <=? n) && (n <=? 13) || (28 <=? n) && (n <=? 32) || (n =? 133) || (n =? 160))%nat.

(** [c.isdigit()]: the decimal digits and the superscripts one, two, three. *)
Definition isdigit_char (c : ascii) : bool :=
  let n := nat_of_ascii c in
  ((48 <=? n) && (n <=? 57) || (n =? 178) || (n =? 179) || (n =? 185))%nat.

(** [c.lower()]. *)
Definition lower_char (c : ascii) : ascii :=
  let n := nat_of_ascii c in
  if ((65 <=? n) && (n <=? 90) || (192 <=? n) && (n <=? 222) && negb (n =? 215))%nat
  then ascii_of_nat (n + 32)
  else c.

Fixpoint lower (s : string) : string :=
  match s with
  | EmptyString => EmptyString
  | String c rest => String (lower_char c) (lower rest)
  end.

Fixpoint lstrip (s : string) : string :=
  match s with
  | EmptyString => EmptyString
  | String c rest => if isspace c then lstrip rest else s
  end.

Fixpoint rstrip (s : string) : string :=
  match s with
  | EmptyString => EmptyString
  | String c rest =>
      match rstrip rest with
      | EmptyString => if isspace c then EmptyString else String c EmptyString
      | kept => String c kept
      end
  end.

(** [s.strip()]. *)
Definition strip (s : string) : string := rstrip (lstrip s).

Fixpoint all_digits (s : string) : bool :=
  match s with
  | EmptyString => true
  | String c rest => isdigit_char c && all_digits rest
  end.

(** [s.isdigit()]: at least one character, and digits only. *)
Definition isdigit (s : string) : bool := negb (s == "") && all_digits s.

(** [int(s)] for a string [s] of digit characters; [None] is the
    [ValueError] raised for a character that is no decimal digit. *)
Definition py_int (s : string) : option Z :=
  match DecimalString.NilEmpty.uint_of_string s with
  | Some d => Some (Z.of_uint d)
  | None => None
  end.

(** [str(i)] for an integer, as the f-strings print it. *)
Definition py_str (i : Z) : string :=
  DecimalString.NilZero.string_of_int (Z.to_int i).

(** [s.split(sep)] for a one-character separator. *)
Fixpoint split_on (sep : ascii) (s : string) : list string :=
  match s with
  | EmptyString => [EmptyString]
  | String c rest =>
      if Ascii.eqb c sep then EmptyString :: split_on sep rest
      else match split_on sep rest with
           | piece :: pieces => String c piece :: pieces
           | [] => [String c EmptyString]
           end
  end.

(** [sep.join(pieces)]. *)
Fixpoint join (sep : string) (pieces : list string) : string :=
  match pieces with
  | [] => EmptyString
  | [p] => p
  | p :: rest => p ++ sep ++ join sep rest
  end.

(** [s.startswith(prefix)] is [String.prefix prefix s]. *)

(** [sorted(set(xs))] on integers: the elements of [xs], each once, in
    increasing order. *)
Fixpoint insert_once (x : Z) (l : list Z) : list Z :=
  match l with
  | [] => [x]
  | y :: rest =>
      if (x <? y)%Z then x :: l
      else if (x =? y)%Z then l
      else y :: insert_once x rest
  end.

Definition sorted_set (xs : list Z) : list Z := fold_right insert_once [] xs.

(** ** The terminal *)

Definition esc : string := String (ascii_of_nat 27) EmptyString.
Definition nl : string := String (ascii_of_nat 10) EmptyString.

(** The class [C] of ANSI colours; its attributes are assigned to by
    [enable_color]. *)
Module C.
Record t : Type := mk {
  BOLD : string;
  DIM : string;
  CYAN : string;
  GREEN : string;
  YELLOW : string;
  RED : string;
  RESET : string
}.
End C.

(** The attributes as the class statement sets them. *)
Definition C_initial : C.t :=
  C.mk (esc ++ "[1m") (esc ++ "[2m") (esc ++ "[36m") (esc ++ "[32m")
       (esc ++ "[33m") (esc ++ "[31m") (esc ++ "[0m").

(** What the prompts act on: the class [C], the lines still to be read
    from standard input, and what was written to standard output, one
    entry per write. *)
Record Term : Type := mkTerm {
  colors : C.t;
  stdin : list string;
  stdout : list string
}.

(** The exceptions that can leave the prompts and the questions of [main]. *)
Inductive Exn : Type :=
| EOFError
| ValueError
| KeyError
| IndexError.

(** A call either returns or raises, and leaves a terminal behind. *)
Definition Outcome (X : Type) : Type := ((Exn + X) * Term)%type.

(** [enable_color(enable)]: each attribute that starts with the escape
    character is set to the empty string. *)
Definition blank_if_escape (v : string) : string :=
  if String.prefix esc v then EmptyString else v.

Definition enable_color (enable : bool) (t : Term) : Outcome unit :=
  if negb enable then
    let c := colors t in
    (inr tt,
     mkTerm
       (C.mk (blank_if_escape (C.BOLD c)) (blank_if_escape (C.DIM c))
             (blank_if_escape (C.CYAN c)) (blank_if_escape (C.GREEN c))
             (blank_if_escape (C.YELLOW c)) (blank_if_escape (C.RED c))
             (blank_if_escape (C.RESET c)))
       (stdin t) (stdout t))
  else (inr tt, t).

(** [print(s)] writes [s] and a newline. *)
Definition printed (s : string) : string := s ++ nl.

(** The lines [f"{i}. {ch}"] of [for i, ch in enumerate(choices, start=1)],
    with [i] the number of the first choice. *)
Fixpoint menu (i : Z) (choices : list string) : list string :=
  match choices with
  | [] => []
  | ch :: rest => printed (py_str i ++ ". " ++ ch) :: menu (i + 1) rest
  end.

(** The loop of [ask].  Each turn writes the prompt of [input], takes one
    line from standard input (an exhausted input is [EOFError]) and either
    returns or prints the warning and goes round again. *)
Fixpoint ask_loop (n_choices : Z) (allow_zero allow_back : bool)
    (default_index : option Z) (c : C.t) (lines : list string) (out : list string)
    : Outcome Z :=
  let out := (out ++ ["> "])%list in
  match lines with
  | [] => (inl EOFError, mkTerm c [] out)
  | line :: rest =>
      let sel := lower (strip line) in
      let again :=
        ask_loop n_choices allow_zero allow_back default_index c rest
          (out ++ [printed (C.YELLOW c ++ "Please enter a valid option." ++ C.RESET c)])%list in
      match default_index, sel == "" with
      | Some d, true => (inr d, mkTerm c rest out)
      | _, _ =>
          if allow_back && (sel == "b") then (inr (-1), mkTerm c rest out)
          else if allow_zero && (sel == "0") then (inr 0, mkTerm c rest out)
          else if isdigit sel then
            match py_int sel with
            | None => (inl ValueError, mkTerm c rest out)
            | Some idx =>
                if (1 <=? idx)%Z && (idx <=? n_choices)%Z
                then (inr idx, mkTerm c rest out)
                else again
            end
          else again
      end
  end.

(** [ask(prompt, choices, allow_zero, allow_back, default_index)]. *)
Definition ask (prompt : string) (choices : list string) (allow_zero allow_back : bool)
    (default_index : option Z) (t : Term) : Outcome Z :=
  let c := colors t in
  let out := (stdout t ++ [printed (nl ++ C.BOLD c ++ prompt ++ C.RESET c)])%list in
  let out := (out ++ menu 1 choices)%list in
  let out := if allow_zero then (out ++ [printed "0. None/Done"])%list else out in
  let out := if allow_back then (out ++ [printed "b. Back"])%list else out in
  ask_loop (Z.of_nat (List.length choices)) allow_zero allow_back default_index
    c (stdin t) out.

(** [[p.strip() for p in raw.split(",") if p.strip()]]. *)
Definition parts_of (raw : string) : list string :=
  filter (fun p => negb (p == "")) (map strip (split_on ","%char raw)).

(** [[int(p) for p in parts]]; [None] is the [ValueError] of the first part
    that [int] rejects. *)
Fixpoint ints_of (parts : list string) : option (list Z) :=
  match parts with
  | [] => Some []
  | p :: rest =>
      match py_int p with
      | None => None
      | Some i =>
          match ints_of rest with
          | None => None
          | Some is_ => Some (i :: is_)
          end
      end
  end.

(** The loop of [ask_multi]. *)
Fixpoint ask_multi_loop (n_choices : Z) (allow_back : bool)
    (c : C.t) (lines : list string) (out : list string) : Outcome (list Z) :=
  let out := (out ++ ["> "])%list in
  match lines with
  | [] => (inl EOFError, mkTerm c [] out)
  | line :: rest =>
      let raw := lower (strip line) in
      let again :=
        ask_multi_loop n_choices allow_back c rest
          (out ++ [printed (C.YELLOW c
                            ++ "Please enter valid numbers like 1,3,7 (or 0 for none)."
                            ++ C.RESET c)])%list in
      if allow_back && (raw == "b") then (inr [-1], mkTerm c rest out)
      else if raw == "0" then (inr [], mkTerm c rest out)
      else
        let parts := parts_of raw in
        if forallb isdigit parts then
          match ints_of parts with
          | None => (inl ValueError, mkTerm c rest out)
          | Some idxs =>
              if forallb (fun i => (1 <=? i)%Z && (i <=? n_choices)%Z) idxs
              then (inr (sorted_set idxs), mkTerm c rest out)
              else again
          end
        else again
  end.

(** The labels of the preselected choices:
    [choices[i-1] for i in sorted(set(preselected)) if 1 <= i <= len(choices)]. *)
Definition preselected_labels (choices : list string) (preselected : list Z) : list string :=
  map (fun i => nth (Z.to_nat (i - 1)) choices EmptyString)
    (filter (fun i => (1 <=? i)%Z && (i <=? Z.of_nat (List.length choices))%Z)
       (sorted_set preselected)).

(** [ask_multi(prompt, choices, allow_back, preselected)]. *)
Definition ask_multi (prompt : string) (choices : list string) (allow_back : bool)
    (preselected : option (list Z)) (t : Term) : Outcome (list Z) :=
  let c := colors t in
  let out := (stdout t ++ [printed (nl ++ C.BOLD c ++ prompt ++ C.RESET c)])%list in
  let out := (out ++ menu 1 choices)%list in
  let out := (out ++ [printed "0. None/Done"])%list in
  let out := if allow_back then (out ++ [printed "b. Back"])%list else out in
  let out :=
    match preselected with
    | Some ((_ :: _) as pre) =>
        (out ++ [printed (C.DIM c ++ "(Preselected: "
                          ++ join ", " (preselected_labels choices pre)
                          ++ ")" ++ C.RESET c)])%list
    | _ => out
    end in
  let out :=
    (out ++ [printed (C.DIM c
                      ++ "Enter numbers separated by commas (e.g., 1,4,6) or 0 for none."
                      ++ C.RESET c)])%list in
  ask_multi_loop (Z.of_nat (List.length choices)) allow_back c (stdin t) out.

(** ** The questions of [main]

    The first part of [main]: from [enable_color] and the banner to the
    dictionary [answers].  What [load_prefs() or {}] gave is the parameter
    [prior]; the command line contributes [--no-color]. *)

(** The dictionary [prior], for a preferences file that is absent,
    unreadable or empty, or holds a JSON object of the shape [save_prefs]
    writes: under a single-choice key a string (a key that is missing, or
    holds [null], a number or a boolean, looks up like no string at all:
    [None] here), and under ["avoids"] a list of strings (missing: the
    empty list). *)
Module Prior.
Record t : Type := mk {
  goal : option string;
  timing : option string;
  protein_pref : option string;
  avoids : list string;
  effort : option string;
  sodium_pref : option string;
  spice_pref : option string
}.
End Prior.

(** [{...}.get(prior.get(key))] for a dictionary from strings to numbers. *)
Definition default_of (table : list (string * Z)) (v : option string) : option Z :=
  match v with
  | Some s => lookup s table
  | None => None
  end.

(** [{1: ..., 2: ...}[r]]; [None] is the [KeyError] of a missing key. *)
Fixpoint lookup_num (r : Z) (table : list (Z * string)) : option string :=
  match table with
  | [] => None
  | (k, v) :: rest => if (k =? r)%Z then Some v else lookup_num r rest
  end.

(** [xs[k]] for a Python integer [k]: a negative index counts from the end;
    [None] is the [IndexError] of an index out of range. *)
Definition py_index {X : Type} (xs : list X) (k : Z) : option X :=
  if (k <? 0)%Z then
    if (k <? - Z.of_nat (List.length xs))%Z then None
    else nth_error xs (Z.to_nat (Z.of_nat (List.length xs) + k))
  else nth_error xs (Z.to_nat k).

(** The code points of [a.capitalize()]: the first character in title case,
    the others in lower case.  Three characters below 256 have a title case
    outside that range, or of two characters. *)
Definition title_codes (c : ascii) : list nat :=
  let n := nat_of_ascii c in
  if ((97 <=? n) && (n <=? 122) || (224 <=? n) && (n <=? 254) && negb (n =? 247))%nat
  then [(n - 32)%nat]
  else if (n =? 181)%nat then [924%nat]
  else if (n =? 223)%nat then [83%nat; 115%nat]
  else if (n =? 255)%nat then [376%nat]
  else [n].

Fixpoint codes (s : string) : list nat :=
  match s with
  | EmptyString => []
  | String c rest => nat_of_ascii c :: codes rest
  end.

Definition capitalize_codes (a : string) : list nat :=
  match a with
  | EmptyString => []
  | String c rest => (title_codes c ++ codes (lower rest))%list
  end.

(** [xs.index(a.capitalize())], with [None] when it is not in [xs]. *)
Fixpoint index_capitalized (a : string) (xs : list string) : option Z :=
  match xs with
  | [] => None
  | x :: rest =>
      if list_eq_dec Nat.eq_dec (codes x) (capitalize_codes a) then Some 0%Z
      else match index_capitalized a rest with
           | Some k => Some (k + 1)%Z
           | None => None
           end
  end.

Definition goal_choices : list string := ["Cut (lean)"; "Maintenance"; "Bulk (gain)"].
Definition goal_index : list (string * Z) := [("cut", 1); ("maintenance", 2); ("bulk", 3)].
Definition goal_names : list (Z * string) := [(1, "cut"); (2, "maintenance"); (3, "bulk")].

Definition timing_choices : list string :=
  ["Pre-workout (0–2h before)"; "Post-workout (0–2h after)"; "Anytime"].
Definition timing_index : list (string * Z) := [("pre", 1); ("post", 2); ("any", 3)].
Definition timing_names : list (Z * string) := [(1, "pre"); (2, "post"); (3, "any")].

Definition protein_choices : list string :=
  ["Beef/red meat"; "Poultry (chicken/turkey)"; "Fish/seafood"; "Plant-only"; "No preference"].
Definition protein_index : list (string * Z) :=
  [("beef", 1); ("poultry", 2); ("fish/seafood", 3); ("plant-only", 4); ("no-preference", 5)].
Definition protein_names : list (Z * string) :=
  [(1, "beef"); (2, "poultry"); (3, "fish/seafood"); (4, "plant-only"); (5, "no-preference")].

Definition avoids_lookup : list string :=
  ["Dairy"; "Gluten"; "Nuts"; "Eggs"; "Soy"; "Shellfish"; "Sesame"].

Definition effort_choices : list string :=
  ["Low (<15 min)"; "Medium (15–30 min)"; "High (>30 min)"; "Restaurant/Takeout OK"].
Definition effort_index : list (string * Z) :=
  [("low", 1); ("med", 2); ("high", 3); ("restaurant", 4)].
Definition effort_names : list (Z * string) :=
  [(1, "low"); (2, "med"); (3, "high"); (4, "restaurant")].

Definition sodium_choices : list string := ["Normal"; "Lower sodium"].
Definition sodium_index : list (string * Z) := [("normal", 1); ("lower", 2)].
Definition sodium_names : list (Z * string) := [(1, "normal"); (2, "lower")].

Definition spice_choices : list string := ["Mild"; "Medium"; "Spicy"; "No preference"].
Definition spice_index : list (string * Z) :=
  [("mild", 1); ("medium", 2); ("spicy", 3); ("no-pref", 4)].
Definition spice_names : list (Z * string) :=
  [(1, "mild"); (2, "medium"); (3, "spicy"); (4, "no-pref")].

(** [pre_idxs]: the numbers of the stored avoidances that, capitalized, are
    in [avoids_lookup]. *)
Definition pre_idxs (prior : Prior.t) : list Z :=
  flat_map (fun a => match index_capitalized a avoids_lookup with
                     | Some k => [(k + 1)%Z]
                     | None => []
                     end)
    (Prior.avoids prior).

(** [print(s)]. *)
Definition print (s : string) (t : Term) : Term :=
  mkTerm (colors t) (stdin t) (stdout t ++ [printed s])%list.

(** [[avoids_lookup[i-1].lower() for i in idxs]]; [None] is an
    [IndexError]. *)
Fixpoint avoids_of (idxs : list Z) : option (list string) :=
  match idxs with
  | [] => Some []
  | i :: rest =>
      match py_index avoids_lookup (i - 1) with
      | None => None
      | Some name =>
          match avoids_of rest with
          | None => None
          | Some names => Some (lower name :: names)
          end
      end
  end.

(** The loops below run [while True]; each turn reads at least one line of
    standard input, so a turn counter that starts above the number of lines
    left is never used up (proved with the questions below).  [None] is a
    used-up counter. *)

(** Question 2, with [goal] as answered so far.  Going back asks the goal
    again, then the timing again. *)
Fixpoint timing_loop (turns : nat) (prior : Prior.t) (goal : string) (t : Term)
    : option (Outcome (string * string)) :=
  match turns with
  | O => None
  | S turns' =>
      let timing_default := default_of timing_index (Prior.timing prior) in
      match ask "When is this meal?" timing_choices false true timing_default t with
      | (inl e, t1) => Some (inl e, t1)
      | (inr r, t1) =>
          if (r =? -1)%Z then
            (* back to goal *)
            match ask "What's your current goal?" goal_choices false false
                    (default_of goal_index (Prior.goal prior)) t1 with
            | (inl e, t2) => Some (inl e, t2)
            | (inr g, t2) =>
                match lookup_num g goal_names with
                | None => Some (inl KeyError, t2)
                | Some goal' => timing_loop turns' prior goal' t2
                end
            end
          else
            match lookup_num r timing_names with
            | None => Some (inl KeyError, t1)
            | Some timing => Some (inr (goal, timing), t1)
            end
      end
  end.

(** Questions 3, 5, 6 and 7 have one shape: ask with going back allowed;
    on -1 go round again, else look the answer up. *)
Fixpoint single_loop (turns : nat) (prompt : string) (choices : list string)
    (default_index : option Z) (names : list (Z * string)) (t : Term)
    : option (Outcome string) :=
  match turns with
  | O => None
  | S turns' =>
      match ask prompt choices false true default_index t with
      | (inl e, t1) => Some (inl e, t1)
      | (inr r, t1) =>
          if (r =? -1)%Z then single_loop turns' prompt choices default_index names t1
          else
            match lookup_num r names with
            | None => Some (inl KeyError, t1)
            | Some v => Some (inr v, t1)
            end
      end
  end.

(** Question 4, with [protein_pref] as answered so far.  Going back asks
    the protein preference again, then the avoidances again. *)
Fixpoint avoids_loop (turns : nat) (prior : Prior.t) (protein_pref : string) (t : Term)
    : option (Outcome (string * list string)) :=
  match turns with
  | O => None
  | S turns' =>
      let pre := pre_idxs prior in
      match ask_multi "Do you need to avoid anything? (comma-separated, Enter for none)."
              avoids_lookup true
              (match pre with [] => None | _ :: _ => Some pre end) t with
      | (inl e, t1) => Some (inl e, t1)
      | (inr idxs, t1) =>
          if list_eq_dec Z.eq_dec idxs [(-1)%Z] then
            (* back to protein pref *)
            match ask "Pick a protein preference." protein_choices false false
                    (default_of protein_index (Prior.protein_pref prior)) t1 with
            | (inl e, t2) => Some (inl e, t2)
            | (inr p, t2) =>
                match lookup_num p protein_names with
                | None => Some (inl KeyError, t2)
                | Some protein_pref' => avoids_loop turns' prior protein_pref' t2
                end
            end
          else
            match avoids_of idxs with
            | None => Some (inl IndexError, t1)
            | Some avoids =>
                let t2 :=
                  match avoids with
                  | [] => t1
                  | _ :: _ =>
                      print (C.CYAN (colors t1) ++ "Avoiding: " ++ join ", " avoids
                             ++ C.RESET (colors t1)) t1
                  end in
                Some (inr (protein_pref, avoids), t2)
            end
      end
  end.

(** Sequencing: an exception or a used-up counter ends the run. *)
Definition and_then {X Y : Type} (step : option (Outcome X))
    (next : X -> Term -> option (Outcome Y)) : option (Outcome Y) :=
  match step with
  | None => None
  | Some (inl e, t) => Some (inl e, t)
  | Some (inr x, t) => next x t
  end.

Definition turns_for (t : Term) : nat := S (List.length (stdin t)).

Definition main_questions (no_color : bool) (prior : Prior.t) (t : Term)
    : option (Outcome Ans.t) :=
  let t := snd (enable_color (negb no_color) t) in
  let t := print (C.BOLD (colors t) ++ "=== MealMD (step-by-step) ===" ++ C.RESET (colors t)) t in
  let t := print "Answer with the number of your choice. Type 'b' to go back when available." t in
  (* 1) Goal *)
  and_then
    (match ask "What's your current goal?" goal_choices false false
             (default_of goal_index (Prior.goal prior)) t with
     | (inl e, t1) => Some (inl e, t1)
     | (inr g, t1) =>
         match lookup_num g goal_names with
         | None => Some (inl KeyError, t1)
         | Some goal => Some (inr goal, t1)
         end
     end)
    (fun goal t =>
  (* 2) Timing *)
  and_then (timing_loop (turns_for t) prior goal t)
    (fun '(goal, timing) t =>
  (* 3) Protein preference *)
  and_then (single_loop (turns_for t) "Pick a protein preference." protein_choices
              (default_of protein_index (Prior.protein_pref prior)) protein_names t)
    (fun protein_pref t =>
  (* 4) Avoidances *)
  and_then (avoids_loop (turns_for t) prior protein_pref t)
    (fun '(protein_pref, avoids) t =>
  (* 5) Effort *)
  and_then (single_loop (turns_for t) "How much cooking effort?" effort_choices
              (default_of effort_index (Prior.effort prior)) effort_names t)
    (fun effort t =>
  (* 6) Sodium *)
  and_then (single_loop (turns_for t) "Sodium needs?" sodium_choices
              (default_of sodium_index (Prior.sodium_pref prior)) sodium_names t)
    (fun sodium_pref t =>
  (* 7) Spice *)
  and_then (single_loop (turns_for t) "Spice preference?" spice_choices
              (default_of spice_index (Prior.spice_pref prior)) spice_names t)
    (fun spice_pref t =>
  Some (inr (Ans.mk goal timing protein_pref avoids effort sodium_pref spice_pref), t)))))))).

(** ** Vocabulary of the statements *)

(** What one rule can do to the accumulators: add an amount between [lo]
    and [hi] to the score and append to the reasons; nothing already
    recorded is changed. *)
Definition effect (lo hi : Z) (st st' : Acc) : Prop :=
  lo <= score st' - score st <= hi /\
  exists rs, reasons st' = (reasons st ++ rs)%list.

(** Disqualification as the specification words it: the specification
    compares tags "with any trailing [?] marker stripped".  [base_tag] and
    [stripped_conflicts] follow those words; the source has no such step,
    and [conflicts] above is what it computes. *)
Fixpoint base_tag (t : string) : string :=
  match t with
  | EmptyString => EmptyString
  | String c EmptyString => if Ascii.eqb c "?"%char then EmptyString else t
  | String c rest => String c (base_tag rest)
  end.

Definition stripped_conflicts (meal : Meal.t) (ans : Ans.t) : bool :=
  existsb (fun a => str_in a (map base_tag (Meal.allergens meal))) (Ans.avoids ans).

(** The values the wizard can produce for each key, and the spice levels
    of a meal. *)
Definition goal_enum : list string := ["cut"; "maintenance"; "bulk"].
Definition timing_enum : list string := ["pre"; "post"; "any"].
Definition protein_pref_enum : list string :=
  ["beef"; "poultry"; "fish/seafood"; "plant-only"; "no-preference"].
Definition effort_enum : list string := ["low"; "med"; "high"; "restaurant"].
Definition sodium_pref_enum : list string := ["normal"; "lower"].
Definition spice_pref_enum : list string := ["mild"; "medium"; "spicy"; "no-pref"].
Definition meal_spice_enum : list string := ["mild"; "medium"; "spicy"].

(** The answer set with one key replaced. *)
Definition with_goal (v : string) (a : Ans.t) : Ans.t :=
  Ans.mk v (Ans.timing a) (Ans.protein_pref a) (Ans.avoids a) (Ans.effort a)
    (Ans.sodium_pref a) (Ans.spice_pref a).
Definition with_timing (v : string) (a : Ans.t) : Ans.t :=
  Ans.mk (Ans.goal a) v (Ans.protein_pref a) (Ans.avoids a) (Ans.effort a)
    (Ans.sodium_pref a) (Ans.spice_pref a).
Definition with_sodium_pref (v : string) (a : Ans.t) : Ans.t :=
  Ans.mk (Ans.goal a) (Ans.timing a) (Ans.protein_pref a) (Ans.avoids a) (Ans.effort a)
    v (Ans.spice_pref a).
Definition with_spice_pref (v : string) (a : Ans.t) : Ans.t :=
  Ans.mk (Ans.goal a) (Ans.timing a) (Ans.protein_pref a) (Ans.avoids a) (Ans.effort a)
    (Ans.sodium_pref a) v.

(** The no-effect branch of each rule, read off the source: the conditions
    under which the rule executes neither a [score +=] nor a [score -=]. *)
Definition protein_no_effect (meal : Meal.t) (ans : Ans.t) : bool :=
  (Ans.protein_pref ans == "no-preference") ||
  ((Ans.protein_pref ans == "plant-only") && (Meal.protein_type meal == "plant")).

Definition goal_no_effect (meal : Meal.t) (ans : Ans.t) : bool :=
  if Ans.goal ans == "cut" then
    negb ((Meal.calories meal <=? 600)%Z && (Meal.protein_g meal >=? 35)%Z) &&
    negb (Meal.fat_g meal >? 22)%Z
  else if Ans.goal ans == "bulk" then
    negb ((Meal.calories meal >=? 650)%Z && (Meal.protein_g meal >=? 40)%Z) &&
    negb (Meal.calories meal <? 600)%Z
  else
    negb ((500 <=? Meal.calories meal)%Z && (Meal.calories meal <=? 700)%Z).

Definition timing_no_effect (meal : Meal.t) (ans : Ans.t) : bool :=
  if Ans.timing ans == "pre" then false
  else if Ans.timing ans == "post" then
    negb (Meal.protein_g meal >=? 35)%Z && negb (Meal.carbs_g meal >=? 50)%Z &&
    negb (Meal.fat_g meal <=? 20)%Z
  else true.

Definition effort_no_effect (meal : Meal.t) (ans : Ans.t) : bool :=
  if Ans.effort ans == "low" then false
  else if Ans.effort ans == "med" then negb (str_in (Meal.effort meal) ["low"; "med"])
  else if Ans.effort ans == "high" then false
  else if Ans.effort ans == "restaurant" then false
  else true.

Definition sodium_no_effect (meal : Meal.t) (ans : Ans.t) : bool :=
  if Ans.sodium_pref ans == "lower" then
    negb (Meal.sodium_mg meal <=? 500)%Z && negb (Meal.sodium_mg meal >? 700)%Z
  else negb (Meal.sodium_mg meal >? 850)%Z.

Definition spice_no_effect (meal : Meal.t) (ans : Ans.t) : bool :=
  negb (negb (Ans.spice_pref ans == "no-pref") && (Meal.spice meal == Ans.spice_pref ans)).

(** The accumulators of [score_meal] with the sodium rule left out. *)
Definition without_sodium_rule (meal : Meal.t) (ans : Ans.t) : Acc :=
  let st := mkAcc 50 [] in
  let st := protein_rule meal ans st in
  let st := goal_rule meal ans st in
  let st := timing_rule meal ans st in
  let st := effort_rule meal ans st in
  let st := spice_rule meal ans st in
  st.

(** ** A generator to run examples with

    A linear congruential generator with the interface of [RandomModule].
    The theorems are stated for every generator; this one stands for the
    library's generator where a statement is evaluated on concrete inputs,
    and the states and draws quoted there are its own, not CPython's. *)
Definition lcg_step (g : Z) : Z := (1103515245 * g + 12345) mod 2147483648.

Definition lcg_randbelow (n : nat) (g : Z) : nat * Z :=
  (Z.to_nat (lcg_step g mod Z.of_nat n), lcg_step g).

Lemma lcg_randbelow_lt (n : nat) (g : Z) :
  (0 < n)%nat -> (fst (lcg_randbelow n g) < n)%nat.
Proof.
  intro Hn. unfold lcg_randbelow. cbn [fst].
  assert (0 <= lcg_step g mod Z.of_nat n < Z.of_nat n) by (apply Z.mod_pos_bound; lia).
  lia.
Qed.

#[export] Instance Lcg : RandomModule := {|
  rng := Z;
  seed_state := fun s => s mod 2147483648;
  randbelow := lcg_randbelow;
  randbelow_lt := lcg_randbelow_lt
|}.

(** ** Inputs used in the examples *)

Definition tofu_stir_fry : Meal.t :=
  Meal.mk "Tofu Stir-Fry"
    ["extra-firm tofu 6 oz"; "mixed vegetables"; "brown rice 1 cup"; "garlic-ginger sauce (low sodium)"]
    600 36 70 16 420 350 "plant" ["soy"; "gluten?"] "low" false "medium" ["plant protein"].

Definition shrimp_rice_bowl : Meal.t :=
  Meal.mk "Shrimp Rice Bowl"
    ["shrimp 6 oz"; "jasmine rice 1 cup"; "cabbage slaw"; "lime"; "olive oil"]
    600 42 64 14 640 160 "shellfish" ["shellfish"] "low" true "mild" ["lean protein"].

Definition grilled_salmon_bowl : Meal.t :=
  Meal.mk "Grilled Salmon Bowl"
    ["grilled salmon 5 oz"; "quinoa 1 cup"; "spinach"; "tomato"; "olive oil"; "lemon"; "plain yogurt 1/2 cup"]
    650 45 55 24 520 250 "fish" ["dairy"] "med" true "mild" ["Omega-3s"].

Definition beef_steak_plate : Meal.t :=
  Meal.mk "Beef Steak Plate"
    ["sirloin steak 6 oz"; "roasted potatoes"; "asparagus"; "butter"]
    720 50 46 30 540 60 "beef" ["dairy?"] "high" true "mild" ["creatine-rich"].

Definition avoid_gluten : Ans.t :=
  Ans.mk "maintenance" "any" "plant-only" ["gluten"] "low" "normal" "medium".

Definition avoid_shellfish : Ans.t :=
  Ans.mk "cut" "any" "fish/seafood" ["shellfish"] "low" "lower" "mild".

(** The seven base allergen tags. *)
Definition all_seven : list string :=
  ["dairy"; "gluten"; "nuts"; "eggs"; "soy"; "shellfish"; "sesame"].

Definition avoid_everything : Ans.t :=
  Ans.mk "maintenance" "any" "no-preference" all_seven "med" "normal" "no-pref".

(** The meals no avoidance can disqualify: none of their listed tags is one
    of the seven base allergens. *)
Definition always_eligible : list string :=
  ["Lentil Curry + Rice"; "Turkey Chili (Lean)"; "Beef Steak Plate";
   "Sardine Avocado Toast"; "Chickpea Pasta Primavera"].

Definition goal_keto : Ans.t :=
  Ans.mk "keto" "any" "no-preference" [] "med" "normal" "no-pref".

Definition prefers_pork : Ans.t :=
  Ans.mk "maintenance" "any" "pork" [] "med" "normal" "no-pref".

(** Scenario A of the specification. *)
Definition scenario_a : Ans.t :=
  Ans.mk "cut" "any" "fish/seafood" [] "low" "lower" "mild".

(** Answers with every enumerated key outside its enum. *)
Definition off_menu : Ans.t :=
  Ans.mk "keto" "during" "pork" [] "none" "low" "hot".

Definition indifferent : Ans.t :=
  Ans.mk "maintenance" "any" "no-preference" [] "med" "lower" "no-pref".

(** ** Vocabulary of the further statements *)

(** The entries that pass the filter, ranked: what [recommend] slices. *)
Definition ranking {R : RandomModule} (ans : Ans.t) (seed : option Z)
    (meals : list Meal.t) : list Entry :=
  sort_desc (arrange seed (score_all meals ans)).

(** The answer set with other avoidances. *)
Definition with_avoids (v : list string) (a : Ans.t) : Ans.t :=
  Ans.mk (Ans.goal a) (Ans.timing a) (Ans.protein_pref a) v (Ans.effort a)
    (Ans.sodium_pref a) (Ans.spice_pref a).

(** A string of decimal digits only. *)
Fixpoint decimal (s : string) : bool :=
  match s with
  | EmptyString => true
  | String c rest =>
      ((48 <=? nat_of_ascii c) && (nat_of_ascii c <=? 57))%nat && decimal rest
  end.

(** What a return value of [ask] can be. *)
Definition offered (n_choices : Z) (allow_zero allow_back : bool)
    (default_index : option Z) (r : Z) : Prop :=
  default_index = Some r \/ (allow_back = true /\ r = -1) \/
  (allow_zero = true /\ r = 0) \/ 1 <= r <= n_choices.

(** How a call leaves the terminal: the colours untouched, some lines taken
    from the front of standard input, some writes added to standard
    output. *)
Definition advanced (strictly : bool) (t t' : Term) : Prop :=
  colors t' = colors t /\
  (exists used, stdin t = (used ++ stdin t')%list /\ (strictly = true -> used <> [])) /\
  (exists written, stdout t' = (stdout t ++ written)%list).

(** A line within ASCII: every code point below 128. *)
Fixpoint ascii_only (s : string) : bool :=
  match s with
  | EmptyString => true
  | String c rest => (nat_of_ascii c <? 128)%nat && ascii_only rest
  end.

(** What [ask] has written when its loop starts. *)
Definition ask_start (prompt : string) (choices : list string) (allow_zero allow_back : bool)
    (t : Term) : list string :=
  let c := colors t in
  let out := (stdout t ++ [printed (nl ++ C.BOLD c ++ prompt ++ C.RESET c)])%list in
  let out := (out ++ menu 1 choices)%list in
  let out := if allow_zero then (out ++ [printed "0. None/Done"])%list else out in
  let out := if allow_back then (out ++ [printed "b. Back"])%list else out in
  out.

(** What a return value of [ask_multi] can be. *)
Definition selection (n_choices : Z) (allow_back : bool) (l : list Z) : Prop :=
  (allow_back = true /\ l = [-1]) \/
  (StronglySorted Z.lt l /\ forall i, In i l -> 1 <= i <= n_choices).

(** What [ask_multi] has written when its loop starts. *)
Definition ask_multi_start (prompt : string) (choices : list string) (allow_back : bool)
    (preselected : option (list Z)) (t : Term) : list string :=
  let c := colors t in
  let out := (stdout t ++ [printed (nl ++ C.BOLD c ++ prompt ++ C.RESET c)])%list in
  let out := (out ++ menu 1 choices)%list in
  let out := (out ++ [printed "0. None/Done"])%list in
  let out := if allow_back then (out ++ [printed "b. Back"])%list else out in
  let out :=
    match preselected with
    | Some ((_ :: _) as pre) =>
        (out ++ [printed (C.DIM c ++ "(Preselected: "
                          ++ join ", " (preselected_labels choices pre)
                          ++ ")" ++ C.RESET c)])%list
    | _ => out
    end in
  (out ++ [printed (C.DIM c
                    ++ "Enter numbers separated by commas (e.g., 1,4,6) or 0 for none."
                    ++ C.RESET c)])%list.

(** A line of blanks and commas only. *)
Fixpoint blank (s : string) : bool :=
  match s with
  | EmptyString => true
  | String c rest => (isspace c || Ascii.eqb c ",") && blank rest
  end.

(** A line of blanks only. *)
Fixpoint spaces (s : string) : bool :=
  match s with
  | EmptyString => true
  | String c rest => isspace c && spaces rest
  end.

(** Numerals joined by commas: digits and commas only. *)
Fixpoint digits_and_commas (s : string) : bool :=
  match s with
  | EmptyString => true
  | String c rest =>
      (((48 <=? nat_of_ascii c) && (nat_of_ascii c <=? 57))%nat || Ascii.eqb c ",")
      && digits_and_commas rest
  end.

(** What the questions need to know of a call of a prompt. *)
Definition shorter (strictly : bool) (t t' : Term) : Prop :=
  colors t' = colors t /\
  (exists used, stdin t = (used ++ stdin t')%list /\ (strictly = true -> used <> [])).

(** The numbers a default can be, and the numbers a table answers to,
    are the numbers of the choices. *)
Definition numbered (n : Z) (index : list (string * Z)) (names : list (Z * string)) : Prop :=
  (forall d, In d (map snd index) -> 1 <= d <= n) /\
  (forall r, 1 <= r <= n -> In r (map fst names)).

(** The base allergen behind a number of the avoidance menu. *)
Definition seven_name (i : Z) : string := nth (Z.to_nat (i - 1)) all_seven EmptyString.

(** What the avoidances of an answer set built by the questions look like:
    base allergens picked by strictly increasing numbers of the menu. *)
Definition picked_avoids (avoids : list string) : Prop :=
  exists idxs, StronglySorted Z.lt idxs /\ (forall i, In i idxs -> 1 <= i <= 7) /\
               avoids = map seven_name idxs.

(** How one question, or a run of questions, can end: with a value of the
    expected kind and at least one line read, or with the exception of a
    prompt, which on ASCII input is the [EOFError] of an exhausted input. *)
Definition ends_well {X : Type} (P : X -> Prop) (t : Term) (o : Outcome X) : Prop :=
  match o with
  | (inr x, t') => P x /\ shorter true t t'
  | (inl e, t') =>
      (e = EOFError \/ e = ValueError) /\
      (Forall (fun l => ascii_only l = true) (stdin t) -> e = EOFError /\ stdin t' = [])
  end.

(** An answer set the wizard can build: every key within its enum, the
    avoidances base allergens picked in the order of the menu. *)
Definition well_formed (A : Ans.t) : Prop :=
  In (Ans.goal A) goal_enum /\
  In (Ans.timing A) timing_enum /\
  In (Ans.protein_pref A) protein_pref_enum /\
  picked_avoids (Ans.avoids A) /\
  In (Ans.effort A) effort_enum /\
  In (Ans.sodium_pref A) sodium_pref_enum /\
  In (Ans.spice_pref A) spice_pref_enum.

(** The dictionary [prior] of a first run: [load_prefs() or {}] is empty. *)
Definition no_prior : Prior.t := Prior.mk None None None [] None None None.

(** The dictionary [prior] that holds the answer set [A] under its keys. *)
Definition stored (A : Ans.t) : Prior.t :=
  Prior.mk (Some (Ans.goal A)) (Some (Ans.timing A)) (Some (Ans.protein_pref A))
    (Ans.avoids A) (Some (Ans.effort A)) (Some (Ans.sodium_pref A))
    (Some (Ans.spice_pref A)).

(** Each value of an enum has a number as its default, and the table of
    names gives the value back for it. *)
Definition remembered (enum : list string) (index : list (string * Z))
    (names : list (Z * string)) : Prop :=
  forall v, In v enum ->
    exists d, lookup v index = Some d /\ lookup_num d names = Some v.

(** A line that means "back". *)
Definition is_back (line : string) : bool := lower (strip line) == "b".

(** A string without the escape character. *)
Fixpoint plain (s : string) : bool :=
  match s with
  | EmptyString => true
  | String c rest => negb (nat_of_ascii c =? 27)%nat && plain rest
  end.

(** A property of every attribute of the class [C]. *)
Definition C_all (P : string -> bool) (c : C.t) : bool :=
  P (C.BOLD c) && P (C.DIM c) && P (C.CYAN c) && P (C.GREEN c)
  && P (C.YELLOW c) && P (C.RED c) && P (C.RESET c).

(** A terminal whose colours are switched off and that shows no escape
    character. *)
Definition plain_term (t : Term) : Prop :=
  C_all plain (colors t) = true /\ Forall (fun s => plain s = true) (stdout t).

(** * Properties *)

(** ** The weight table *)

(** Every key that [score_meal] looks up is bound: no lookup can fail. *)
Lemma weights_bound :
  Forall (fun key => lookup key WEIGHTS <> None)
    ["match_protein_pref"; "mismatch_protein_pref"; "plant_only_penalty";
     "fish_pref_bonus"; "goal_cut"; "goal_bulk"; "goal_maint";
     "fat_penalty_cut"; "pre_low_fat"; "pre_good_carbs"; "pre_mod_protein";
     "post_protein"; "post_carbs"; "post_low_fat"; "effort_low_bonus";
     "effort_low_penalty"; "effort_med_bonus"; "effort_high_bonus";
     "effort_restaurant_bonus"; "effort_restaurant_penalty";
     "sodium_low_bonus"; "sodium_high_penalty"; "sodium_too_high_penalty";
     "spice_match_bonus"].
Proof. repeat constructor; discriminate. Qed.

Lemma W_match_protein_pref : W "match_protein_pref" = 8. Proof. reflexivity. Qed.
Lemma W_mismatch_protein_pref : W "mismatch_protein_pref" = 4. Proof. reflexivity. Qed.
Lemma W_plant_only_penalty : W "plant_only_penalty" = 30. Proof. reflexivity. Qed.
Lemma W_fish_pref_bonus : W "fish_pref_bonus" = 6. Proof. reflexivity. Qed.
Lemma W_goal_cut : W "goal_cut" = 10. Proof. reflexivity. Qed.
Lemma W_goal_bulk : W "goal_bulk" = 10. Proof. reflexivity. Qed.
Lemma W_goal_maint : W "goal_maint" = 5. Proof. reflexivity. Qed.
Lemma W_fat_penalty_cut : W "fat_penalty_cut" = 4. Proof. reflexivity. Qed.
Lemma W_pre_low_fat : W "pre_low_fat" = 6. Proof. reflexivity. Qed.
Lemma W_pre_good_carbs : W "pre_good_carbs" = 4. Proof. reflexivity. Qed.
Lemma W_pre_mod_protein : W "pre_mod_protein" = 3. Proof. reflexivity. Qed.
Lemma W_post_protein : W "post_protein" = 6. Proof. reflexivity. Qed.
Lemma W_post_carbs : W "post_carbs" = 4. Proof. reflexivity. Qed.
Lemma W_post_low_fat : W "post_low_fat" = 2. Proof. reflexivity. Qed.
Lemma W_effort_low_bonus : W "effort_low_bonus" = 6. Proof. reflexivity. Qed.
Lemma W_effort_low_penalty : W "effort_low_penalty" = 3. Proof. reflexivity. Qed.
Lemma W_effort_med_bonus : W "effort_med_bonus" = 3. Proof. reflexivity. Qed.
Lemma W_effort_high_bonus : W "effort_high_bonus" = 4. Proof. reflexivity. Qed.
Lemma W_effort_restaurant_bonus : W "effort_restaurant_bonus" = 5. Proof. reflexivity. Qed.
Lemma W_effort_restaurant_penalty : W "effort_restaurant_penalty" = 4. Proof. reflexivity. Qed.
Lemma W_sodium_low_bonus : W "sodium_low_bonus" = 5. Proof. reflexivity. Qed.
Lemma W_sodium_high_penalty : W "sodium_high_penalty" = 6. Proof. reflexivity. Qed.
Lemma W_sodium_too_high_penalty : W "sodium_too_high_penalty" = 2. Proof. reflexivity. Qed.
Lemma W_spice_match_bonus : W "spice_match_bonus" = 2. Proof. reflexivity. Qed.

Create Rewrite HintDb weights.
#[export] Hint Rewrite
  W_match_protein_pref W_mismatch_protein_pref W_plant_only_penalty
  W_fish_pref_bonus W_goal_cut W_goal_bulk W_goal_maint W_fat_penalty_cut
  W_pre_low_fat W_pre_good_carbs W_pre_mod_protein W_post_protein
  W_post_carbs W_post_low_fat W_effort_low_bonus W_effort_low_penalty
  W_effort_med_bonus W_effort_high_bonus W_effort_restaurant_bonus
  W_effort_restaurant_penalty W_sodium_low_bonus W_sodium_high_penalty
  W_sodium_too_high_penalty W_spice_match_bonus : weights.

Global Opaque W.

(** ** Membership tests *)

Lemma str_in_In (x : string) (xs : list string) :
  str_in x xs = true <-> In x xs.
Proof.
  induction xs as [|y xs IH]; cbn.
  - split; [discriminate | tauto].
  - rewrite orb_true_iff, IH, String.eqb_eq. intuition congruence.
Qed.

(** The avoidance test fires exactly when a tag of the meal, as it is
    written in the catalog, is one of the avoided tags. *)
Lemma conflicts_iff (meal : Meal.t) (ans : Ans.t) :
  conflicts meal ans = true <->
  exists a, In a (Meal.allergens meal) /\ In a (Ans.avoids ans).
Proof.
  unfold conflicts. rewrite existsb_exists. split.
  - intros (a & Ha & Hin). exists a. split; [now apply str_in_In | exact Ha].
  - intros (a & Hin & Ha). exists a. split; [exact Ha | now apply str_in_In].
Qed.

(** The test looks at [avoids] as a set. *)
Lemma conflicts_ext (meal : Meal.t) (a b : Ans.t) :
  (forall t, In t (Ans.avoids a) <-> In t (Ans.avoids b)) ->
  conflicts meal a = conflicts meal b.
Proof.
  intro H. apply eq_true_iff_eq. rewrite !conflicts_iff.
  split; intros (t & Ht & Hin); exists t; (split; [exact Ht | now apply H]).
Qed.

(** ** Bounds on the rules *)

Ltac split_ifs :=
  repeat match goal with
  | |- context [if ?b then _ else _] => destruct b eqn:?
  end.

Ltac settle_effect :=
  unfold effect, add, sub, say; cbn [score reasons];
  autorewrite with weights;
  split; [lia | first [ now exists [] ; rewrite app_nil_r
                      | eexists; rewrite <- ?app_assoc; reflexivity ]].

Lemma protein_rule_effect meal ans st : effect (-30) 8 st (protein_rule meal ans st).
Proof. unfold protein_rule. cbv zeta. split_ifs; settle_effect. Qed.

Lemma goal_rule_effect meal ans st : effect (-4) 10 st (goal_rule meal ans st).
Proof. unfold goal_rule. cbv zeta. split_ifs; settle_effect. Qed.

Lemma timing_rule_effect meal ans st : effect (-6) 13 st (timing_rule meal ans st).
Proof. unfold timing_rule. cbv zeta. split_ifs; settle_effect. Qed.

Lemma effort_rule_effect meal ans st : effect (-4) 6 st (effort_rule meal ans st).
Proof. unfold effort_rule. cbv zeta. split_ifs; settle_effect. Qed.

Lemma sodium_rule_effect meal ans st : effect (-6) 5 st (sodium_rule meal ans st).
Proof. unfold sodium_rule. cbv zeta. split_ifs; settle_effect. Qed.

Lemma spice_rule_effect meal ans st : effect 0 2 st (spice_rule meal ans st).
Proof. unfold spice_rule. cbv zeta. split_ifs; settle_effect. Qed.

Lemma score_meal_conflict (meal : Meal.t) (ans : Ans.t) :
  conflicts meal ans = true ->
  score_meal meal ans = (-999, ["conflicts with avoidances"], ["contains allergen"]).
Proof. intro H. unfold score_meal. now rewrite H. Qed.

(** A meal that passes the avoidance filter scores between 0 and 94. *)
Lemma score_meal_range (meal : Meal.t) (ans : Ans.t) :
  conflicts meal ans = false ->
  0 <= fst (fst (score_meal meal ans)) <= 94.
Proof.
  intro H. unfold score_meal. rewrite H. cbv zeta. cbn [fst].
  pose proof (protein_rule_effect meal ans (mkAcc 50 [])) as [H1 _].
  pose proof (goal_rule_effect meal ans (protein_rule meal ans (mkAcc 50 []))) as [H2 _].
  pose proof (timing_rule_effect meal ans
    (goal_rule meal ans (protein_rule meal ans (mkAcc 50 [])))) as [H3 _].
  pose proof (effort_rule_effect meal ans
    (timing_rule meal ans (goal_rule meal ans (protein_rule meal ans (mkAcc 50 []))))) as [H4 _].
  pose proof (sodium_rule_effect meal ans (effort_rule meal ans
    (timing_rule meal ans (goal_rule meal ans (protein_rule meal ans (mkAcc 50 [])))))) as [H5 _].
  pose proof (spice_rule_effect meal ans (sodium_rule meal ans (effort_rule meal ans
    (timing_rule meal ans (goal_rule meal ans (protein_rule meal ans (mkAcc 50 []))))))) as [H6 _].
  cbn [score] in H1. lia.
Qed.

(** ** The shuffle rearranges, and never indexes out of range *)

Lemma set_nth_length {X : Type} (i : nat) (v : X) (x : list X) :
  List.length (set_nth i v x) = List.length x.
Proof.
  revert i. induction x as [|a x IH]; intros [|i]; cbn; auto.
Qed.

Lemma set_nth_exchange {X : Type} (j : nat) (a b : X) (x : list X) :
  nth_error x j = Some b -> Permutation (b :: set_nth j a x) (a :: x).
Proof.
  revert j. induction x as [|c x IH]; intros [|j] H; cbn in *; try discriminate.
  - injection H as ->. apply perm_swap.
  - etransitivity; [apply perm_swap|].
    etransitivity; [apply perm_skip, IH, H|]. apply perm_swap.
Qed.

Lemma swap_perm {X : Type} (i j : nat) (x : list X) : Permutation (swap i j x) x.
Proof.
  revert i j. induction x as [|a x IH]; intros i j.
  - unfold swap. destruct j, i; reflexivity.
  - unfold swap. destruct j as [|j], i as [|i]; cbn.
    + reflexivity.
    + destruct (nth_error x i) as [b|] eqn:Hi; [|reflexivity].
      now apply set_nth_exchange.
    + destruct (nth_error x j) as [b|] eqn:Hj; [|reflexivity].
      now apply set_nth_exchange.
    + specialize (IH i j). unfold swap in IH.
      destruct (nth_error x j), (nth_error x i); try reflexivity.
      now apply perm_skip.
Qed.

Lemma swap_strict_in_range {X : Type} (i j : nat) (x : list X) :
  (i < List.length x)%nat -> (j < List.length x)%nat ->
  swap_strict i j x = Some (swap i j x).
Proof.
  intros Hi Hj. unfold swap_strict, swap.
  destruct (nth_error x j) eqn:Ej; [|apply nth_error_None in Ej; lia].
  destruct (nth_error x i) eqn:Ei; [|apply nth_error_None in Ei; lia].
  reflexivity.
Qed.

Lemma swap_length {X : Type} (i j : nat) (x : list X) :
  List.length (swap i j x) = List.length x.
Proof. apply Permutation_length, swap_perm. Qed.

Section ShuffleFacts.
Context {R : RandomModule} {X : Type}.

Lemma shuffle_from_perm (i : nat) (x : list X) (g : rng) :
  Permutation (fst (shuffle_from i x g)) x.
Proof.
  revert x g. induction i as [|i IH]; intros x g; cbn.
  - reflexivity.
  - destruct (randbelow _ g) as [j g'].
    etransitivity; [apply IH | apply swap_perm].
Qed.

Lemma shuffle_perm (x : list X) (g : rng) : Permutation (fst (shuffle x g)) x.
Proof. apply shuffle_from_perm. Qed.

(** Under the contract of [randbelow], no exchange of the shuffle is out of
    range: the loop with the raising exchange never raises, and computes
    what [shuffle_from] computes. *)
Lemma shuffle_indices_in_range (i : nat) (x : list X) (g : rng) :
  (i < List.length x)%nat ->
  shuffle_from_strict i x g = Some (shuffle_from i x g).
Proof.
  revert x g. induction i as [|i IH]; intros x g Hi; cbn.
  - reflexivity.
  - pose proof (randbelow_lt (S (i + 1)) g ltac:(lia)) as Hj.
    destruct (randbelow _ g) as [j g']. cbn [fst] in Hj.
    rewrite swap_strict_in_range by lia.
    apply IH. rewrite swap_length. lia.
Qed.

End ShuffleFacts.

(** ** The sort rearranges, and orders by score *)

Lemma insert_desc_perm (e : Entry) (l : list Entry) :
  Permutation (insert_desc e l) (e :: l).
Proof.
  induction l as [|y l IH]; cbn.
  - reflexivity.
  - destruct (entry_score y <=? entry_score e)%Z.
    + reflexivity.
    + etransitivity; [apply perm_skip, IH | apply perm_swap].
Qed.

Lemma sort_desc_perm (l : list Entry) : Permutation (sort_desc l) l.
Proof.
  induction l as [|e l IH]; cbn.
  - reflexivity.
  - etransitivity; [apply insert_desc_perm | now apply perm_skip].
Qed.

Lemma insert_desc_sorted (e : Entry) (l : list Entry) :
  Sorted score_ge l -> Sorted score_ge (insert_desc e l).
Proof.
  induction l as [|y l IH]; intro Hs; cbn.
  - repeat constructor.
  - destruct (entry_score y <=? entry_score e)%Z eqn:Hle.
    + constructor; [exact Hs|]. constructor. unfold score_ge. lia.
    + inversion Hs as [|? ? Hs' Hhd]; subst.
      constructor; [now apply IH|].
      destruct l as [|z l]; cbn.
      * constructor. unfold score_ge. lia.
      * destruct (entry_score z <=? entry_score e)%Z.
        -- constructor. unfold score_ge. lia.
        -- inversion Hhd; subst. now constructor.
Qed.

Lemma sort_desc_sorted (l : list Entry) : Sorted score_ge (sort_desc l).
Proof.
  induction l as [|e l IH]; cbn.
  - constructor.
  - now apply insert_desc_sorted.
Qed.

(** The sort is stable: the entries of any one score come out in the order
    they went in. *)
Lemma insert_desc_same_score (p : Z) (e : Entry) (l : list Entry) :
  filter (fun x => entry_score x =? p) (insert_desc e l) =
  filter (fun x => entry_score x =? p) (e :: l).
Proof.
  induction l as [|y l IH]; [reflexivity|].
  cbn [insert_desc]. destruct (entry_score y <=? entry_score e)%Z eqn:Hle; [reflexivity|].
  cbn [filter] in IH |- *. rewrite IH.
  destruct (entry_score e =? p) eqn:He, (entry_score y =? p) eqn:Hy; try reflexivity.
  lia.
Qed.

Lemma sort_desc_stable (p : Z) (l : list Entry) :
  filter (fun x => entry_score x =? p) (sort_desc l) =
  filter (fun x => entry_score x =? p) l.
Proof.
  induction l as [|e l IH]; [reflexivity|].
  cbn [sort_desc]. rewrite insert_desc_same_score. cbn [filter]. now rewrite IH.
Qed.

(** ** The slice *)

Lemma slice_to_length {X : Type} (k : Z) (x : list X) :
  0 <= k ->
  Z.of_nat (List.length (slice_to k x)) = Z.min k (Z.of_nat (List.length x)).
Proof.
  intro Hk. unfold slice_to.
  destruct (k <? 0)%Z eqn:E; [lia|].
  rewrite length_firstn. lia.
Qed.

Lemma slice_to_incl {X : Type} (k : Z) (x : list X) (e : X) :
  In e (slice_to k x) -> In e x.
Proof.
  unfold slice_to. intro H.
  destruct (k <? 0)%Z;
    match type of H with In _ (firstn ?n _) =>
      rewrite <- (firstn_skipn n x); apply in_or_app; now left
    end.
Qed.

(** ** The catalog *)

Lemma MEALS_names_unique : NoDup (map Meal.name MEALS).
Proof.
  unfold MEALS. cbn [map Meal.name].
  repeat (constructor; [cbn [In]; intuition discriminate|]).
  constructor.
Qed.

Lemma in_map_injective {X Y : Type} (f : X -> Y) (l : list X) (a b : X) :
  NoDup (map f l) -> In a l -> In b l -> f a = f b -> a = b.
Proof.
  induction l as [|c l IH]; cbn; intros Hnd Ha Hb Hf; [contradiction|].
  inversion Hnd as [|? ? Hnotin Hnd']; subst.
  destruct Ha as [->|Ha], Hb as [->|Hb]; auto.
  - exfalso. apply Hnotin. rewrite Hf. now apply in_map.
  - exfalso. apply Hnotin. rewrite <- Hf. now apply in_map.
Qed.

(** ** The first loop of [recommend] *)

Lemma score_all_filter (meals : list Meal.t) (ans : Ans.t) :
  score_all meals ans = map (entry_of ans) (filter (survives ans) meals).
Proof.
  induction meals as [|m meals IH]; [reflexivity|].
  cbn [score_all filter]. unfold survives at 1.
  destruct (score_meal m ans) as [[s r] f] eqn:E. cbn [fst].
  destruct (s >? -500)%Z; cbn [map];
    [unfold entry_of at 1; rewrite E|]; now rewrite IH.
Qed.

Lemma survives_iff (ans : Ans.t) (m : Meal.t) :
  survives ans m = negb (conflicts m ans).
Proof.
  unfold survives. destruct (conflicts m ans) eqn:E.
  - rewrite score_meal_conflict by exact E. reflexivity.
  - pose proof (score_meal_range m ans E). cbn. apply Z.gtb_lt. lia.
Qed.

Lemma entry_meal_entry_of (ans : Ans.t) (m : Meal.t) : entry_meal (entry_of ans m) = m.
Proof. unfold entry_of. now destruct (score_meal m ans) as [[s r] f]. Qed.

Lemma package_name (ans : Ans.t) (m : Meal.t) :
  Rec.name (package (entry_of ans m)) = Meal.name m.
Proof. unfold entry_of. now destruct (score_meal m ans) as [[s r] f]. Qed.

Section RecommendFacts.
Context {R : RandomModule}.

Lemma arrange_perm (seed : option Z) (scored : list Entry) :
  Permutation (arrange seed scored) scored.
Proof. destruct seed; cbn; [apply shuffle_perm | reflexivity]. Qed.

(** The first loop returns [score_all] of the meals, after what was already
    collected, and leaves the global state as it found it. *)
Lemma score_loop_run (meals : list Meal.t) (ans : Ans.t) (scored : list Entry) (w : World) :
  score_loop meals ans scored w = ((scored ++ score_all meals ans)%list, w).
Proof.
  revert scored. induction meals as [|m meals IH]; intro scored.
  - cbn. now rewrite app_nil_r.
  - cbn [score_loop score_all]. unfold bind, call_score_meal, ret.
    destruct (score_meal m ans) as [[s r] f].
    destruct (s >? -500)%Z; rewrite IH; [|reflexivity].
    now rewrite <- app_assoc.
Qed.

Lemma recommend_result (ans : Ans.t) (top_k : Z) (seed : option Z) (w : World) :
  fst (recommend ans top_k seed w) =
  match score_all (catalog w) ans with
  | [] => mkResult [] no_meals_message
  | _ :: _ =>
      mkResult
        (map package (slice_to top_k (sort_desc (arrange seed (score_all (catalog w) ans)))))
        helper_message
  end.
Proof.
  unfold recommend, bind, read_MEALS. rewrite score_loop_run. cbn [app].
  unfold ret, arrange.
  destruct (score_all (catalog w) ans) as [|e l]; [reflexivity|].
  destruct seed as [s|]; [|reflexivity].
  unfold random_seed, random_shuffle. cbn [catalog random].
  now destruct (shuffle (e :: l) (seed_state s)).
Qed.

Lemma recommend_world (ans : Ans.t) (top_k : Z) (seed : option Z) (w : World) :
  snd (recommend ans top_k seed w) =
  mkWorld (catalog w)
    match score_all (catalog w) ans, seed with
    | _ :: _, Some s => snd (shuffle (score_all (catalog w) ans) (seed_state s))
    | _, _ => random w
    end.
Proof.
  unfold recommend, bind, read_MEALS. rewrite score_loop_run. cbn [app].
  unfold ret.
  destruct (score_all (catalog w) ans) as [|e l]; [now destruct w|].
  destruct seed as [s|]; [|now destruct w].
  unfold random_seed, random_shuffle. cbn [catalog random].
  now destruct (shuffle (e :: l) (seed_state s)).
Qed.

(** Every recommendation is the record of a catalog meal that passed the
    avoidance filter. *)
Lemma recommended_from_catalog ans top_k seed w (rec : Rec.t) :
  In rec (top_recommendations (fst (recommend ans top_k seed w))) ->
  exists m, In m (catalog w) /\ conflicts m ans = false /\
            rec = package (entry_of ans m).
Proof.
  rewrite recommend_result.
  destruct (score_all (catalog w) ans) as [|e l] eqn:E; [contradiction|].
  cbn [top_recommendations]. rewrite <- E. clear E e l.
  intro H. apply in_map_iff in H as (e & <- & He).
  apply slice_to_incl in He.
  apply (Permutation_in _ (sort_desc_perm _)) in He.
  apply (Permutation_in _ (arrange_perm _ _)) in He.
  rewrite score_all_filter in He.
  apply in_map_iff in He as (m & <- & Hm).
  apply filter_In in Hm as [Hm Hs].
  rewrite survives_iff in Hs.
  exists m. repeat split; [exact Hm | now destruct (conflicts m ans)].
Qed.

End RecommendFacts.

(** ** C1: disqualification *)

(** C1, as stated, fails.  Tofu Stir-Fry carries the tags [soy] and
    [gluten?]; with the marker stripped its tags meet the avoidance
    [gluten], and yet the meal is scored 63 and heads the recommendations:
    the source compares the tags as written. *)
Lemma C1_stripped_tags_counterexample :
  In tofu_stir_fry MEALS /\
  stripped_conflicts tofu_stir_fry avoid_gluten = true /\
  score_meal tofu_stir_fry avoid_gluten =
    (63, ["maintenance-friendly calories"; "low effort prep"],
     ["gluten depends on ingredients"]) /\
  score_meal tofu_stir_fry avoid_gluten <>
    (-999, ["conflicts with avoidances"], ["contains allergen"]) /\
  map Rec.name
    (top_recommendations (fst (recommend avoid_gluten 3 None (startup (R := Lcg) 0)))) =
    ["Tofu Stir-Fry"; "Egg White Veggie Omelet + Oats"; "Greek Yogurt Power Bowl"].
Proof.
  split; [cbn; tauto|].
  split; [reflexivity|].
  split; [reflexivity|].
  split; [discriminate | reflexivity].
Qed.

(** C1, amended: disqualification by the tags as written.  If a tag of the
    meal, exactly as it is listed (a conditional tag keeps its [?] and so
    meets no avoidance), is among the avoided tags, then [score_meal]
    returns exactly [(-999, ["conflicts with avoidances"], ["contains
    allergen"])], and a catalog meal in that case is named by no record of
    [recommend]'s [top_recommendations], whatever [top_k], seed and
    generator state. *)
Theorem disqualification_by_listed_tags
    {R : RandomModule} (M : Meal.t) (A : Ans.t) :
  (exists a, In a (Meal.allergens M) /\ In a (Ans.avoids A)) ->
  score_meal M A = (-999, ["conflicts with avoidances"], ["contains allergen"]) /\
  (In M MEALS ->
   forall (top_k : Z) (seed : option Z) (g : rng) (rec : Rec.t),
     In rec (top_recommendations (fst (recommend A top_k seed (startup g)))) ->
     Rec.name rec <> Meal.name M).
Proof.
  intro Hc. apply conflicts_iff in Hc.
  split; [now apply score_meal_conflict|].
  intros HM top_k seed g rec Hrec Hname.
  apply recommended_from_catalog in Hrec as (m & Hm & Hfree & ->).
  rewrite package_name in Hname.
  assert (m = M) as ->
    by (apply (in_map_injective Meal.name MEALS); auto using MEALS_names_unique).
  congruence.
Qed.

(** Scenario B: the shrimp bowl under an avoidance of shellfish. *)
Lemma disqualification_by_listed_tags_witness :
  (exists a, In a (Meal.allergens shrimp_rice_bowl) /\ In a (Ans.avoids avoid_shellfish)) /\
  score_meal shrimp_rice_bowl avoid_shellfish =
    (-999, ["conflicts with avoidances"], ["contains allergen"]) /\
  (In shrimp_rice_bowl MEALS ->
   forall (top_k : Z) (seed : option Z) (g : Z) (rec : Rec.t),
     In rec (top_recommendations
               (fst (recommend avoid_shellfish top_k seed (startup (R := Lcg) g)))) ->
     Rec.name rec <> Meal.name shrimp_rice_bowl).
Proof.
  assert (H : exists a, In a (Meal.allergens shrimp_rice_bowl) /\
                        In a (Ans.avoids avoid_shellfish))
    by (exists "shellfish"; simpl; auto).
  split; [exact H|].
  exact (disqualification_by_listed_tags (R := Lcg) shrimp_rice_bowl avoid_shellfish H).
Defined.

(** ** How many recommendations *)

Section TopLength.
Context {R : RandomModule}.

Lemma survivors_length (ans : Ans.t) (seed : option Z) (meals : list Meal.t) :
  List.length (sort_desc (arrange seed (score_all meals ans))) =
  List.length (filter (survives ans) meals).
Proof.
  rewrite (Permutation_length (sort_desc_perm _)).
  rewrite (Permutation_length (arrange_perm _ _)).
  rewrite score_all_filter. apply length_map.
Qed.

Lemma top_length (ans : Ans.t) (top_k : Z) (seed : option Z) (w : World) :
  0 <= top_k ->
  Z.of_nat (List.length (top_recommendations (fst (recommend ans top_k seed w)))) =
  Z.min top_k (Z.of_nat (List.length (filter (survives ans) (catalog w)))).
Proof.
  intro Hk. rewrite recommend_result.
  destruct (score_all (catalog w) ans) as [|e l] eqn:E.
  - rewrite score_all_filter in E. apply map_eq_nil in E. rewrite E. cbn. lia.
  - cbn [top_recommendations]. rewrite <- E.
    rewrite length_map, slice_to_length by exact Hk.
    now rewrite survivors_length.
Qed.

End TopLength.

(** ** C2: avoiding all seven allergens *)

(** C2, as stated, fails.  With all seven allergens avoided [recommend]
    returns three meals and the ordinary explanation, not the empty list
    with the no-meals-fit message: five catalog meals list none of the seven
    tags (three list no allergen, one only [dairy?], one only [gluten?] and
    [fish]). *)
Lemma C2_avoid_all_counterexample :
  Ans.avoids avoid_everything = all_seven /\
  map Rec.name
    (top_recommendations (fst (recommend avoid_everything 3 None (startup (R := Lcg) 0)))) =
    ["Lentil Curry + Rice"; "Turkey Chili (Lean)"; "Sardine Avocado Toast"] /\
  explanation (fst (recommend avoid_everything 3 None (startup (R := Lcg) 0))) =
    "Simple terminal helper for meal ideas." /\
  map Meal.name
    (filter (fun m => negb (existsb (fun a => str_in a (Meal.allergens m)) all_seven)) MEALS) =
    always_eligible.
Proof. repeat split. Qed.

Section AvoidAll.
Context {R : RandomModule}.
Variable A : Ans.t.
Hypothesis avoids_all : forall a, In a (Ans.avoids A) <-> In a all_seven.

Lemma avoid_all_survivors :
  filter (survives A) MEALS = filter (survives avoid_everything) MEALS.
Proof.
  apply filter_ext. intro m. rewrite !survives_iff. f_equal.
  apply conflicts_ext. exact avoids_all.
Qed.

Lemma avoid_all_survivor_names :
  map Meal.name (filter (survives A) MEALS) = always_eligible.
Proof. rewrite avoid_all_survivors. reflexivity. Qed.

End AvoidAll.

(** C2, amended: for every answer set whose [avoids] is the full set of
    seven allergens, the meals that pass the filter are exactly the five of
    [always_eligible] (seven of the twelve are disqualified); [recommend]
    returns the ordinary explanation, every record it returns names one of
    those five, and for [top_k >= 1] the list is not empty. *)
Theorem avoid_all_leaves_five
    {R : RandomModule} (A : Ans.t) :
  (forall a, In a (Ans.avoids A) <-> In a all_seven) ->
  map Meal.name (filter (survives A) MEALS) = always_eligible /\
  forall (top_k : Z) (seed : option Z) (g : rng),
    explanation (fst (recommend A top_k seed (startup g))) = helper_message /\
    (forall rec, In rec (top_recommendations (fst (recommend A top_k seed (startup g)))) ->
                 In (Rec.name rec) always_eligible) /\
    (1 <= top_k ->
     top_recommendations (fst (recommend A top_k seed (startup g))) <> []).
Proof.
  intro HA. pose proof (avoid_all_survivor_names A HA) as Hnames.
  split; [exact Hnames|]. intros top_k seed g. repeat split.
  - rewrite recommend_result. cbn [startup catalog].
    destruct (score_all MEALS A) eqn:E; [|reflexivity].
    rewrite score_all_filter in E. apply map_eq_nil in E.
    rewrite E in Hnames. discriminate.
  - intros rec Hrec.
    apply recommended_from_catalog in Hrec as (m & Hm & Hfree & ->).
    rewrite package_name, <- Hnames. apply in_map, filter_In.
    split; [exact Hm | rewrite survives_iff, Hfree; reflexivity].
  - intros Hk Hnil.
    pose proof (top_length A top_k seed (startup g) ltac:(lia)) as Hlen.
    rewrite Hnil in Hlen. cbn [startup catalog] in Hlen.
    rewrite <- (length_map Meal.name), Hnames in Hlen. cbn in Hlen. lia.
Qed.

Lemma avoid_all_leaves_five_witness :
  (forall a, In a (Ans.avoids avoid_everything) <-> In a all_seven) /\
  map Meal.name (filter (survives avoid_everything) MEALS) = always_eligible /\
  forall (top_k : Z) (seed : option Z) (g : Z),
    explanation (fst (recommend avoid_everything top_k seed (startup (R := Lcg) g))) =
      helper_message /\
    (forall rec,
       In rec (top_recommendations
                 (fst (recommend avoid_everything top_k seed (startup (R := Lcg) g)))) ->
       In (Rec.name rec) always_eligible) /\
    (1 <= top_k ->
     top_recommendations
       (fst (recommend avoid_everything top_k seed (startup (R := Lcg) g))) <> []).
Proof.
  assert (H : forall a, In a (Ans.avoids avoid_everything) <-> In a all_seven)
    by (intro a; simpl; tauto).
  split; [exact H|].
  exact (avoid_all_leaves_five (R := Lcg) avoid_everything H).
Defined.

(** ** C3: values outside the enums *)

(** C3, as stated, fails.  A goal outside its enum falls into the
    [else] branch written for maintenance, and a protein preference
    outside its enum into the branch written for beef and poultry: for the
    salmon bowl the goal [keto] earns the maintenance bonus of 5, and the
    preference [pork] costs the mismatch penalty of 4. *)
Lemma C3_unrecognized_value_counterexample :
  In grilled_salmon_bowl MEALS /\
  ~ In (Ans.goal goal_keto) goal_enum /\
  goal_rule grilled_salmon_bowl goal_keto (mkAcc 50 []) =
    mkAcc 55 ["maintenance-friendly calories"] /\
  score_meal grilled_salmon_bowl goal_keto = (58, ["maintenance-friendly calories"], []) /\
  ~ In (Ans.protein_pref prefers_pork) protein_pref_enum /\
  protein_rule grilled_salmon_bowl prefers_pork (mkAcc 50 []) = mkAcc 46 [] /\
  score_meal grilled_salmon_bowl prefers_pork = (54, ["maintenance-friendly calories"], []).
Proof.
  split; [cbn; tauto|].
  split; [cbn; intuition discriminate|].
  split; [reflexivity|].
  split; [reflexivity|].
  split; [cbn; intuition discriminate|].
  split; reflexivity.
Qed.

Lemma not_in_eqb (v x : string) (l : list string) :
  ~ In v l -> In x l -> (v == x) = false.
Proof. intros Hv Hx. apply String.eqb_neq. intros ->. contradiction. Qed.

Ltac outside H x :=
  rewrite (not_in_eqb _ x _ H) by (cbn; tauto).

(** Each rule reads one key of the answers. *)
Lemma protein_rule_reads M A B st :
  Ans.protein_pref A = Ans.protein_pref B -> protein_rule M A st = protein_rule M B st.
Proof. unfold protein_rule. now intros ->. Qed.

Lemma goal_rule_reads M A B st :
  Ans.goal A = Ans.goal B -> goal_rule M A st = goal_rule M B st.
Proof. unfold goal_rule. now intros ->. Qed.

Lemma timing_rule_reads M A B st :
  Ans.timing A = Ans.timing B -> timing_rule M A st = timing_rule M B st.
Proof. unfold timing_rule. now intros ->. Qed.

Lemma effort_rule_reads M A B st :
  Ans.effort A = Ans.effort B -> effort_rule M A st = effort_rule M B st.
Proof. unfold effort_rule. now intros ->. Qed.

Lemma sodium_rule_reads M A B st :
  Ans.sodium_pref A = Ans.sodium_pref B -> sodium_rule M A st = sodium_rule M B st.
Proof. unfold sodium_rule. now intros ->. Qed.

Lemma spice_rule_reads M A B st :
  Ans.spice_pref A = Ans.spice_pref B -> spice_rule M A st = spice_rule M B st.
Proof. unfold spice_rule. now intros ->. Qed.

(** Two answer sets on which the avoidance test and every rule agree get
    the same result. *)
Lemma score_meal_agree M A B :
  Ans.avoids A = Ans.avoids B ->
  (forall st, protein_rule M A st = protein_rule M B st) ->
  (forall st, goal_rule M A st = goal_rule M B st) ->
  (forall st, timing_rule M A st = timing_rule M B st) ->
  (forall st, effort_rule M A st = effort_rule M B st) ->
  (forall st, sodium_rule M A st = sodium_rule M B st) ->
  (forall st, spice_rule M A st = spice_rule M B st) ->
  score_meal M A = score_meal M B.
Proof.
  intros Ha H1 H2 H3 H4 H5 H6. unfold score_meal, conflicts.
  rewrite Ha. cbv zeta. now rewrite H1, H2, H3, H4, H5, H6.
Qed.

Ltac same_elsewhere :=
  apply score_meal_agree; try reflexivity; try assumption; intro;
  first [ apply protein_rule_reads | apply goal_rule_reads | apply timing_rule_reads
        | apply effort_rule_reads | apply sodium_rule_reads | apply spice_rule_reads ];
  reflexivity.

(** C3, amended: what [score_meal] does with a value outside an enum.
    The function is total, so no such value makes it fail.  A [timing] or
    an [effort] outside its enum takes no branch of its rule: nothing is
    added or subtracted.  So does a [spice_pref] outside its enum, for a
    meal whose spice level is in the meal's enum.  A [goal] outside its
    enum is scored as [maintenance], a [sodium_pref] outside its enum as
    [normal], and a [protein_pref] outside its enum by the exact-match
    branch: the match bonus if the meal's [protein_type] is that very
    string, the mismatch penalty otherwise. *)
Theorem unrecognized_values (M : Meal.t) (A : Ans.t) :
  (~ In (Ans.timing A) timing_enum ->
     (forall st, timing_rule M A st = st) /\
     score_meal M A = score_meal M (with_timing "any" A)) /\
  (~ In (Ans.effort A) effort_enum ->
     forall st, effort_rule M A st = st) /\
  (~ In (Ans.spice_pref A) spice_pref_enum -> In (Meal.spice M) meal_spice_enum ->
     (forall st, spice_rule M A st = st) /\
     score_meal M A = score_meal M (with_spice_pref "no-pref" A)) /\
  (~ In (Ans.goal A) goal_enum ->
     (forall st, goal_rule M A st = goal_rule M (with_goal "maintenance" A) st) /\
     score_meal M A = score_meal M (with_goal "maintenance" A)) /\
  (~ In (Ans.sodium_pref A) sodium_pref_enum ->
     (forall st, sodium_rule M A st = sodium_rule M (with_sodium_pref "normal" A) st) /\
     score_meal M A = score_meal M (with_sodium_pref "normal" A)) /\
  (~ In (Ans.protein_pref A) protein_pref_enum ->
     forall st,
       protein_rule M A st =
       if Meal.protein_type M == Ans.protein_pref A
       then say "matches protein preference" (add (W "match_protein_pref") st)
       else sub (W "mismatch_protein_pref") st).
Proof.
  repeat apply conj.
  - intro H.
    assert (Hr : forall st, timing_rule M A st = st).
    { intro st. unfold timing_rule. cbv zeta.
      outside H "pre". outside H "post". reflexivity. }
    split; [exact Hr|].
    assert (forall st, timing_rule M A st = timing_rule M (with_timing "any" A) st)
      by (intro st; now rewrite Hr).
    same_elsewhere.
  - intros H st. unfold effort_rule. cbv zeta.
    outside H "low". outside H "med". outside H "high". outside H "restaurant".
    reflexivity.
  - intros H HM.
    assert (Hne : (Meal.spice M == Ans.spice_pref A) = false).
    { apply String.eqb_neq. intros Heq. apply H. rewrite <- Heq.
      cbn in HM |- *. tauto. }
    assert (Hr : forall st, spice_rule M A st = st).
    { intro st. unfold spice_rule. cbv zeta. rewrite Hne.
      now rewrite andb_false_r. }
    split; [exact Hr|].
    assert (forall st, spice_rule M A st = spice_rule M (with_spice_pref "no-pref" A) st)
      by (intro st; now rewrite Hr).
    same_elsewhere.
  - intro H.
    assert (Hr : forall st, goal_rule M A st = goal_rule M (with_goal "maintenance" A) st).
    { intro st. unfold goal_rule, with_goal. cbn [Ans.goal]. cbv zeta.
      outside H "cut". outside H "bulk". reflexivity. }
    split; [exact Hr|]. same_elsewhere.
  - intro H.
    assert (Hr : forall st,
      sodium_rule M A st = sodium_rule M (with_sodium_pref "normal" A) st).
    { intro st. unfold sodium_rule, with_sodium_pref. cbn [Ans.sodium_pref]. cbv zeta.
      outside H "lower". reflexivity. }
    split; [exact Hr|]. same_elsewhere.
  - intros H st. unfold protein_rule. cbv zeta.
    outside H "no-preference". outside H "plant-only". outside H "fish/seafood".
    reflexivity.
Qed.

Lemma unrecognized_values_witness :
  (~ In (Ans.timing off_menu) timing_enum /\
   ~ In (Ans.effort off_menu) effort_enum /\
   ~ In (Ans.spice_pref off_menu) spice_pref_enum /\
   In (Meal.spice grilled_salmon_bowl) meal_spice_enum /\
   ~ In (Ans.goal off_menu) goal_enum /\
   ~ In (Ans.sodium_pref off_menu) sodium_pref_enum /\
   ~ In (Ans.protein_pref off_menu) protein_pref_enum) /\
  score_meal grilled_salmon_bowl off_menu =
    score_meal grilled_salmon_bowl (with_timing "any" off_menu) /\
  effort_rule grilled_salmon_bowl off_menu (mkAcc 50 []) = mkAcc 50 [] /\
  score_meal grilled_salmon_bowl off_menu =
    score_meal grilled_salmon_bowl (with_spice_pref "no-pref" off_menu) /\
  score_meal grilled_salmon_bowl off_menu =
    score_meal grilled_salmon_bowl (with_goal "maintenance" off_menu) /\
  score_meal grilled_salmon_bowl off_menu =
    score_meal grilled_salmon_bowl (with_sodium_pref "normal" off_menu) /\
  protein_rule grilled_salmon_bowl off_menu (mkAcc 50 []) =
    sub (W "mismatch_protein_pref") (mkAcc 50 []).
Proof.
  assert (Ht : ~ In (Ans.timing off_menu) timing_enum) by (simpl; intuition discriminate).
  assert (He : ~ In (Ans.effort off_menu) effort_enum) by (simpl; intuition discriminate).
  assert (Hs : ~ In (Ans.spice_pref off_menu) spice_pref_enum) by (simpl; intuition discriminate).
  assert (Hm : In (Meal.spice grilled_salmon_bowl) meal_spice_enum) by (simpl; tauto).
  assert (Hg : ~ In (Ans.goal off_menu) goal_enum) by (simpl; intuition discriminate).
  assert (Hn : ~ In (Ans.sodium_pref off_menu) sodium_pref_enum) by (simpl; intuition discriminate).
  assert (Hp : ~ In (Ans.protein_pref off_menu) protein_pref_enum) by (simpl; intuition discriminate).
  split; [tauto|].
  destruct (unrecognized_values grilled_salmon_bowl off_menu)
    as (Ct & Ce & Cs & Cg & Cn & Cp).
  split; [exact (proj2 (Ct Ht))|].
  split; [exact (Ce He (mkAcc 50 []))|].
  split; [exact (proj2 (Cs Hs Hm))|].
  split; [exact (proj2 (Cg Hg))|].
  split; [exact (proj2 (Cn Hn))|].
  exact (Cp Hp (mkAcc 50 [])).
Defined.

(** ** C4: the global generator *)

(** C4, as stated, fails.  [recommend] seeds and draws from the generator
    of the [random] module itself.  With the sample generator [Lcg]: after
    a call with seed 42 the global state is no longer the state 7 the call
    started from, and the next draw below 100 is 42, where it would have
    been 16 had the call not happened.  ([no_generator_left_alone] below
    shows the same for every generator that has two distinct states.) *)
Lemma C4_global_generator_counterexample :
  random (startup (R := Lcg) 7) = 7 /\
  random (snd (recommend scenario_a 3 (Some 42) (startup (R := Lcg) 7))) = 391441865 /\
  random (snd (recommend scenario_a 3 (Some 42) (startup (R := Lcg) 7))) <>
    random (startup (R := Lcg) 7) /\
  fst (randbelow 100 (random (startup (R := Lcg) 7))) = 16%nat /\
  fst (randbelow 100
         (random (snd (recommend scenario_a 3 (Some 42) (startup (R := Lcg) 7))))) = 42%nat.
Proof.
  split; [reflexivity|].
  split; [reflexivity|].
  split; [vm_compute; discriminate|].
  split; reflexivity.
Qed.

(** C4, amended: what a call leaves behind.  The catalog is never
    changed.  Without a seed, or when no meal passes the filter, the global
    generator is left exactly as it was.  With a seed and at least one
    surviving meal, the call reseeds the global generator and advances it
    by the draws of the shuffle: the state afterwards is the one reached
    from the seed alone, whatever the state was before the call. *)
Theorem recommend_global_state
    {R : RandomModule} (A : Ans.t) (top_k : Z) (seed : option Z) (w : World) :
  catalog (snd (recommend A top_k seed w)) = catalog w /\
  (seed = None -> snd (recommend A top_k seed w) = w) /\
  (filter (survives A) (catalog w) = [] -> snd (recommend A top_k seed w) = w) /\
  (forall s, seed = Some s -> filter (survives A) (catalog w) <> [] ->
     random (snd (recommend A top_k seed w)) =
     snd (shuffle (map (entry_of A) (filter (survives A) (catalog w))) (seed_state s))).
Proof.
  rewrite recommend_world, score_all_filter. cbn [catalog random].
  split; [reflexivity|].
  split; [|split].
  - intros ->. destruct w. cbn. now destruct (map _ _).
  - intros ->. now destruct w.
  - intros s -> Hne.
    destruct (filter (survives A) (catalog w)); [contradiction | reflexivity].
Qed.

Lemma recommend_global_state_witness :
  Some 42 = Some 42 /\
  filter (survives scenario_a) (catalog (startup (R := Lcg) 7)) <> [] /\
  random (snd (recommend scenario_a 3 (Some 42) (startup (R := Lcg) 7))) =
  snd (shuffle
         (map (entry_of scenario_a)
            (filter (survives scenario_a) (catalog (startup (R := Lcg) 7))))
         (seed_state 42)).
Proof.
  assert (Hne : filter (survives scenario_a) (catalog (startup (R := Lcg) 7)) <> [])
    by (vm_compute; discriminate).
  split; [reflexivity|]. split; [exact Hne|].
  exact (proj2 (proj2 (proj2
    (recommend_global_state (R := Lcg) scenario_a 3 (Some 42) (startup (R := Lcg) 7))))
    42 eq_refl Hne).
Defined.

(** The failure of C4 does not hinge on the generator: the state after a
    seeded call is the same whatever it was before, so no generator with
    two distinct states can be left as it was by every call. *)
Lemma seeded_call_overwrites_generator
    {R : RandomModule} (A : Ans.t) (top_k : Z) (s : Z) (meals : list Meal.t) (g1 g2 : rng) :
  filter (survives A) meals <> [] ->
  random (snd (recommend A top_k (Some s) (mkWorld meals g1))) =
  random (snd (recommend A top_k (Some s) (mkWorld meals g2))).
Proof.
  intro Hne.
  pose proof (recommend_world A top_k (Some s) (mkWorld meals g1)) as H1.
  pose proof (recommend_world A top_k (Some s) (mkWorld meals g2)) as H2.
  rewrite H1, H2. cbn [catalog random].
  rewrite score_all_filter.
  destruct (filter (survives A) meals); [contradiction | reflexivity].
Qed.

Lemma no_generator_left_alone
    {R : RandomModule} (top_k : Z) (s : Z) (g1 g2 : rng) :
  g1 <> g2 ->
  ~ (forall g, random (snd (recommend scenario_a top_k (Some s) (startup g))) = g).
Proof.
  intros Hne Hall. apply Hne.
  rewrite <- (Hall g1), <- (Hall g2).
  apply seeded_call_overwrites_generator. vm_compute. discriminate.
Qed.

(** ** C5: seeded reproducibility *)

(** C5: with a seed, the result of [recommend] does not depend on the
    state of the global generator at the time of the call, so two
    invocations with the same answers, [top_k] and seed return the same
    structure, records, order and all: whether the second starts from an
    arbitrary state [g2], or from the state the first one left behind. *)
Theorem seeded_reproducibility
    {R : RandomModule} (A : Ans.t) (top_k : Z) (s : Z)
    (meals : list Meal.t) (g1 g2 : rng) :
  fst (recommend A top_k (Some s) (mkWorld meals g1)) =
  fst (recommend A top_k (Some s) (mkWorld meals g2)) /\
  fst (recommend A top_k (Some s)
         (snd (recommend A top_k (Some s) (mkWorld meals g1)))) =
  fst (recommend A top_k (Some s) (mkWorld meals g1)).
Proof.
  split.
  - now rewrite !recommend_result.
  - rewrite (recommend_result A top_k (Some s) (snd _)), recommend_world.
    now rewrite recommend_result.
Qed.

(** ** C6: the top-K bound *)

(** C6, as stated, fails for a negative [top_k], which the slice
    [scored[:top_k]] reads as counted from the end: with twelve meals above
    -500 and [top_k = -1], eleven records are returned, which is not
    [min(-1, 12)]. *)
Lemma C6_negative_top_k_counterexample :
  List.length (filter (fun m => fst (fst (score_meal m scenario_a)) >? -500) MEALS) = 12%nat /\
  List.length
    (top_recommendations (fst (recommend scenario_a (-1) None (startup (R := Lcg) 7)))) =
    11%nat /\
  Z.of_nat 11 <> Z.min (-1) (Z.of_nat 12).
Proof.
  split; [reflexivity|]. split; [reflexivity|]. vm_compute. discriminate.
Qed.

(** C6, amended: for every [top_k >= 0], the number of records returned is
    [min(top_k, n)], where [n] counts the catalog meals scored above
    -500. *)
Theorem top_k_bound
    {R : RandomModule} (A : Ans.t) (top_k : Z) (seed : option Z) (w : World) :
  0 <= top_k ->
  Z.of_nat (List.length (top_recommendations (fst (recommend A top_k seed w)))) =
  Z.min top_k
    (Z.of_nat (List.length
       (filter (fun m => fst (fst (score_meal m A)) >? -500) (catalog w)))).
Proof. apply top_length. Qed.

Lemma top_k_bound_witness :
  0 <= 3 /\
  Z.of_nat (List.length
    (top_recommendations (fst (recommend scenario_a 3 (Some 42) (startup (R := Lcg) 7))))) =
  Z.min 3
    (Z.of_nat (List.length
       (filter (fun m => fst (fst (score_meal m scenario_a)) >? -500)
          (catalog (startup (R := Lcg) 7))))).
Proof.
  split; [lia|].
  apply (top_k_bound (R := Lcg) scenario_a 3 (Some 42) (startup (R := Lcg) 7)). lia.
Defined.

(** For the record, a negative [top_k] drops that many entries from the
    end of the ranking. *)
Lemma top_length_negative
    {R : RandomModule} (A : Ans.t) (top_k : Z) (seed : option Z) (w : World) :
  top_k < 0 ->
  Z.of_nat (List.length (top_recommendations (fst (recommend A top_k seed w)))) =
  Z.max 0 (Z.of_nat (List.length (filter (survives A) (catalog w))) + top_k).
Proof.
  intro Hk. rewrite recommend_result.
  destruct (score_all (catalog w) A) as [|e l] eqn:E.
  - rewrite score_all_filter in E. apply map_eq_nil in E. rewrite E. cbn. lia.
  - cbn [top_recommendations]. rewrite <- E. rewrite length_map.
    unfold slice_to. destruct (top_k <? 0)%Z eqn:Hlt; [|lia].
    rewrite length_firstn, survivors_length. lia.
Qed.

(** ** C7: the baseline *)

(** These conditions are exact: a rule is in its no-effect branch if and
    only if it hands back the accumulators it was given. *)
Ltac changes_score H :=
  apply (f_equal score) in H; unfold add, sub, say in H; cbn [score] in H;
  autorewrite with weights in H; lia.

Ltac split_tests :=
  repeat (match goal with
          | |- context [?a == ?b] => destruct (a == b) eqn:?
          | |- context [str_in ?a ?b] => destruct (str_in a b) eqn:?
          | |- context [Z.leb ?a ?b] => destruct (Z.leb a b) eqn:?
          | |- context [Z.ltb ?a ?b] => destruct (Z.ltb a b) eqn:?
          | |- context [Z.geb ?a ?b] => destruct (Z.geb a b) eqn:?
          | |- context [Z.gtb ?a ?b] => destruct (Z.gtb a b) eqn:?
          | |- context [Meal.takeout_ok ?m] => destruct (Meal.takeout_ok m) eqn:?
          end; cbn [negb andb orb]; cbv iota).

Ltac settle_no_effect :=
  cbv zeta; split_tests;
  split;
  (let H := fresh "H" in
   intro H; first [ reflexivity | discriminate H | changes_score H ]).

Lemma protein_no_effect_iff meal ans st :
  protein_no_effect meal ans = true <-> protein_rule meal ans st = st.
Proof. unfold protein_no_effect, protein_rule. settle_no_effect. Qed.

Lemma goal_no_effect_iff meal ans st :
  goal_no_effect meal ans = true <-> goal_rule meal ans st = st.
Proof. unfold goal_no_effect, goal_rule. settle_no_effect. Qed.

Lemma timing_no_effect_iff meal ans st :
  timing_no_effect meal ans = true <-> timing_rule meal ans st = st.
Proof. unfold timing_no_effect, timing_rule. settle_no_effect. Qed.

Lemma effort_no_effect_iff meal ans st :
  effort_no_effect meal ans = true <-> effort_rule meal ans st = st.
Proof. unfold effort_no_effect, effort_rule. settle_no_effect. Qed.

Lemma sodium_no_effect_iff meal ans st :
  sodium_no_effect meal ans = true <-> sodium_rule meal ans st = st.
Proof. unfold sodium_no_effect, sodium_rule. settle_no_effect. Qed.

Lemma spice_no_effect_iff meal ans st :
  spice_no_effect meal ans = true <-> spice_rule meal ans st = st.
Proof. unfold spice_no_effect, spice_rule. settle_no_effect. Qed.

(** C7: when no avoidance conflicts and each of the six scoring rules is in
    its no-effect branch, [score_meal] returns the score 50, with no
    reason; the flags are the advisory flags of the meal, which do not
    touch the score. *)
Theorem additivity_baseline (M : Meal.t) (A : Ans.t) :
  conflicts M A = false ->
  protein_no_effect M A = true ->
  goal_no_effect M A = true ->
  timing_no_effect M A = true ->
  effort_no_effect M A = true ->
  sodium_no_effect M A = true ->
  spice_no_effect M A = true ->
  score_meal M A = (50, [], advisory_flags M).
Proof.
  intros Hc H1 H2 H3 H4 H5 H6. unfold score_meal. rewrite Hc. cbv zeta.
  rewrite (proj1 (protein_no_effect_iff M A _) H1).
  rewrite (proj1 (goal_no_effect_iff M A _) H2).
  rewrite (proj1 (timing_no_effect_iff M A _) H3).
  rewrite (proj1 (effort_no_effect_iff M A _) H4).
  rewrite (proj1 (sodium_no_effect_iff M A _) H5).
  rewrite (proj1 (spice_no_effect_iff M A _) H6).
  reflexivity.
Qed.

Lemma additivity_baseline_witness :
  In beef_steak_plate MEALS /\
  score_meal beef_steak_plate indifferent = (50, [], ["omit butter to be dairy-free"]).
Proof.
  split; [simpl; tauto|].
  apply (additivity_baseline beef_steak_plate indifferent); reflexivity.
Defined.

(** ** C8: the sodium rule *)

(** The spice rule adds to the score whatever came before it, and records
    no reason. *)
Lemma spice_rule_score meal ans st :
  score (spice_rule meal ans st) =
  score st + score (spice_rule meal ans (mkAcc 0 [])).
Proof. unfold spice_rule. cbv zeta. split_ifs; unfold add; cbn [score]; lia. Qed.

Lemma spice_rule_reasons meal ans st :
  reasons (spice_rule meal ans st) = reasons st.
Proof. unfold spice_rule. cbv zeta. now split_ifs. Qed.

(** C8: for a meal that passes the avoidance filter and answers with
    [sodium_pref = "lower"], the result of [score_meal] is the result of
    the other rules with [sodium_low_bonus] (5) added and the reason
    "lower sodium" recorded when [sodium_mg <= 500], with
    [sodium_high_penalty] (6) subtracted when [sodium_mg > 700], and
    unchanged when [500 < sodium_mg <= 700]. *)
Theorem sodium_rule_gap (M : Meal.t) (A : Ans.t) :
  conflicts M A = false ->
  Ans.sodium_pref A = "lower" ->
  W "sodium_low_bonus" = 5 /\ W "sodium_high_penalty" = 6 /\
  (Meal.sodium_mg M <= 500 ->
   score_meal M A =
     (score (without_sodium_rule M A) + W "sodium_low_bonus",
      (reasons (without_sodium_rule M A) ++ ["lower sodium"])%list,
      advisory_flags M)) /\
  (Meal.sodium_mg M > 700 ->
   score_meal M A =
     (score (without_sodium_rule M A) - W "sodium_high_penalty",
      reasons (without_sodium_rule M A),
      advisory_flags M)) /\
  (500 < Meal.sodium_mg M <= 700 ->
   score_meal M A =
     (score (without_sodium_rule M A), reasons (without_sodium_rule M A),
      advisory_flags M)).
Proof.
  intros Hc Hs.
  split; [reflexivity|]. split; [reflexivity|].
  unfold score_meal, without_sodium_rule. rewrite Hc. cbv zeta.
  set (before := effort_rule M A _).
  rewrite (spice_rule_score M A (sodium_rule M A before)).
  rewrite (spice_rule_score M A before).
  rewrite !spice_rule_reasons.
  unfold sodium_rule. rewrite Hs. cbn [String.eqb Ascii.eqb Bool.eqb]. cbv zeta.
  repeat split; intro H.
  - replace (Meal.sodium_mg M <=? 500)%Z with true by (symmetry; apply Z.leb_le; lia).
    unfold say, add. cbn [score reasons]. f_equal. f_equal. lia.
  - replace (Meal.sodium_mg M <=? 500)%Z with false by (symmetry; apply Z.leb_gt; lia).
    replace (Meal.sodium_mg M >? 700)%Z with true by (symmetry; apply Z.gtb_lt; lia).
    unfold sub. cbn [score reasons]. f_equal. f_equal. lia.
  - replace (Meal.sodium_mg M <=? 500)%Z with false by (symmetry; apply Z.leb_gt; lia).
    replace (Meal.sodium_mg M >? 700)%Z with false
      by (symmetry; rewrite Z.gtb_ltb; apply Z.ltb_ge; lia).
    reflexivity.
Qed.

Lemma sodium_rule_gap_witness :
  conflicts grilled_salmon_bowl scenario_a = false /\
  Ans.sodium_pref scenario_a = "lower" /\
  500 < Meal.sodium_mg grilled_salmon_bowl <= 700 /\
  score_meal grilled_salmon_bowl scenario_a =
    (score (without_sodium_rule grilled_salmon_bowl scenario_a),
     reasons (without_sodium_rule grilled_salmon_bowl scenario_a),
     advisory_flags grilled_salmon_bowl).
Proof.
  split; [reflexivity|]. split; [reflexivity|].
  split; [simpl; lia|].
  apply (sodium_rule_gap grilled_salmon_bowl scenario_a); [reflexivity | reflexivity | simpl; lia].
Defined.

(** ** C9: the catalog is only read *)


(** ** C10: disqualified or clearly above the threshold *)

(** C10: the score of any meal under any answers is either exactly -999,
    when an avoidance disqualifies the meal, or at least 0 (and at most
    94), when none does; it is never in between.  So the filter
    [s > -500] of [recommend] keeps exactly the meals that are not
    disqualified, from the catalog or from any list of meals. *)
Theorem score_dichotomy (M : Meal.t) (A : Ans.t) :
  (conflicts M A = true /\ fst (fst (score_meal M A)) = -999 \/
   conflicts M A = false /\ -500 < fst (fst (score_meal M A)) /\
     0 <= fst (fst (score_meal M A)) <= 94) /\
  (fst (fst (score_meal M A)) >? -500) = negb (conflicts M A) /\
  forall meals : list Meal.t,
    filter (fun m => fst (fst (score_meal m A)) >? -500) meals =
    filter (fun m => negb (conflicts m A)) meals /\
    map entry_meal (score_all meals A) = filter (fun m => negb (conflicts m A)) meals.
Proof.
  split; [|split].
  - destruct (conflicts M A) eqn:E.
    + left. split; [reflexivity|]. now rewrite score_meal_conflict.
    + right. split; [reflexivity|]. pose proof (score_meal_range M A E). lia.
  - apply (survives_iff A M).
  - intro meals.
    assert (Hf : filter (survives A) meals = filter (fun m => negb (conflicts m A)) meals)
      by (apply filter_ext; intro m; apply survives_iff).
    split; [exact Hf|].
    rewrite score_all_filter, map_map, <- Hf.
    rewrite (map_ext _ (fun m => m)) by (intro m; apply entry_meal_entry_of).
    apply map_id.
Qed.

(** * Further properties of the recommender *)

(** ** The ranking behind a result *)

Lemma package_score (e : Entry) : Rec.score (package e) = entry_score e.
Proof. now destruct e as [[[s m] r] f]. Qed.

Lemma entry_of_score (ans : Ans.t) (m : Meal.t) :
  entry_score (entry_of ans m) = fst (fst (score_meal m ans)).
Proof. unfold entry_of. now destruct (score_meal m ans) as [[s r] f]. Qed.

Lemma sort_desc_strongly_sorted (l : list Entry) : StronglySorted score_ge (sort_desc l).
Proof.
  apply Sorted_StronglySorted; [|apply sort_desc_sorted].
  intros a b c. unfold score_ge. lia.
Qed.

Lemma strongly_sorted_firstn {X : Type} (R : X -> X -> Prop) (n : nat) (l : list X) :
  StronglySorted R l -> StronglySorted R (firstn n l).
Proof.
  revert n. induction l as [|a l IH]; intros [|n] H; cbn; try constructor.
  - apply IH. now inversion H.
  - inversion H as [|? ? _ Hall]; subst.
    apply Forall_forall. intros x Hx.
    rewrite Forall_forall in Hall. apply Hall.
    rewrite <- (firstn_skipn n l). apply in_or_app. now left.
Qed.

Lemma strongly_sorted_map {X Y : Type} (R : X -> X -> Prop) (Q : Y -> Y -> Prop)
    (f : X -> Y) (l : list X) :
  (forall a b, R a b -> Q (f a) (f b)) ->
  StronglySorted R l -> StronglySorted Q (map f l).
Proof.
  intros Hf. induction 1 as [|a l Hs IH Hall]; cbn; constructor; [exact IH|].
  apply Forall_forall. intros y Hy. apply in_map_iff in Hy as (x & <- & Hx).
  rewrite Forall_forall in Hall. auto.
Qed.

(** A slice [x[:k]] is a prefix of [x], whatever the sign of [k]. *)
Lemma slice_to_prefix {X : Type} (k : Z) (x : list X) :
  exists n, slice_to k x = firstn n x.
Proof. unfold slice_to. destruct (k <? 0)%Z; eexists; reflexivity. Qed.

Section Ranking.
Context {R : RandomModule}.

Lemma top_is_sliced_ranking (ans : Ans.t) (top_k : Z) (seed : option Z) (w : World) :
  top_recommendations (fst (recommend ans top_k seed w)) =
  map package (slice_to top_k (ranking ans seed (catalog w))).
Proof.
  rewrite recommend_result. unfold ranking.
  destruct (score_all (catalog w) ans) as [|e l] eqn:E; [|reflexivity].
  cbn [top_recommendations].
  assert (arrange seed [] = []) as -> by (destruct seed; reflexivity).
  cbn. unfold slice_to. destruct (top_k <? 0)%Z; now rewrite firstn_nil.
Qed.

Lemma ranking_perm (ans : Ans.t) (seed : option Z) (meals : list Meal.t) :
  Permutation (ranking ans seed meals) (map (entry_of ans) (filter (survives ans) meals)).
Proof.
  unfold ranking. rewrite <- score_all_filter.
  etransitivity; [apply sort_desc_perm | apply arrange_perm].
Qed.

Lemma in_ranking (ans : Ans.t) (seed : option Z) (meals : list Meal.t) (m : Meal.t) :
  In m meals -> conflicts m ans = false -> In (entry_of ans m) (ranking ans seed meals).
Proof.
  intros Hm Hc. apply (Permutation_in _ (Permutation_sym (ranking_perm ans seed meals))).
  apply in_map, filter_In. split; [exact Hm|]. now rewrite survives_iff, Hc.
Qed.

(** The records come out in order of score, highest first: each record
    scores at least as much as every record after it. *)
Theorem recommendations_sorted
    (A : Ans.t) (top_k : Z) (seed : option Z) (w : World) :
  StronglySorted (fun a b => Rec.score a >= Rec.score b)
    (top_recommendations (fst (recommend A top_k seed w))).
Proof.
  rewrite top_is_sliced_ranking.
  destruct (slice_to_prefix top_k (ranking A seed (catalog w))) as [n ->].
  apply (strongly_sorted_map score_ge).
  - intros a b. now rewrite !package_score.
  - apply strongly_sorted_firstn, sort_desc_strongly_sorted.
Qed.

(** The first record has the highest score of all the catalog meals that no
    avoidance disqualifies. *)
Theorem first_recommendation_is_best
    (A : Ans.t) (top_k : Z) (seed : option Z) (w : World)
    (first : Rec.t) (others : list Rec.t) (m : Meal.t) :
  top_recommendations (fst (recommend A top_k seed w)) = first :: others ->
  In m (catalog w) -> conflicts m A = false ->
  fst (fst (score_meal m A)) <= Rec.score first.
Proof.
  rewrite top_is_sliced_ranking. intros Htop Hm Hc.
  pose proof (in_ranking A seed (catalog w) m Hm Hc) as Hin.
  pose proof (sort_desc_strongly_sorted (arrange seed (score_all (catalog w) A))) as Hs.
  fold (ranking A seed (catalog w)) in Hs.
  destruct (slice_to_prefix top_k (ranking A seed (catalog w))) as [n Hn].
  rewrite Hn in Htop.
  destruct (ranking A seed (catalog w)) as [|e l]; [now rewrite firstn_nil in Htop|].
  destruct n as [|n]; [discriminate|]. cbn in Htop. injection Htop as <- _.
  rewrite package_score, <- entry_of_score.
  destruct Hin as [<-|Hin]; [lia|].
  inversion Hs as [|? ? _ Hall]; subst. rewrite Forall_forall in Hall.
  specialize (Hall _ Hin). unfold score_ge in Hall. lia.
Qed.

(** The records are the best of the ranking: a catalog meal that passes the
    avoidance filter and is not named in the result scores no higher than
    any record of the result. *)
Theorem left_out_scores_no_higher
    (A : Ans.t) (top_k : Z) (seed : option Z) (w : World) (rec : Rec.t) (m : Meal.t) :
  In rec (top_recommendations (fst (recommend A top_k seed w))) ->
  In m (catalog w) -> conflicts m A = false ->
  ~ In (Meal.name m) (map Rec.name (top_recommendations (fst (recommend A top_k seed w)))) ->
  fst (fst (score_meal m A)) <= Rec.score rec.
Proof.
  rewrite top_is_sliced_ranking. intros Hrec Hm Hc Hout.
  pose proof (in_ranking A seed (catalog w) m Hm Hc) as Hin.
  pose proof (sort_desc_strongly_sorted (arrange seed (score_all (catalog w) A))) as Hs.
  fold (ranking A seed (catalog w)) in Hs.
  destruct (slice_to_prefix top_k (ranking A seed (catalog w))) as [n Hn].
  rewrite Hn in Hrec, Hout. clear Hn.
  apply in_map_iff in Hrec as (e & <- & He).
  rewrite package_score, <- entry_of_score.
  rewrite <- (firstn_skipn n (ranking A seed (catalog w))) in Hin, Hs.
  apply in_app_or in Hin as [Hin|Hin].
  - exfalso. apply Hout. rewrite <- (package_name A m). now apply in_map, in_map.
  - clear Hout. revert Hs He Hin.
    generalize (firstn n (ranking A seed (catalog w))) as front.
    generalize (skipn n (ranking A seed (catalog w))) as back.
    intros back front. induction front as [|a front IH]; cbn; intros Hs He Hin.
    + contradiction.
    + inversion Hs as [|? ? Hs' Hall]; subst. destruct He as [->|He].
      * rewrite Forall_forall in Hall.
        specialize (Hall (entry_of A m) ltac:(apply in_or_app; now right)).
        unfold score_ge in Hall. lia.
      * now apply IH.
Qed.

End Ranking.

(** ** What the seed can and cannot change *)



Lemma package_entry_name (e : Entry) : Rec.name (package e) = Meal.name (entry_meal e).
Proof. now destruct e as [[[s m] r] f]. Qed.

Lemma nodup_map_filter {X Y : Type} (f : X -> Y) (p : X -> bool) (l : list X) :
  NoDup (map f l) -> NoDup (map f (filter p l)).
Proof.
  induction l as [|a l IH]; cbn; intro H; [constructor|].
  inversion H as [|? ? Hnotin Hnd]; subst.
  destruct (p a); cbn; [constructor|]; auto.
  intro Hin. apply Hnotin. apply in_map_iff in Hin as (x & Hx & Hin).
  apply filter_In in Hin as [Hin _]. rewrite <- Hx. now apply in_map.
Qed.

Lemma filter_map_commute {X Y : Type} (f : X -> Y) (p : Y -> bool) (l : list X) :
  filter p (map f l) = map f (filter (fun x => p (f x)) l).
Proof.
  induction l as [|a l IH]; cbn; [reflexivity|].
  destruct (p (f a)); cbn; now rewrite IH.
Qed.

Section Seeds.
Context {R : RandomModule}.



(** No meal is recommended twice: when the names of the catalog are
    distinct, so are the names in a result. *)
Theorem no_meal_recommended_twice
    (A : Ans.t) (top_k : Z) (seed : option Z) (w : World) :
  NoDup (map Meal.name (catalog w)) ->
  NoDup (map Rec.name (top_recommendations (fst (recommend A top_k seed w)))).
Proof.
  intro Hnd. rewrite top_is_sliced_ranking.
  destruct (slice_to_prefix top_k (ranking A seed (catalog w))) as [n ->].
  rewrite map_map.
  rewrite (map_ext _ (fun e => Meal.name (entry_meal e))) by apply package_entry_name.
  assert (Hall : NoDup (map (fun e => Meal.name (entry_meal e)) (ranking A seed (catalog w)))).
  { apply (Permutation_NoDup
             (Permutation_map _ (Permutation_sym (ranking_perm A seed (catalog w))))).
    rewrite map_map.
    rewrite (map_ext _ Meal.name) by (intro m; now rewrite entry_meal_entry_of).
    now apply nodup_map_filter. }
  rewrite <- (firstn_skipn n (ranking A seed (catalog w))), map_app in Hall.
  now apply NoDup_app_remove_r in Hall.
Qed.

(** With [top_k] at least the number of meals that pass the filter, nothing
    is cut off: every catalog meal that no avoidance disqualifies is named
    in the result. *)
Theorem large_top_k_returns_all
    (A : Ans.t) (top_k : Z) (seed : option Z) (w : World) (m : Meal.t) :
  Z.of_nat (List.length (filter (fun m => negb (conflicts m A)) (catalog w))) <= top_k ->
  In m (catalog w) -> conflicts m A = false ->
  In (Meal.name m) (map Rec.name (top_recommendations (fst (recommend A top_k seed w)))).
Proof.
  intros Hk Hm Hc. rewrite top_is_sliced_ranking.
  rewrite (filter_ext _ (survives A)) in Hk by (intro x; now rewrite survives_iff).
  rewrite <- (survivors_length A seed) in Hk. fold (ranking A seed (catalog w)) in Hk.
  unfold slice_to. destruct (top_k <? 0)%Z eqn:E; [lia|].
  rewrite firstn_all2 by lia.
  rewrite <- (package_name A m). apply in_map, in_map. now apply in_ranking.
Qed.

(** Without a seed, meals of equal score keep the order of the catalog:
    when nothing is cut off, the records of any one score are those of
    the surviving catalog meals of that score, in catalog order. *)
Theorem unseeded_ties_in_catalog_order
    (A : Ans.t) (top_k : Z) (w : World) (p : Z) :
  Z.of_nat (List.length (filter (fun m => negb (conflicts m A)) (catalog w))) <= top_k ->
  filter (fun r => Rec.score r =? p) (top_recommendations (fst (recommend A top_k None w))) =
  map (fun m => package (entry_of A m))
    (filter (fun m => fst (fst (score_meal m A)) =? p)
       (filter (fun m => negb (conflicts m A)) (catalog w))).
Proof.
  intro Hk. rewrite top_is_sliced_ranking.
  rewrite (filter_ext _ (survives A)) in Hk by (intro x; now rewrite survives_iff).
  rewrite (filter_ext (fun m => negb (conflicts m A)) (survives A))
    by (intro x; now rewrite survives_iff).
  rewrite <- (survivors_length A None) in Hk. fold (ranking A None (catalog w)) in Hk.
  unfold slice_to. destruct (top_k <? 0)%Z eqn:E; [lia|].
  rewrite firstn_all2 by lia.
  rewrite filter_map_commute.
  rewrite (filter_ext _ (fun e => entry_score e =? p))
    by (intro e; now rewrite package_score).
  unfold ranking, arrange. rewrite sort_desc_stable, score_all_filter.
  rewrite filter_map_commute, map_map.
  f_equal. apply filter_ext. intro m. now rewrite entry_of_score.
Qed.

End Seeds.

Lemma no_meal_recommended_twice_witness :
  NoDup (map Meal.name (catalog (startup (R := Lcg) 7))) /\
  NoDup (map Rec.name
           (top_recommendations (fst (recommend scenario_a 5 (Some 42) (startup (R := Lcg) 7))))).
Proof.
  assert (H : NoDup (map Meal.name (catalog (startup (R := Lcg) 7))))
    by exact MEALS_names_unique.
  split; [exact H|].
  exact (no_meal_recommended_twice (R := Lcg) scenario_a 5 (Some 42) (startup (R := Lcg) 7) H).
Defined.

Lemma large_top_k_returns_all_witness :
  Z.of_nat (List.length
    (filter (fun m => negb (conflicts m avoid_shellfish)) (catalog (startup (R := Lcg) 7)))) <= 12 /\
  In tofu_stir_fry (catalog (startup (R := Lcg) 7)) /\
  conflicts tofu_stir_fry avoid_shellfish = false /\
  In (Meal.name tofu_stir_fry)
    (map Rec.name
       (top_recommendations (fst (recommend avoid_shellfish 12 None (startup (R := Lcg) 7))))).
Proof.
  assert (Hk : Z.of_nat (List.length
            (filter (fun m => negb (conflicts m avoid_shellfish))
               (catalog (startup (R := Lcg) 7)))) <= 12) by (vm_compute; discriminate).
  assert (Hm : In tofu_stir_fry (catalog (startup (R := Lcg) 7))) by (simpl; tauto).
  assert (Hc : conflicts tofu_stir_fry avoid_shellfish = false) by reflexivity.
  split; [exact Hk|]. split; [exact Hm|]. split; [exact Hc|].
  exact (large_top_k_returns_all (R := Lcg) avoid_shellfish 12 None (startup (R := Lcg) 7)
           tofu_stir_fry Hk Hm Hc).
Defined.

Lemma unseeded_ties_in_catalog_order_witness :
  Z.of_nat (List.length
    (filter (fun m => negb (conflicts m scenario_a)) (catalog (startup (R := Lcg) 7)))) <= 12 /\
  map Rec.name
    (filter (fun r => Rec.score r =? 69)
       (top_recommendations (fst (recommend scenario_a 12 None (startup (R := Lcg) 7))))) =
  ["Egg White Veggie Omelet + Oats"; "Greek Yogurt Power Bowl"].
Proof.
  assert (Hk : Z.of_nat (List.length
            (filter (fun m => negb (conflicts m scenario_a))
               (catalog (startup (R := Lcg) 7)))) <= 12) by (vm_compute; discriminate).
  split; [exact Hk|].
  rewrite (unseeded_ties_in_catalog_order (R := Lcg) scenario_a 12 (startup (R := Lcg) 7) 69 Hk).
  reflexivity.
Defined.

(** ** What a record reports, and when there is none *)

Section Records.
Context {R : RandomModule}.

(** Shuffling, sorting and slicing never mix up meals: every record carries
    the name, items, macros and sodium of one catalog meal that passes the
    avoidance filter, together with that same meal's score, reasons and
    flags. *)
Theorem record_reports_its_meal
    (A : Ans.t) (top_k : Z) (seed : option Z) (w : World) (rec : Rec.t) :
  In rec (top_recommendations (fst (recommend A top_k seed w))) ->
  exists m,
    In m (catalog w) /\ conflicts m A = false /\
    Rec.name rec = Meal.name m /\
    Rec.items rec = Meal.items m /\
    Rec.macros rec =
      Rec.mk_macros (Meal.calories m) (Meal.protein_g m) (Meal.carbs_g m) (Meal.fat_g m) /\
    Rec.sodium_mg rec = Meal.sodium_mg m /\
    (Rec.score rec, Rec.reasons rec, Rec.flags rec) = score_meal m A.
Proof.
  intro H. apply recommended_from_catalog in H as (m & Hm & Hc & ->).
  exists m. split; [exact Hm|]. split; [exact Hc|].
  unfold entry_of. now destruct (score_meal m A) as [[s r] f].
Qed.

(** The no-meals message is returned exactly when every meal of the catalog
    conflicts with the avoidances, and then with an empty list.  In every
    other case the message is the ordinary one, also when the list is
    empty because [top_k] is 0. *)
Theorem no_meals_message_iff
    (A : Ans.t) (top_k : Z) (seed : option Z) (w : World) :
  (explanation (fst (recommend A top_k seed w)) = no_meals_message <->
   forall m, In m (catalog w) -> conflicts m A = true) /\
  (explanation (fst (recommend A top_k seed w)) = no_meals_message ->
   top_recommendations (fst (recommend A top_k seed w)) = []) /\
  (explanation (fst (recommend A top_k seed w)) <> no_meals_message ->
   explanation (fst (recommend A top_k seed w)) = helper_message) /\
  (top_k = 0 -> top_recommendations (fst (recommend A top_k seed w)) = []).
Proof.
  assert (Hnone : score_all (catalog w) A = [] <->
                  forall m, In m (catalog w) -> conflicts m A = true).
  { rewrite score_all_filter. split.
    - intros H m Hm. apply map_eq_nil in H.
      destruct (conflicts m A) eqn:E; [reflexivity|]. exfalso.
      assert (Hin : In m (filter (survives A) (catalog w)))
        by (apply filter_In; split; [exact Hm | now rewrite survives_iff, E]).
      now rewrite H in Hin.
    - intro H. destruct (filter (survives A) (catalog w)) as [|m l] eqn:E; [reflexivity|].
      exfalso. assert (Hin : In m (filter (survives A) (catalog w))) by (rewrite E; now left).
      apply filter_In in Hin as [Hm Hs]. rewrite survives_iff, (H m Hm) in Hs. discriminate. }
  repeat split.
  - rewrite recommend_result. intro H. apply Hnone.
    destruct (score_all (catalog w) A); [reflexivity | discriminate H].
  - intro H. apply Hnone in H. rewrite recommend_result. now rewrite H.
  - rewrite recommend_result.
    destruct (score_all (catalog w) A); [reflexivity | discriminate].
  - rewrite recommend_result.
    destruct (score_all (catalog w) A); [intro H; now contradiction H | reflexivity].
  - intros ->. rewrite top_is_sliced_ranking. reflexivity.
Qed.

Lemma base_avoidances_keep_meals (A : Ans.t) :
  (forall a, In a (Ans.avoids A) -> In a all_seven) ->
  (forall n, In n always_eligible ->
     In n (map Meal.name (filter (fun m => negb (conflicts m A)) MEALS))) /\
  forall (top_k : Z) (seed : option Z) (g : rng),
    explanation (fst (recommend A top_k seed (startup g))) = helper_message.
Proof.
  intro Hav.
  assert (Hfree : forall m,
    existsb (fun t => str_in t all_seven) (Meal.allergens m) = false ->
    conflicts m A = false).
  { intros m Hm. destruct (conflicts m A) eqn:E; [|reflexivity].
    apply conflicts_iff in E as (a & Ha & Hin).
    assert (existsb (fun t => str_in t all_seven) (Meal.allergens m) = true)
      by (apply existsb_exists; exists a; split; [exact Ha | now apply str_in_In, Hav]).
    congruence. }
  assert (Hfive : forall n, In n always_eligible ->
    In n (map Meal.name (filter (fun m => negb (conflicts m A)) MEALS))).
  { intros n Hn.
    change always_eligible with
      (map Meal.name
         (filter (fun m => negb (existsb (fun t => str_in t all_seven) (Meal.allergens m)))
            MEALS)) in Hn.
    apply in_map_iff in Hn as (m & <- & Hm). apply filter_In in Hm as [Hm Hq].
    apply in_map, filter_In. split; [exact Hm|].
    rewrite Hfree; [reflexivity|]. now destruct (existsb _ _). }
  split; [exact Hfive|]. intros top_k seed g.
  rewrite recommend_result. cbn [startup catalog].
  destruct (score_all MEALS A) eqn:E; [|reflexivity]. exfalso.
  rewrite score_all_filter in E. apply map_eq_nil in E.
  rewrite (filter_ext _ (fun m => negb (conflicts m A))) in E
    by (intro m; apply survives_iff).
  specialize (Hfive "Lentil Curry + Rice" ltac:(simpl; tauto)).
  now rewrite E in Hfive.
Qed.

(** The answers the wizard can build avoid only base allergens.  For such
    answers five meals of the catalog always pass the filter, so the
    no-meals message cannot come up. *)
Theorem listed_avoidances_leave_meals (A : Ans.t) :
  (forall a, In a (Ans.avoids A) -> In a all_seven) ->
  (forall n, In n always_eligible ->
     In n (map Meal.name (filter (fun m => negb (conflicts m A)) MEALS))) /\
  forall (top_k : Z) (seed : option Z) (g : rng),
    explanation (fst (recommend A top_k seed (startup g))) = helper_message.
Proof. apply base_avoidances_keep_meals. Qed.

End Records.

(** Avoidances only disqualify.  Avoiding more never brings a disqualified
    meal back, and a meal that still passes the filter keeps its score,
    reasons and flags. *)
Theorem more_avoidances_only_disqualify (M : Meal.t) (A : Ans.t) (more : list string) :
  (conflicts M A = true -> conflicts M (with_avoids (Ans.avoids A ++ more) A) = true) /\
  (conflicts M (with_avoids (Ans.avoids A ++ more) A) = false ->
   score_meal M (with_avoids (Ans.avoids A ++ more) A) = score_meal M A).
Proof.
  split.
  - rewrite !conflicts_iff. intros (a & Ha & Hin). exists a.
    split; [exact Ha|]. cbn. apply in_or_app. now left.
  - intro Hfree.
    assert (Hc : conflicts M A = false).
    { destruct (conflicts M A) eqn:E; [|reflexivity].
      apply conflicts_iff in E as (a & Ha & Hin).
      assert (conflicts M (with_avoids (Ans.avoids A ++ more) A) = true)
        by (apply conflicts_iff; exists a; split;
            [exact Ha | cbn; apply in_or_app; now left]).
      congruence. }
    unfold score_meal. rewrite Hfree, Hc. cbv zeta.
    rewrite (protein_rule_reads M _ A) by reflexivity.
    rewrite (goal_rule_reads M _ A) by reflexivity.
    rewrite (timing_rule_reads M _ A) by reflexivity.
    rewrite (effort_rule_reads M _ A) by reflexivity.
    rewrite (sodium_rule_reads M _ A) by reflexivity.
    rewrite (spice_rule_reads M _ A) by reflexivity.
    reflexivity.
Qed.

(** * The prompts *)

(** ** Numerals *)

Lemma decimal_string_of_uint (d : Decimal.uint) :
  decimal (DecimalString.NilEmpty.string_of_uint d) = true.
Proof. induction d; cbn; auto. Qed.

Lemma string_of_uint_nonempty (d : Decimal.uint) :
  d <> Decimal.Nil -> DecimalString.NilEmpty.string_of_uint d <> EmptyString.
Proof. destruct d; cbn; congruence. Qed.

Lemma py_str_pos (p : positive) :
  py_str (Z.pos p) = DecimalString.NilEmpty.string_of_uint (Pos.to_uint p).
Proof.
  unfold py_str. cbn.
  pose proof (DecimalPos.Unsigned.to_uint_nonnil p) as H.
  now destruct (Pos.to_uint p).
Qed.

Lemma py_str_decimal (i : Z) : 0 <= i -> decimal (py_str i) = true.
Proof.
  destruct i as [|p|p]; intro H; [reflexivity | | lia].
  rewrite py_str_pos. apply decimal_string_of_uint.
Qed.

Lemma py_str_nonempty (i : Z) : 0 <= i -> py_str i <> EmptyString.
Proof.
  destruct i as [|p|p]; intro H; [discriminate | | lia].
  rewrite py_str_pos. apply string_of_uint_nonempty, DecimalPos.Unsigned.to_uint_nonnil.
Qed.

(** Reading back a printed number gives the number. *)
Lemma py_int_py_str (i : Z) : 0 <= i -> py_int (py_str i) = Some i.
Proof.
  destruct i as [|p|p]; intro H; [reflexivity | | lia].
  rewrite py_str_pos. unfold py_int. rewrite DecimalString.NilEmpty.usu.
  unfold Z.of_uint. now rewrite DecimalPos.Unsigned.of_to.
Qed.

Lemma decimal_not_space (c : ascii) :
  ((48 <=? nat_of_ascii c) && (nat_of_ascii c <=? 57))%nat = true -> isspace c = false.
Proof.
  unfold isspace. cbv zeta. intro H.
  apply andb_true_iff in H as [H1 H2].
  apply Nat.leb_le in H1. apply Nat.leb_le in H2.
  repeat match goal with
  | |- context [(?a <=? ?b)%nat] => destruct (Nat.leb_spec a b)
  | |- context [(?a =? ?b)%nat] => destruct (Nat.eqb_spec a b)
  end; cbn; try reflexivity; lia.
Qed.

Lemma decimal_is_digit (c : ascii) :
  ((48 <=? nat_of_ascii c) && (nat_of_ascii c <=? 57))%nat = true -> isdigit_char c = true.
Proof. unfold isdigit_char. cbv zeta. now intros ->. Qed.

Lemma decimal_lower_char (c : ascii) :
  ((48 <=? nat_of_ascii c) && (nat_of_ascii c <=? 57))%nat = true -> lower_char c = c.
Proof.
  unfold lower_char. cbv zeta. intro H.
  apply andb_true_iff in H as [H1 H2].
  apply Nat.leb_le in H1. apply Nat.leb_le in H2.
  replace (65 <=? nat_of_ascii c)%nat with false by (symmetry; apply Nat.leb_gt; lia).
  replace (192 <=? nat_of_ascii c)%nat with false by (symmetry; apply Nat.leb_gt; lia).
  reflexivity.
Qed.

(** A numeral is left alone by [strip] and [lower], and is all digits. *)
Lemma decimal_lower (s : string) : decimal s = true -> lower s = s.
Proof.
  induction s as [|c s IH]; cbn; [reflexivity|].
  intro H. apply andb_true_iff in H as [Hc Hs].
  now rewrite decimal_lower_char, IH.
Qed.

Lemma decimal_lstrip (s : string) : decimal s = true -> lstrip s = s.
Proof.
  destruct s as [|c s]; cbn; [reflexivity|].
  intro H. apply andb_true_iff in H as [Hc Hs].
  now rewrite decimal_not_space.
Qed.

Lemma decimal_rstrip (s : string) : decimal s = true -> rstrip s = s.
Proof.
  induction s as [|c s IH]; cbn; [reflexivity|].
  intro H. apply andb_true_iff in H as [Hc Hs].
  rewrite IH by exact Hs. rewrite decimal_not_space by exact Hc.
  now destruct s.
Qed.

Lemma decimal_strip (s : string) : decimal s = true -> strip s = s.
Proof.
  intro H. unfold strip. rewrite decimal_lstrip by exact H. now apply decimal_rstrip.
Qed.

Lemma decimal_all_digits (s : string) : decimal s = true -> all_digits s = true.
Proof.
  induction s as [|c s IH]; cbn; [reflexivity|].
  intro H. apply andb_true_iff in H as [Hc Hs].
  now rewrite decimal_is_digit, IH.
Qed.

Lemma eqb_empty_false (s : string) : s <> EmptyString -> (s == "") = false.
Proof. intro H. now apply String.eqb_neq. Qed.

(** ** [ask] *)

Lemma advanced_trans (s1 s2 : bool) (t1 t2 t3 : Term) :
  advanced s1 t1 t2 -> advanced s2 t2 t3 -> advanced (s1 || s2) t1 t3.
Proof.
  intros (Hc1 & (u1 & Hu1 & Hn1) & (w1 & Hw1)) (Hc2 & (u2 & Hu2 & Hn2) & (w2 & Hw2)).
  split; [congruence|]. split.
  - exists (u1 ++ u2)%list. split; [now rewrite Hu1, Hu2, app_assoc|].
    intros Hs Happ. apply app_eq_nil in Happ as [-> ->].
    apply orb_true_iff in Hs as [Hs|Hs]; [now apply Hn1 | now apply Hn2].
  - exists (w1 ++ w2)%list. now rewrite Hw2, Hw1, app_assoc.
Qed.

Lemma advanced_weaken (t t' : Term) : advanced true t t' -> advanced false t t'.
Proof.
  intros (Hc & (u & Hu & _) & Hw). split; [exact Hc|]. split; [|exact Hw].
  exists u. split; [exact Hu | discriminate].
Qed.

Lemma ask_loop_outcome (n : Z) (az ab : bool) (d : option Z) (c : C.t)
    (lines out : list string) (res : Exn + Z) (t' : Term) :
  ask_loop n az ab d c lines out = (res, t') ->
  colors t' = c /\
  (exists used, lines = (used ++ stdin t')%list /\
                (forall r, res = inr r -> used <> [])) /\
  (exists written, stdout t' = (out ++ written)%list) /\
  match res with
  | inr r => offered n az ab d r
  | inl EOFError => stdin t' = []
  | inl _ => True
  end.
Proof.
  revert out. induction lines as [|line rest IH]; intros out H.
  - cbn in H. injection H as <- <-. cbn. split; [reflexivity|]. split.
    + exists []. split; [reflexivity | discriminate].
    + split; [now eexists | reflexivity].
  - cbn [ask_loop] in H. cbv zeta in H.
    assert (Hnow : forall r, offered n az ab d r ->
              (res, t') = (inr r, mkTerm c rest (out ++ ["> "])%list) ->
              colors t' = c /\
              (exists used, line :: rest = (used ++ stdin t')%list /\
                            (forall r0, res = inr r0 -> used <> [])) /\
              (exists written, stdout t' = (out ++ written)%list) /\
              match res with
              | inr r0 => offered n az ab d r0
              | inl EOFError => stdin t' = []
              | inl _ => True
              end).
    { intros r Hr Heq. injection Heq as -> ->. cbn. split; [reflexivity|]. split.
      - exists [line]. split; [reflexivity | discriminate].
      - split; [now eexists | exact Hr]. }
    assert (Hagain :
      ask_loop n az ab d c rest
        ((out ++ ["> "]) ++
         [printed (C.YELLOW c ++ "Please enter a valid option." ++ C.RESET c)])%list
        = (res, t') ->
      colors t' = c /\
      (exists used, line :: rest = (used ++ stdin t')%list /\
                    (forall r0, res = inr r0 -> used <> [])) /\
      (exists written, stdout t' = (out ++ written)%list) /\
      match res with
      | inr r0 => offered n az ab d r0
      | inl EOFError => stdin t' = []
      | inl _ => True
      end).
    { intro Hrec. apply IH in Hrec as (Hc & (used & Hu & _) & (w & Hw) & Hres).
      split; [exact Hc|]. split.
      - exists (line :: used). split; [cbn; now rewrite <- Hu | discriminate].
      - split; [|exact Hres]. eexists. rewrite Hw, <- !app_assoc. reflexivity. }
    destruct d as [dv|].
    + destruct (lower (strip line) == "") eqn:Eempty.
      * symmetry in H. apply (Hnow dv); [now left | exact H].
      * destruct (ab && (lower (strip line) == "b")) eqn:Eb.
        { apply andb_true_iff in Eb as [-> _]. symmetry in H.
          apply (Hnow (-1)); [right; left; auto | exact H]. }
        destruct (az && (lower (strip line) == "0")) eqn:Ez.
        { apply andb_true_iff in Ez as [-> _]. symmetry in H.
          apply (Hnow 0); [right; right; left; auto | exact H]. }
        destruct (isdigit (lower (strip line))); [|now apply Hagain].
        destruct (py_int (lower (strip line))) as [idx|].
        -- destruct ((1 <=? idx) && (idx <=? n)) eqn:Ein; [|now apply Hagain].
           symmetry in H. apply (Hnow idx); [|exact H].
           right; right; right. apply andb_true_iff in Ein as [H1 H2]. lia.
        -- injection H as <- <-. cbn. split; [reflexivity|]. split.
           ++ exists [line]. split; [reflexivity | discriminate].
           ++ split; [now eexists | exact I].
    + assert (Hsame :
        (if ab && (lower (strip line) == "b")
         then (inr (-1), mkTerm c rest (out ++ ["> "])%list)
         else if az && (lower (strip line) == "0")
              then (inr 0, mkTerm c rest (out ++ ["> "])%list)
              else if isdigit (lower (strip line))
                   then match py_int (lower (strip line)) with
                        | Some idx =>
                            if (1 <=? idx) && (idx <=? n)
                            then (inr idx, mkTerm c rest (out ++ ["> "])%list)
                            else ask_loop n az ab None c rest
                                   ((out ++ ["> "]) ++
                                    [printed (C.YELLOW c ++ "Please enter a valid option."
                                              ++ C.RESET c)])%list
                        | None => (inl ValueError, mkTerm c rest (out ++ ["> "])%list)
                        end
                   else ask_loop n az ab None c rest
                          ((out ++ ["> "]) ++
                           [printed (C.YELLOW c ++ "Please enter a valid option."
                                     ++ C.RESET c)])%list) = (res, t'))
        by (destruct (lower (strip line) == ""); exact H).
      clear H. rename Hsame into H.
      destruct (ab && (lower (strip line) == "b")) eqn:Eb.
      { apply andb_true_iff in Eb as [-> _]. symmetry in H.
        apply (Hnow (-1)); [right; left; auto | exact H]. }
      destruct (az && (lower (strip line) == "0")) eqn:Ez.
      { apply andb_true_iff in Ez as [-> _]. symmetry in H.
        apply (Hnow 0); [right; right; left; auto | exact H]. }
      destruct (isdigit (lower (strip line))); [|now apply Hagain].
      destruct (py_int (lower (strip line))) as [idx|].
      * destruct ((1 <=? idx) && (idx <=? n)) eqn:Ein; [|now apply Hagain].
        symmetry in H. apply (Hnow idx); [|exact H].
        right; right; right. apply andb_true_iff in Ein as [H1 H2]. lia.
      * injection H as <- <-. cbn. split; [reflexivity|]. split.
        -- exists [line]. split; [reflexivity | discriminate].
        -- split; [now eexists | exact I].
Qed.

Lemma decimal_parses (s : string) :
  decimal s = true -> exists d, DecimalString.NilEmpty.uint_of_string s = Some d.
Proof.
  induction s as [|c s IH]; cbn; [now eexists|].
  intro H. apply andb_true_iff in H as [Hc Hs].
  destruct (IH Hs) as [d ->].
  destruct c as [[] [] [] [] [] [] [] []]; cbn in Hc; try discriminate Hc;
    cbn; now eexists.
Qed.

Lemma ascii_digits_decimal (s : string) :
  ascii_only s = true -> all_digits s = true -> decimal s = true.
Proof.
  induction s as [|c s IH]; cbn [ascii_only all_digits decimal]; [reflexivity|].
  intros Ha Hd. apply andb_true_iff in Ha as [Hc Ha]. apply andb_true_iff in Hd as [Hdc Hd].
  rewrite IH by assumption. rewrite andb_true_r.
  unfold isdigit_char in Hdc. cbv zeta in Hdc. apply Nat.ltb_lt in Hc.
  repeat match type of Hdc with
  | context [(?a =? ?b)%nat] =>
      replace (a =? b)%nat with false in Hdc by (symmetry; apply Nat.eqb_neq; lia)
  end.
  now rewrite !orb_false_r in Hdc.
Qed.

Lemma lower_char_ascii (c : ascii) :
  (nat_of_ascii c <? 128)%nat = true -> (nat_of_ascii (lower_char c) <? 128)%nat = true.
Proof.
  intro H. unfold lower_char. cbv zeta. apply Nat.ltb_lt in H.
  replace (192 <=? nat_of_ascii c)%nat with false by (symmetry; apply Nat.leb_gt; lia).
  cbn [andb]. rewrite orb_false_r.
  destruct ((65 <=? nat_of_ascii c)%nat && (nat_of_ascii c <=? 90)%nat) eqn:E;
    [|now apply Nat.ltb_lt].
  apply andb_true_iff in E as [E1 E2]. apply Nat.leb_le in E1. apply Nat.leb_le in E2.
  rewrite nat_ascii_embedding by lia. apply Nat.ltb_lt. lia.
Qed.

Lemma lower_ascii (s : string) : ascii_only s = true -> ascii_only (lower s) = true.
Proof.
  induction s as [|c s IH]; cbn [lower ascii_only]; [reflexivity|].
  intro H. apply andb_true_iff in H as [Hc Hs]. now rewrite lower_char_ascii, IH.
Qed.

Lemma lstrip_ascii (s : string) : ascii_only s = true -> ascii_only (lstrip s) = true.
Proof.
  induction s as [|c s IH]; cbn [lstrip ascii_only]; [reflexivity|].
  intro H. destruct (isspace c); [|exact H].
  apply andb_true_iff in H as [_ Hs]. now apply IH.
Qed.

Lemma rstrip_ascii (s : string) : ascii_only s = true -> ascii_only (rstrip s) = true.
Proof.
  induction s as [|c s IH]; cbn [rstrip ascii_only]; [reflexivity|].
  intro H. apply andb_true_iff in H as [Hc Hs]. specialize (IH Hs).
  destruct (rstrip s) as [|c' s'].
  - destruct (isspace c); cbn [ascii_only]; [reflexivity | now rewrite Hc].
  - cbn [ascii_only] in IH |- *. now rewrite Hc, IH.
Qed.

Lemma ascii_selection_parses (line : string) :
  ascii_only line = true -> isdigit (lower (strip line)) = true ->
  py_int (lower (strip line)) <> None.
Proof.
  intros Ha Hd. unfold isdigit in Hd. apply andb_true_iff in Hd as [_ Hd].
  assert (Hdec : decimal (lower (strip line)) = true).
  { apply ascii_digits_decimal; [|exact Hd].
    apply lower_ascii. unfold strip. now apply rstrip_ascii, lstrip_ascii. }
  destruct (decimal_parses _ Hdec) as [d Hp]. unfold py_int. now rewrite Hp.
Qed.

Lemma ask_loop_ascii (n : Z) (az ab : bool) (d : option Z) (c : C.t)
    (lines out : list string) (e : Exn) (t' : Term) :
  Forall (fun l => ascii_only l = true) lines ->
  ask_loop n az ab d c lines out = (inl e, t') -> e = EOFError.
Proof.
  revert out. induction lines as [|line rest IH]; intros out Hall H.
  - cbn in H. congruence.
  - inversion Hall as [|? ? Hline Hrest]; subst.
    cbn [ask_loop] in H. cbv zeta in H.
    pose proof (ascii_selection_parses line Hline) as Hparse.
    destruct d as [dv|];
      destruct (lower (strip line) == ""); try discriminate H;
      destruct (ab && (lower (strip line) == "b")); try discriminate H;
      destruct (az && (lower (strip line) == "0")); try discriminate H;
      (destruct (isdigit (lower (strip line))); [|now apply (IH _ Hrest H)]);
      (destruct (py_int (lower (strip line))) as [idx|]; [|now contradiction Hparse]);
      (destruct ((1 <=? idx) && (idx <=? n)); [discriminate H | now apply (IH _ Hrest H)]).
Qed.

Lemma ask_start_extends prompt choices az ab t :
  exists written, ask_start prompt choices az ab t = (stdout t ++ written)%list.
Proof.
  unfold ask_start. cbv zeta. destruct az, ab; rewrite <- ?app_assoc; now eexists.
Qed.

(** [ask] returns only what it offers: the default, -1 when going back is
    allowed, 0 when zero is allowed, or the number of one of the choices.
    When it returns, it has read at least one line, and it has changed
    neither the colours nor what was written before. *)
Theorem ask_returns_an_offered_choice
    (prompt : string) (choices : list string) (allow_zero allow_back : bool)
    (default_index : option Z) (t t' : Term) (r : Z) :
  ask prompt choices allow_zero allow_back default_index t = (inr r, t') ->
  (default_index = Some r \/ (allow_back = true /\ r = -1) \/
   (allow_zero = true /\ r = 0) \/ 1 <= r <= Z.of_nat (List.length choices)) /\
  colors t' = colors t /\
  (exists used, used <> [] /\ stdin t = (used ++ stdin t')%list) /\
  (exists written, stdout t' = (stdout t ++ written)%list).
Proof.
  unfold ask. cbv zeta. fold (ask_start prompt choices allow_zero allow_back t).
  intro H. apply ask_loop_outcome in H as (Hc & (used & Hu & Hne) & (w & Hw) & Hr).
  split; [exact Hr|]. split; [exact Hc|]. split.
  - exists used. split; [now apply (Hne r) | exact Hu].
  - destruct (ask_start_extends prompt choices allow_zero allow_back t) as [w0 Hw0].
    exists (w0 ++ w)%list. now rewrite Hw, Hw0, app_assoc.
Qed.

Lemma ask_returns_an_offered_choice_witness :
  ask "When is this meal?" ["Pre"; "Post"; "Anytime"] false true (Some 3)
    (mkTerm C_initial ["7"; " B "; "1"] []) =
    (inr (-1), mkTerm C_initial ["1"]
       (stdout (snd (ask "When is this meal?" ["Pre"; "Post"; "Anytime"] false true (Some 3)
                       (mkTerm C_initial ["7"; " B "; "1"] []))))) /\
  (Some 3 = Some (-1) \/ (true = true /\ -1 = -1) \/ (false = true /\ -1 = 0) \/
   1 <= -1 <= Z.of_nat (List.length ["Pre"; "Post"; "Anytime"])).
Proof.
  assert (H : ask "When is this meal?" ["Pre"; "Post"; "Anytime"] false true (Some 3)
                (mkTerm C_initial ["7"; " B "; "1"] []) =
              (inr (-1), mkTerm C_initial ["1"]
                 (stdout (snd (ask "When is this meal?" ["Pre"; "Post"; "Anytime"] false true
                                 (Some 3) (mkTerm C_initial ["7"; " B "; "1"] []))))))
    by reflexivity.
  split; [exact H|].
  exact (proj1 (ask_returns_an_offered_choice _ _ _ _ _ _ _ _ H)).
Defined.



Lemma isdigit_nonempty (s : string) : isdigit s = true -> (s == "") = false.
Proof. unfold isdigit. intro H. apply andb_true_iff in H as [H _]. now destruct (s == ""). Qed.

Lemma isdigit_not_b (s : string) : isdigit s = true -> (s == "b") = false.
Proof.
  intro H. destruct (s == "b") eqn:E; [|reflexivity].
  apply String.eqb_eq in E. subst. discriminate H.
Qed.

(** A line of digit characters that [int] rejects is not answered with the
    warning: [ask] raises [ValueError].  The superscript digits are such
    characters. *)
Theorem ask_raises_on_digits_int_rejects
    (prompt : string) (choices : list string) (allow_zero allow_back : bool)
    (default_index : option Z) (t : Term) (line : string) (rest : list string) :
  stdin t = line :: rest ->
  isdigit (lower (strip line)) = true ->
  py_int (lower (strip line)) = None ->
  fst (ask prompt choices allow_zero allow_back default_index t) = inl ValueError /\
  stdin (snd (ask prompt choices allow_zero allow_back default_index t)) = rest.
Proof.
  intros Hin Hd Hp. unfold ask. cbv zeta. rewrite Hin. cbn [ask_loop]. cbv zeta.
  rewrite (isdigit_nonempty _ Hd), (isdigit_not_b _ Hd), Hd, Hp.
  assert (Hz : (lower (strip line) == "0") = false).
  { destruct (lower (strip line) == "0") eqn:E; [|reflexivity].
    apply String.eqb_eq in E. rewrite E in Hp. discriminate Hp. }
  rewrite Hz, !andb_false_r.
  now destruct default_index.
Qed.

Lemma ask_raises_on_digits_int_rejects_witness :
  isdigit (lower (strip (String (ascii_of_nat 178) ""))) = true /\
  py_int (lower (strip (String (ascii_of_nat 178) ""))) = None /\
  fst (ask "Spice preference?" ["Mild"; "Medium"; "Spicy"; "No preference"] false true None
         (mkTerm C_initial [String (ascii_of_nat 178) ""; "1"] [])) = inl ValueError.
Proof.
  split; [reflexivity|]. split; [reflexivity|].
  refine (proj1 (ask_raises_on_digits_int_rejects _ _ _ _ _
                   (mkTerm C_initial [String (ascii_of_nat 178) ""; "1"] [])
                   (String (ascii_of_nat 178) "") ["1"] _ _ _)); reflexivity.
Defined.

Lemma ask_on_number
    (prompt : string) (choices : list string) (allow_zero allow_back : bool)
    (default_index : option Z) (t : Term) (i : Z) (rest : list string) :
  1 <= i <= Z.of_nat (List.length choices) ->
  stdin t = py_str i :: rest ->
  exists out,
    ask prompt choices allow_zero allow_back default_index t =
    (inr i, mkTerm (colors t) rest out).
Proof.
  intros Hi Hin. unfold ask. cbv zeta. rewrite Hin. cbn [ask_loop]. cbv zeta.
  pose proof (py_str_decimal i ltac:(lia)) as Hdec.
  rewrite (decimal_strip _ Hdec), (decimal_lower _ Hdec).
  assert (Hd : isdigit (py_str i) = true).
  { unfold isdigit. rewrite (eqb_empty_false _ (py_str_nonempty i ltac:(lia))).
    now apply decimal_all_digits. }
  rewrite (isdigit_nonempty _ Hd), (isdigit_not_b _ Hd), Hd.
  rewrite (py_int_py_str i) by lia.
  assert (Hz : (py_str i == "0") = false).
  { destruct (py_str i == "0") eqn:E; [|reflexivity].
    apply String.eqb_eq in E. pose proof (py_int_py_str i ltac:(lia)) as Hp.
    rewrite E in Hp. cbv in Hp. injection Hp as Hp. lia. }
  rewrite Hz, !andb_false_r.
  replace ((1 <=? i) && (i <=? Z.of_nat (List.length choices))) with true
    by (symmetry; apply andb_true_iff; split; apply Z.leb_le; lia).
  destruct default_index; eexists; reflexivity.
Qed.

(** Typing the number printed in front of a choice selects that choice,
    whatever else is allowed, and takes one line. *)
Theorem ask_accepts_the_number_shown
    (prompt : string) (choices : list string) (allow_zero allow_back : bool)
    (default_index : option Z) (t : Term) (i : Z) (rest : list string) :
  1 <= i <= Z.of_nat (List.length choices) ->
  stdin t = py_str i :: rest ->
  fst (ask prompt choices allow_zero allow_back default_index t) = inr i /\
  stdin (snd (ask prompt choices allow_zero allow_back default_index t)) = rest.
Proof.
  intros Hi Hin.
  destruct (ask_on_number prompt choices allow_zero allow_back default_index t i rest Hi Hin)
    as [out ->].
  split; reflexivity.
Qed.

Lemma ask_accepts_the_number_shown_witness :
  1 <= 4 <= Z.of_nat (List.length ["Low"; "Medium"; "High"; "Restaurant"]) /\
  fst (ask "How much cooking effort?" ["Low"; "Medium"; "High"; "Restaurant"] false true
         (Some 1) (mkTerm C_initial [py_str 4; "x"] [])) = inr 4.
Proof.
  assert (H : 1 <= 4 <= Z.of_nat (List.length ["Low"; "Medium"; "High"; "Restaurant"]))
    by (simpl; lia).
  split; [exact H|].
  exact (proj1 (ask_accepts_the_number_shown _ ["Low"; "Medium"; "High"; "Restaurant"] _ _ _
                  (mkTerm C_initial [py_str 4; "x"] []) 4 ["x"] H eq_refl)).
Defined.

(** ** [ask_multi] *)

Lemma insert_once_in (x y : Z) (l : list Z) :
  In y (insert_once x l) <-> y = x \/ In y l.
Proof.
  induction l as [|a l IH]; cbn; [intuition|].
  destruct (x <? a) eqn:Hlt; [cbn; intuition|].
  destruct (x =? a) eqn:Heq.
  - apply Z.eqb_eq in Heq. subst. cbn. intuition.
  - cbn. rewrite IH. intuition.
Qed.

Lemma insert_once_sorted (x : Z) (l : list Z) :
  StronglySorted Z.lt l -> StronglySorted Z.lt (insert_once x l).
Proof.
  induction l as [|a l IH]; cbn; intro Hs; [repeat constructor|].
  inversion Hs as [|? ? Hs' Hall]; subst.
  destruct (x <? a) eqn:Hlt.
  - apply Z.ltb_lt in Hlt. constructor; [exact Hs|].
    constructor; [exact Hlt|]. rewrite Forall_forall in Hall |- *.
    intros y Hy. specialize (Hall y Hy). lia.
  - destruct (x =? a) eqn:Heq; [exact Hs|].
    apply Z.ltb_ge in Hlt. apply Z.eqb_neq in Heq.
    constructor; [now apply IH|].
    rewrite Forall_forall in Hall |- *. intros y Hy.
    apply insert_once_in in Hy as [->|Hy]; [lia | now apply Hall].
Qed.

(** [sorted(set(xs))] is strictly increasing and holds what [xs] holds. *)
Lemma sorted_set_sorted (xs : list Z) : StronglySorted Z.lt (sorted_set xs).
Proof.
  induction xs as [|x xs IH]; cbn; [constructor | now apply insert_once_sorted].
Qed.

Lemma sorted_set_in (xs : list Z) (y : Z) : In y (sorted_set xs) <-> In y xs.
Proof.
  induction xs as [|x xs IH]; cbn; [tauto|].
  rewrite insert_once_in, IH. intuition.
Qed.

Lemma ask_multi_loop_outcome (n : Z) (ab : bool) (c : C.t)
    (lines out : list string) (res : Exn + list Z) (t' : Term) :
  ask_multi_loop n ab c lines out = (res, t') ->
  colors t' = c /\
  (exists used, lines = (used ++ stdin t')%list /\
                (forall r, res = inr r -> used <> [])) /\
  (exists written, stdout t' = (out ++ written)%list) /\
  match res with
  | inr l => selection n ab l
  | inl EOFError => stdin t' = []
  | inl _ => True
  end.
Proof.
  revert out. induction lines as [|line rest IH]; intros out H.
  - cbn in H. injection H as <- <-. cbn. split; [reflexivity|]. split.
    + exists []. split; [reflexivity | discriminate].
    + split; [now eexists | reflexivity].
  - cbn [ask_multi_loop] in H. cbv zeta in H.
    assert (Hnow : forall l, selection n ab l ->
              (res, t') = (inr l, mkTerm c rest (out ++ ["> "])%list) ->
              colors t' = c /\
              (exists used, line :: rest = (used ++ stdin t')%list /\
                            (forall r0, res = inr r0 -> used <> [])) /\
              (exists written, stdout t' = (out ++ written)%list) /\
              match res with
              | inr l0 => selection n ab l0
              | inl EOFError => stdin t' = []
              | inl _ => True
              end).
    { intros l Hl Heq. injection Heq as -> ->. cbn. split; [reflexivity|]. split.
      - exists [line]. split; [reflexivity | discriminate].
      - split; [now eexists | exact Hl]. }
    assert (Hagain : forall o,
      ask_multi_loop n ab c rest ((out ++ ["> "]) ++ [o])%list = (res, t') ->
      colors t' = c /\
      (exists used, line :: rest = (used ++ stdin t')%list /\
                    (forall r0, res = inr r0 -> used <> [])) /\
      (exists written, stdout t' = (out ++ written)%list) /\
      match res with
      | inr l0 => selection n ab l0
      | inl EOFError => stdin t' = []
      | inl _ => True
      end).
    { intros o Hrec. apply IH in Hrec as (Hc & (used & Hu & _) & (w & Hw) & Hres).
      split; [exact Hc|]. split.
      - exists (line :: used). split; [cbn; now rewrite <- Hu | discriminate].
      - split; [|exact Hres]. eexists. rewrite Hw, <- !app_assoc. reflexivity. }
    destruct (ab && (lower (strip line) == "b")) eqn:Eb.
    { apply andb_true_iff in Eb as [-> _]. symmetry in H.
      apply (Hnow [-1]); [left; auto | exact H]. }
    destruct (lower (strip line) == "0").
    { symmetry in H. apply (Hnow []); [|exact H].
      right. split; [constructor | contradiction]. }
    destruct (forallb isdigit (parts_of (lower (strip line)))); [|now apply (Hagain _ H)].
    destruct (ints_of (parts_of (lower (strip line)))) as [idxs|].
    + destruct (forallb (fun i => (1 <=? i) && (i <=? n)) idxs) eqn:Ein;
        [|now apply (Hagain _ H)].
      symmetry in H. apply (Hnow (sorted_set idxs)); [|exact H].
      right. split; [apply sorted_set_sorted|].
      intros i Hi. apply (proj1 (sorted_set_in _ _)) in Hi.
      rewrite forallb_forall in Ein. specialize (Ein i Hi).
      apply andb_true_iff in Ein as [H1 H2]. lia.
    + injection H as <- <-. cbn. split; [reflexivity|]. split.
      * exists [line]. split; [reflexivity | discriminate].
      * split; [now eexists | exact I].
Qed.

Lemma ask_multi_start_extends prompt choices ab pre t :
  exists written, ask_multi_start prompt choices ab pre t = (stdout t ++ written)%list.
Proof.
  unfold ask_multi_start. cbv zeta.
  destruct ab, pre as [[|? ?]|]; rewrite <- ?app_assoc; now eexists.
Qed.

(** [ask_multi] returns either the back marker [[-1]], and only when going
    back is allowed, or a strictly increasing list of numbers of choices:
    no duplicates, nothing out of range.  When it returns it has read at
    least one line, and changed neither the colours nor what was written
    before. *)
Theorem ask_multi_returns_a_selection
    (prompt : string) (choices : list string) (allow_back : bool)
    (preselected : option (list Z)) (t t' : Term) (l : list Z) :
  ask_multi prompt choices allow_back preselected t = (inr l, t') ->
  ((allow_back = true /\ l = [-1]) \/
   (StronglySorted Z.lt l /\
    forall i, In i l -> 1 <= i <= Z.of_nat (List.length choices))) /\
  colors t' = colors t /\
  (exists used, used <> [] /\ stdin t = (used ++ stdin t')%list) /\
  (exists written, stdout t' = (stdout t ++ written)%list).
Proof.
  unfold ask_multi. cbv zeta.
  fold (ask_multi_start prompt choices allow_back preselected t).
  intro H. apply ask_multi_loop_outcome in H as (Hc & (used & Hu & Hne) & (w & Hw) & Hr).
  split; [exact Hr|]. split; [exact Hc|]. split.
  - exists used. split; [now apply (Hne l) | exact Hu].
  - destruct (ask_multi_start_extends prompt choices allow_back preselected t) as [w0 Hw0].
    exists (w0 ++ w)%list. now rewrite Hw, Hw0, app_assoc.
Qed.

Lemma ask_multi_returns_a_selection_witness :
  ask_multi "Avoid?" ["Dairy"; "Gluten"; "Nuts"; "Eggs"] true (Some [2])
    (mkTerm C_initial ["9"; "4, 1,,4 "; "x"] []) =
    (inr [1; 4], mkTerm C_initial ["x"]
       (stdout (snd (ask_multi "Avoid?" ["Dairy"; "Gluten"; "Nuts"; "Eggs"] true (Some [2])
                       (mkTerm C_initial ["9"; "4, 1,,4 "; "x"] []))))) /\
  ((true = true /\ [1; 4] = [-1]) \/
   (StronglySorted Z.lt [1; 4] /\
    forall i, In i [1; 4] ->
      1 <= i <= Z.of_nat (List.length ["Dairy"; "Gluten"; "Nuts"; "Eggs"]))).
Proof.
  assert (H : ask_multi "Avoid?" ["Dairy"; "Gluten"; "Nuts"; "Eggs"] true (Some [2])
                (mkTerm C_initial ["9"; "4, 1,,4 "; "x"] []) =
              (inr [1; 4], mkTerm C_initial ["x"]
                 (stdout (snd (ask_multi "Avoid?" ["Dairy"; "Gluten"; "Nuts"; "Eggs"] true
                                 (Some [2]) (mkTerm C_initial ["9"; "4, 1,,4 "; "x"] []))))))
    by reflexivity.
  split; [exact H|].
  exact (proj1 (ask_multi_returns_a_selection _ _ _ _ _ _ _ H)).
Defined.

Lemma blank_char_lower (c : ascii) :
  isspace c || Ascii.eqb c "," = true -> lower_char c = c.
Proof.
  intro H. apply orb_true_iff in H as [H|H].
  - unfold isspace in H. unfold lower_char. cbv zeta in *.
    destruct ((65 <=? nat_of_ascii c)%nat && (nat_of_ascii c <=? 90)%nat
              || (192 <=? nat_of_ascii c)%nat && (nat_of_ascii c <=? 222)%nat
                 && negb (nat_of_ascii c =? 215)%nat) eqn:E; [|reflexivity].
    exfalso.
    repeat match type of H with
    | context [(?a <=? ?b)%nat] => destruct (Nat.leb_spec a b)
    | context [(?a =? ?b)%nat] => destruct (Nat.eqb_spec a b)
    end; cbn in H; try discriminate H;
    repeat match type of E with
    | context [(?a <=? ?b)%nat] => destruct (Nat.leb_spec a b)
    | context [(?a =? ?b)%nat] => destruct (Nat.eqb_spec a b)
    end; cbn in E; try discriminate E; lia.
  - apply Ascii.eqb_eq in H. now subst.
Qed.

Lemma blank_lower (s : string) : blank s = true -> lower s = s.
Proof.
  induction s as [|c s IH]; cbn [blank lower]; [reflexivity|].
  intro H. apply andb_true_iff in H as [Hc Hs]. now rewrite blank_char_lower, IH.
Qed.

Lemma blank_lstrip (s : string) : blank s = true -> blank (lstrip s) = true.
Proof.
  induction s as [|c s IH]; cbn [lstrip blank]; [reflexivity|].
  intro H. destruct (isspace c) eqn:E; [|cbn [blank]; now rewrite E].
  apply andb_true_iff in H as [_ Hs]. now apply IH.
Qed.

Lemma blank_rstrip (s : string) : blank s = true -> blank (rstrip s) = true.
Proof.
  induction s as [|c s IH]; cbn [rstrip blank]; [reflexivity|].
  intro H. apply andb_true_iff in H as [Hc Hs]. specialize (IH Hs).
  destruct (rstrip s) as [|c' s'].
  - destruct (isspace c) eqn:E; cbn [blank]; [reflexivity|].
    now rewrite E, Hc.
  - cbn [blank] in IH |- *. now rewrite Hc, IH.
Qed.

Lemma blank_selection (line : string) :
  blank line = true -> blank (lower (strip line)) = true.
Proof.
  intro H. assert (Hs : blank (strip line) = true)
    by (unfold strip; now apply blank_rstrip, blank_lstrip).
  now rewrite blank_lower.
Qed.

Lemma spaces_strip (s : string) : spaces s = true -> strip s = EmptyString.
Proof.
  intro H. unfold strip.
  assert (lstrip s = EmptyString) as ->; [|reflexivity].
  induction s as [|c s IH]; cbn [lstrip spaces] in *; [reflexivity|].
  apply andb_true_iff in H as [-> Hs]. now apply IH.
Qed.

Lemma blank_pieces (s : string) :
  blank s = true -> Forall (fun p => spaces p = true) (split_on "," s).
Proof.
  induction s as [|c s IH]; cbn [blank split_on]; [repeat constructor|].
  intro H. apply andb_true_iff in H as [Hc Hs]. specialize (IH Hs).
  destruct (Ascii.eqb c ",") eqn:E; [constructor; [reflexivity | exact IH]|].
  rewrite orb_false_r in Hc.
  destruct (split_on "," s) as [|piece pieces].
  - repeat constructor. cbn. now rewrite Hc.
  - inversion IH; subst. constructor; [cbn; now rewrite Hc | assumption].
Qed.

Lemma blank_parts (raw : string) : blank raw = true -> parts_of raw = [].
Proof.
  intro H. unfold parts_of. pose proof (blank_pieces raw H) as Hp.
  induction Hp as [|p l Hsp _ IH]; cbn; [reflexivity|].
  now rewrite (spaces_strip p Hsp).
Qed.

Lemma ask_multi_on_blank_line
    (prompt : string) (choices : list string) (allow_back : bool)
    (preselected : option (list Z)) (t : Term) (line : string) (rest : list string) :
  stdin t = line :: rest ->
  blank line = true ->
  fst (ask_multi prompt choices allow_back preselected t) = inr [] /\
  stdin (snd (ask_multi prompt choices allow_back preselected t)) = rest.
Proof.
  intros Hin Hb. unfold ask_multi. cbv zeta. rewrite Hin.
  cbn [ask_multi_loop]. cbv zeta.
  pose proof (blank_selection line Hb) as Hraw.
  assert (Hnb : (lower (strip line) == "b") = false).
  { destruct (lower (strip line) == "b") eqn:E; [|reflexivity].
    apply String.eqb_eq in E. rewrite E in Hraw. discriminate Hraw. }
  assert (Hnz : (lower (strip line) == "0") = false).
  { destruct (lower (strip line) == "0") eqn:E; [|reflexivity].
    apply String.eqb_eq in E. rewrite E in Hraw. discriminate Hraw. }
  rewrite Hnb, Hnz, andb_false_r, (blank_parts _ Hraw). split; reflexivity.
Qed.

(** A line that holds nothing but blanks and commas, the empty line first
    of all, selects nothing: [ask_multi] returns the empty list, whatever
    was preselected. *)
Theorem ask_multi_blank_line_selects_nothing
    (prompt : string) (choices : list string) (allow_back : bool)
    (preselected : option (list Z)) (t : Term) (line : string) (rest : list string) :
  stdin t = line :: rest ->
  blank line = true ->
  fst (ask_multi prompt choices allow_back preselected t) = inr [] /\
  stdin (snd (ask_multi prompt choices allow_back preselected t)) = rest.
Proof. apply ask_multi_on_blank_line. Qed.

Lemma ask_multi_blank_line_selects_nothing_witness :
  blank " , ," = true /\
  fst (ask_multi "Avoid?" ["Dairy"; "Gluten"] true (Some [1; 2])
         (mkTerm C_initial [" , ,"; "1"] [])) = inr [].
Proof.
  split; [reflexivity|].
  exact (proj1 (ask_multi_blank_line_selects_nothing _ _ _ _
                  (mkTerm C_initial [" , ,"; "1"] []) " , ," ["1"] eq_refl eq_refl)).
Defined.

(** Strings that [strip] and [lower] leave alone and that hold no comma. *)
Lemma decimal_no_comma (p : string) (s : string) :
  decimal p = true ->
  split_on "," (p ++ String "," s) = p :: split_on "," s.
Proof.
  induction p as [|c p IH]; cbn [decimal append split_on]; intro H.
  - reflexivity.
  - apply andb_true_iff in H as [Hc Hp].
    assert (Ascii.eqb c "," = false) as ->.
    { destruct (Ascii.eqb c ",") eqn:E; [|reflexivity].
      apply Ascii.eqb_eq in E. subst. discriminate Hc. }
    now rewrite (IH Hp).
Qed.

Lemma decimal_one_piece (p : string) : decimal p = true -> split_on "," p = [p].
Proof.
  induction p as [|c p IH]; cbn [decimal split_on]; intro H; [reflexivity|].
  apply andb_true_iff in H as [Hc Hp].
  assert (Ascii.eqb c "," = false) as ->.
  { destruct (Ascii.eqb c ",") eqn:E; [|reflexivity].
    apply Ascii.eqb_eq in E. subst. discriminate Hc. }
  now rewrite (IH Hp).
Qed.

Lemma digits_and_commas_app (a b : string) :
  digits_and_commas (a ++ b) = digits_and_commas a && digits_and_commas b.
Proof.
  induction a as [|c a IH]; cbn [append digits_and_commas]; [reflexivity|].
  now rewrite IH, andb_assoc.
Qed.

Lemma decimal_digits_and_commas (s : string) :
  decimal s = true -> digits_and_commas s = true.
Proof.
  induction s as [|c s IH]; cbn [decimal digits_and_commas]; [reflexivity|].
  intro H. apply andb_true_iff in H as [-> Hs]. now rewrite IH.
Qed.

Lemma digit_or_comma_plain (c : ascii) :
  ((48 <=? nat_of_ascii c) && (nat_of_ascii c <=? 57))%nat || Ascii.eqb c "," = true ->
  isspace c = false /\ lower_char c = c.
Proof.
  intro H. apply orb_true_iff in H as [H|H].
  - split; [now apply decimal_not_space | now apply decimal_lower_char].
  - apply Ascii.eqb_eq in H. now subst.
Qed.

Lemma digits_and_commas_selection (s : string) :
  digits_and_commas s = true -> lower (strip s) = s.
Proof.
  intro H.
  assert (Hl : lstrip s = s).
  { destruct s as [|c s]; [reflexivity|]. cbn [digits_and_commas lstrip] in *.
    apply andb_true_iff in H as [Hc _].
    now rewrite (proj1 (digit_or_comma_plain c Hc)). }
  assert (Hr : rstrip s = s).
  { clear Hl. induction s as [|c s IH]; [reflexivity|].
    cbn [digits_and_commas rstrip] in *. apply andb_true_iff in H as [Hc Hs].
    rewrite (IH Hs), (proj1 (digit_or_comma_plain c Hc)). now destruct s. }
  assert (Hw : lower s = s).
  { clear Hl Hr. induction s as [|c s IH]; [reflexivity|].
    cbn [digits_and_commas lower] in *. apply andb_true_iff in H as [Hc Hs].
    now rewrite (IH Hs), (proj2 (digit_or_comma_plain c Hc)). }
  unfold strip. now rewrite Hl, Hr, Hw.
Qed.

Lemma numerals_split (l : list Z) :
  l <> [] -> (forall i, In i l -> 0 <= i) ->
  split_on "," (join "," (map py_str l)) = map py_str l.
Proof.
  induction l as [|i l IH]; [congruence|]. intros _ Hpos.
  destruct l as [|j l].
  - cbn [map join]. apply decimal_one_piece, py_str_decimal, Hpos. now left.
  - change (join "," (map py_str (i :: j :: l)))
      with (py_str i ++ String "," (join "," (map py_str (j :: l)))).
    rewrite decimal_no_comma by (apply py_str_decimal, Hpos; now left).
    rewrite IH; [reflexivity | discriminate | intros k Hk; apply Hpos; now right].
Qed.

Lemma numerals_digits_and_commas (l : list Z) :
  (forall i, In i l -> 0 <= i) -> digits_and_commas (join "," (map py_str l)) = true.
Proof.
  induction l as [|i l IH]; intro Hpos; [reflexivity|].
  destruct l as [|j l].
  - cbn [map join]. apply decimal_digits_and_commas, py_str_decimal, Hpos. now left.
  - change (join "," (map py_str (i :: j :: l)))
      with (py_str i ++ String "," (join "," (map py_str (j :: l)))).
    rewrite digits_and_commas_app. cbn [digits_and_commas].
    rewrite IH by (intros k Hk; apply Hpos; now right).
    rewrite decimal_digits_and_commas by (apply py_str_decimal, Hpos; now left).
    reflexivity.
Qed.

Lemma numerals_parts (l : list Z) :
  l <> [] -> (forall i, In i l -> 0 <= i) ->
  parts_of (join "," (map py_str l)) = map py_str l.
Proof.
  intros Hne Hpos. unfold parts_of. rewrite numerals_split by assumption.
  clear Hne. induction l as [|i l IH]; [reflexivity|].
  cbn [map filter].
  rewrite decimal_strip by (apply py_str_decimal, Hpos; now left).
  rewrite (eqb_empty_false _ (py_str_nonempty i ltac:(apply Hpos; now left))).
  cbn [negb]. f_equal. apply IH. intros k Hk. apply Hpos. now right.
Qed.

Lemma numerals_are_digits (l : list Z) :
  (forall i, In i l -> 0 <= i) -> forallb isdigit (map py_str l) = true.
Proof.
  induction l as [|i l IH]; intro Hpos; [reflexivity|].
  cbn [map forallb]. rewrite IH by (intros k Hk; apply Hpos; now right).
  unfold isdigit.
  rewrite (eqb_empty_false _ (py_str_nonempty i ltac:(apply Hpos; now left))).
  rewrite decimal_all_digits by (apply py_str_decimal, Hpos; now left).
  reflexivity.
Qed.

Lemma numerals_read_back (l : list Z) :
  (forall i, In i l -> 0 <= i) -> ints_of (map py_str l) = Some l.
Proof.
  induction l as [|i l IH]; intro Hpos; [reflexivity|].
  cbn [map ints_of]. rewrite py_int_py_str by (apply Hpos; now left).
  now rewrite IH by (intros k Hk; apply Hpos; now right).
Qed.

Lemma ask_multi_on_numbers
    (prompt : string) (choices : list string) (allow_back : bool)
    (preselected : option (list Z)) (t : Term) (l : list Z) (rest : list string) :
  (forall i, In i l -> 1 <= i <= Z.of_nat (List.length choices)) ->
  stdin t = join "," (map py_str l) :: rest ->
  exists out,
    ask_multi prompt choices allow_back preselected t =
    (inr (sorted_set l), mkTerm (colors t) rest out).
Proof.
  intros Hrange Hin.
  destruct l as [|i0 l0] eqn:El.
  { unfold ask_multi. cbv zeta. rewrite Hin. cbn [ask_multi_loop]. cbv zeta.
    cbn [map join]. change (lower (strip "")) with "". cbn [String.eqb andb].
    rewrite andb_false_r. eexists. reflexivity. }
  rewrite <- El in *.
  assert (Hne : l <> []) by (rewrite El; discriminate).
  assert (Hpos : forall i, In i l -> 0 <= i) by (intros i Hi; specialize (Hrange i Hi); lia).
  clear El i0 l0.
  unfold ask_multi. cbv zeta. rewrite Hin. cbn [ask_multi_loop]. cbv zeta.
  rewrite (digits_and_commas_selection _ (numerals_digits_and_commas l Hpos)).
  assert (Hnb : (join "," (map py_str l) == "b") = false).
  { destruct (join "," (map py_str l) == "b") eqn:E; [|reflexivity].
    apply String.eqb_eq in E. pose proof (numerals_digits_and_commas l Hpos) as Hd.
    rewrite E in Hd. discriminate Hd. }
  assert (Hnz : (join "," (map py_str l) == "0") = false).
  { destruct (join "," (map py_str l) == "0") eqn:E; [|reflexivity].
    apply String.eqb_eq in E. pose proof (numerals_parts l Hne Hpos) as Hp.
    rewrite E in Hp. pose proof (numerals_read_back l Hpos) as Hr.
    rewrite <- Hp in Hr. cbv in Hr. injection Hr as Hr.
    specialize (Hrange 0 ltac:(rewrite <- Hr; now left)). lia. }
  rewrite Hnb, Hnz, andb_false_r.
  rewrite (numerals_parts l Hne Hpos), (numerals_are_digits l Hpos),
    (numerals_read_back l Hpos).
  replace (forallb (fun i => (1 <=? i) && (i <=? Z.of_nat (List.length choices))) l)
    with true.
  - eexists. reflexivity.
  - symmetry. apply forallb_forall. intros i Hi. specialize (Hrange i Hi).
    apply andb_true_iff. split; apply Z.leb_le; lia.
Qed.

(** Typing numbers of choices, separated by commas, selects exactly those
    choices: [ask_multi] returns them in increasing order, each once, and
    takes one line. *)
Theorem ask_multi_accepts_the_numbers_shown
    (prompt : string) (choices : list string) (allow_back : bool)
    (preselected : option (list Z)) (t : Term) (l : list Z) (rest : list string) :
  (forall i, In i l -> 1 <= i <= Z.of_nat (List.length choices)) ->
  stdin t = join "," (map py_str l) :: rest ->
  fst (ask_multi prompt choices allow_back preselected t) = inr (sorted_set l) /\
  stdin (snd (ask_multi prompt choices allow_back preselected t)) = rest.
Proof.
  intros Hrange Hin.
  destruct (ask_multi_on_numbers prompt choices allow_back preselected t l rest Hrange Hin)
    as [out ->].
  split; reflexivity.
Qed.

Lemma ask_multi_accepts_the_numbers_shown_witness :
  (forall i, In i [6; 1; 6] ->
     1 <= i <= Z.of_nat (List.length
       ["Dairy"; "Gluten"; "Nuts"; "Eggs"; "Soy"; "Shellfish"; "Sesame"])) /\
  fst (ask_multi "Avoid?" ["Dairy"; "Gluten"; "Nuts"; "Eggs"; "Soy"; "Shellfish"; "Sesame"]
         true None (mkTerm C_initial ["6,1,6"] [])) = inr [1; 6].
Proof.
  assert (H : forall i, In i [6; 1; 6] ->
     1 <= i <= Z.of_nat (List.length
       ["Dairy"; "Gluten"; "Nuts"; "Eggs"; "Soy"; "Shellfish"; "Sesame"]))
    by (simpl; intros i [<-|[<-|[<-|[]]]]; lia).
  split; [exact H|].
  exact (proj1 (ask_multi_accepts_the_numbers_shown _ _ _ _
                  (mkTerm C_initial ["6,1,6"] []) [6; 1; 6] [] H eq_refl)).
Defined.

(** ** The recommender on Scenario A *)

Lemma first_recommendation_is_best_witness :
  In tofu_stir_fry (catalog (startup (R := Lcg) 7)) /\
  conflicts tofu_stir_fry scenario_a = false /\
  fst (fst (score_meal tofu_stir_fry scenario_a)) <= 74.
Proof.
  assert (Hm : In tofu_stir_fry (catalog (startup (R := Lcg) 7))) by (simpl; tauto).
  assert (Hc : conflicts tofu_stir_fry scenario_a = false) by reflexivity.
  split; [exact Hm|]. split; [exact Hc|].
  exact (first_recommendation_is_best (R := Lcg) scenario_a 1 (Some 42)
           (startup (R := Lcg) 7)
           (package (entry_of scenario_a shrimp_rice_bowl)) [] tofu_stir_fry
           eq_refl Hm Hc).
Defined.

Lemma left_out_scores_no_higher_witness :
  In (package (entry_of scenario_a shrimp_rice_bowl))
     (top_recommendations (fst (recommend scenario_a 1 None (startup (R := Lcg) 7)))) /\
  ~ In (Meal.name grilled_salmon_bowl)
       (map Rec.name
          (top_recommendations (fst (recommend scenario_a 1 None (startup (R := Lcg) 7))))) /\
  fst (fst (score_meal grilled_salmon_bowl scenario_a)) <= 74.
Proof.
  assert (Hrec : In (package (entry_of scenario_a shrimp_rice_bowl))
            (top_recommendations (fst (recommend scenario_a 1 None (startup (R := Lcg) 7)))))
    by (vm_compute; left; reflexivity).
  assert (Hout : ~ In (Meal.name grilled_salmon_bowl)
            (map Rec.name
               (top_recommendations
                  (fst (recommend scenario_a 1 None (startup (R := Lcg) 7))))))
    by (vm_compute; intros [H|[]]; discriminate H).
  split; [exact Hrec|]. split; [exact Hout|].
  refine (left_out_scores_no_higher (R := Lcg) scenario_a 1 None (startup (R := Lcg) 7)
            (package (entry_of scenario_a shrimp_rice_bowl)) grilled_salmon_bowl
            Hrec _ _ Hout); [simpl; tauto | reflexivity].
Defined.

Lemma record_reports_its_meal_witness :
  In (package (entry_of scenario_a shrimp_rice_bowl))
     (top_recommendations (fst (recommend scenario_a 1 None (startup (R := Lcg) 7)))) /\
  exists m,
    In m (catalog (startup (R := Lcg) 7)) /\ conflicts m scenario_a = false /\
    Rec.name (package (entry_of scenario_a shrimp_rice_bowl)) = Meal.name m /\
    Rec.items (package (entry_of scenario_a shrimp_rice_bowl)) = Meal.items m /\
    Rec.macros (package (entry_of scenario_a shrimp_rice_bowl)) =
      Rec.mk_macros (Meal.calories m) (Meal.protein_g m) (Meal.carbs_g m) (Meal.fat_g m) /\
    Rec.sodium_mg (package (entry_of scenario_a shrimp_rice_bowl)) = Meal.sodium_mg m /\
    (Rec.score (package (entry_of scenario_a shrimp_rice_bowl)),
     Rec.reasons (package (entry_of scenario_a shrimp_rice_bowl)),
     Rec.flags (package (entry_of scenario_a shrimp_rice_bowl))) = score_meal m scenario_a.
Proof.
  assert (Hrec : In (package (entry_of scenario_a shrimp_rice_bowl))
            (top_recommendations (fst (recommend scenario_a 1 None (startup (R := Lcg) 7)))))
    by (vm_compute; left; reflexivity).
  split; [exact Hrec|].
  exact (record_reports_its_meal (R := Lcg) scenario_a 1 None (startup (R := Lcg) 7) _ Hrec).
Defined.

Lemma listed_avoidances_leave_meals_witness :
  (forall a, In a (Ans.avoids avoid_shellfish) -> In a all_seven) /\
  explanation (fst (recommend avoid_shellfish 3 (Some 42) (startup (R := Lcg) 7))) =
    helper_message.
Proof.
  assert (H : forall a, In a (Ans.avoids avoid_shellfish) -> In a all_seven)
    by (simpl; intros a [<-|[]]; tauto).
  split; [exact H|].
  exact (proj2 (listed_avoidances_leave_meals (R := Lcg) avoid_shellfish H) 3 (Some 42) 7).
Defined.

(** * The questions of [main] *)

(** ** The prompts, as the questions use them *)

Lemma ask_loop_exception (n : Z) (az ab : bool) (d : option Z) (c : C.t)
    (lines out : list string) (e : Exn) (t' : Term) :
  ask_loop n az ab d c lines out = (inl e, t') -> e = EOFError \/ e = ValueError.
Proof.
  revert out. induction lines as [|line rest IH]; intros out H.
  - cbn in H. injection H as <- _. now left.
  - cbn [ask_loop] in H. cbv zeta in H.
    destruct d as [dv|];
      destruct (lower (strip line) == ""); try discriminate H;
      destruct (ab && (lower (strip line) == "b")); try discriminate H;
      destruct (az && (lower (strip line) == "0")); try discriminate H;
      (destruct (isdigit (lower (strip line))); [|now apply (IH _ H)]);
      (destruct (py_int (lower (strip line))) as [idx|];
         [|injection H as <- _; now right]);
      (destruct ((1 <=? idx) && (idx <=? n)); [discriminate H | now apply (IH _ H)]).
Qed.

Lemma ask_multi_loop_exception (n : Z) (ab : bool) (c : C.t)
    (lines out : list string) (e : Exn) (t' : Term) :
  ask_multi_loop n ab c lines out = (inl e, t') -> e = EOFError \/ e = ValueError.
Proof.
  revert out. induction lines as [|line rest IH]; intros out H.
  - cbn in H. injection H as <- _. now left.
  - cbn [ask_multi_loop] in H. cbv zeta in H.
    destruct (ab && (lower (strip line) == "b")); try discriminate H.
    destruct (lower (strip line) == "0"); try discriminate H.
    destruct (forallb isdigit (parts_of (lower (strip line)))); [|now apply (IH _ H)].
    destruct (ints_of (parts_of (lower (strip line)))) as [idxs|];
      [|injection H as <- _; now right].
    destruct (forallb (fun i => (1 <=? i) && (i <=? n)) idxs);
      [discriminate H | now apply (IH _ H)].
Qed.

(** The parts of an ASCII line that are all digits are numerals. *)
Lemma split_on_ascii (s : string) :
  ascii_only s = true -> Forall (fun p => ascii_only p = true) (split_on "," s).
Proof.
  induction s as [|c s IH]; cbn [ascii_only split_on]; [repeat constructor|].
  intro H. apply andb_true_iff in H as [Hc Hs]. specialize (IH Hs).
  destruct (Ascii.eqb c ","); [constructor; [reflexivity | exact IH]|].
  destruct (split_on "," s) as [|piece pieces].
  - repeat constructor. cbn [ascii_only]. now rewrite Hc.
  - inversion IH; subst. constructor; [cbn [ascii_only]; now rewrite Hc, H1 | assumption].
Qed.

Lemma strip_ascii (s : string) : ascii_only s = true -> ascii_only (strip s) = true.
Proof. intro H. unfold strip. now apply rstrip_ascii, lstrip_ascii. Qed.

Lemma parts_of_ascii (raw : string) :
  ascii_only raw = true -> Forall (fun p => ascii_only p = true) (parts_of raw).
Proof.
  intro H. unfold parts_of. pose proof (split_on_ascii raw H) as Hp.
  induction Hp as [|p l Hpa _ IH]; cbn [map filter]; [constructor|].
  destruct (negb (strip p == "")); [constructor; [now apply strip_ascii | exact IH] | exact IH].
Qed.

Lemma ascii_parts_parse (parts : list string) :
  Forall (fun p => ascii_only p = true) parts ->
  forallb isdigit parts = true -> ints_of parts <> None.
Proof.
  induction 1 as [|p l Hp _ IH]; cbn [forallb ints_of]; intro H; [discriminate|].
  apply andb_true_iff in H as [Hd Hl].
  unfold isdigit in Hd. apply andb_true_iff in Hd as [_ Hd].
  destruct (decimal_parses p (ascii_digits_decimal p Hp Hd)) as [d Hu].
  unfold py_int. rewrite Hu.
  specialize (IH Hl). now destruct (ints_of l).
Qed.

Lemma ask_multi_loop_ascii (n : Z) (ab : bool) (c : C.t)
    (lines out : list string) (e : Exn) (t' : Term) :
  Forall (fun l => ascii_only l = true) lines ->
  ask_multi_loop n ab c lines out = (inl e, t') -> e = EOFError.
Proof.
  revert out. induction lines as [|line rest IH]; intros out Hall H.
  - cbn in H. congruence.
  - inversion Hall as [|? ? Hline Hrest]; subst.
    cbn [ask_multi_loop] in H. cbv zeta in H.
    destruct (ab && (lower (strip line) == "b")); try discriminate H.
    destruct (lower (strip line) == "0"); try discriminate H.
    destruct (forallb isdigit (parts_of (lower (strip line)))) eqn:Ed;
      [|now apply (IH _ Hrest H)].
    assert (Hparse : ints_of (parts_of (lower (strip line))) <> None).
    { apply ascii_parts_parse; [|exact Ed].
      apply parts_of_ascii, lower_ascii, strip_ascii, Hline. }
    destruct (ints_of (parts_of (lower (strip line)))) as [idxs|];
      [|now contradiction Hparse].
    destruct (forallb (fun i => (1 <=? i) && (i <=? n)) idxs);
      [discriminate H | now apply (IH _ Hrest H)].
Qed.

Lemma shorter_refl (t : Term) : shorter false t t.
Proof. split; [reflexivity|]. exists []. split; [reflexivity | discriminate]. Qed.

Lemma shorter_trans (s1 s2 : bool) (t1 t2 t3 : Term) :
  shorter s1 t1 t2 -> shorter s2 t2 t3 -> shorter (s1 || s2) t1 t3.
Proof.
  intros (Hc1 & u1 & Hu1 & Hn1) (Hc2 & u2 & Hu2 & Hn2).
  split; [congruence|].
  exists (u1 ++ u2)%list. split; [now rewrite Hu1, Hu2, app_assoc|].
  intros Hs Happ. apply app_eq_nil in Happ as [-> ->].
  apply orb_true_iff in Hs as [Hs|Hs]; [now apply Hn1 | now apply Hn2].
Qed.

Lemma shorter_length (t t' : Term) :
  shorter true t t' -> (List.length (stdin t') < List.length (stdin t))%nat.
Proof.
  intros (_ & used & Hu & Hne). rewrite Hu, length_app.
  destruct used; [now contradiction Hne|]. cbn. lia.
Qed.

Lemma shorter_length_le (s : bool) (t t' : Term) :
  shorter s t t' -> (List.length (stdin t') <= List.length (stdin t))%nat.
Proof. intros (_ & used & Hu & _). rewrite Hu, length_app. lia. Qed.

Lemma shorter_ascii (s : bool) (t t' : Term) :
  shorter s t t' ->
  Forall (fun l => ascii_only l = true) (stdin t) ->
  Forall (fun l => ascii_only l = true) (stdin t').
Proof.
  intros (_ & used & Hu & _) H. rewrite Hu in H. now apply Forall_app in H as [_ H].
Qed.

Lemma ask_call (prompt : string) (choices : list string) (az ab : bool)
    (d : option Z) (t t' : Term) (res : Exn + Z) :
  ask prompt choices az ab d t = (res, t') ->
  match res with
  | inr r => offered (Z.of_nat (List.length choices)) az ab d r /\ shorter true t t'
  | inl e =>
      (e = EOFError \/ e = ValueError) /\
      (Forall (fun l => ascii_only l = true) (stdin t) -> e = EOFError /\ stdin t' = [])
  end.
Proof.
  unfold ask. cbv zeta. intro H. destruct res as [e|r].
  - split; [now apply ask_loop_exception in H|].
    intro Hall. pose proof (ask_loop_ascii _ _ _ _ _ _ _ _ _ Hall H) as ->.
    split; [reflexivity|]. now apply ask_loop_outcome in H as (_ & _ & _ & Hend).
  - apply ask_loop_outcome in H as (Hc & (used & Hu & Hne) & _ & Hr).
    split; [exact Hr|]. split; [exact Hc|].
    exists used. split; [exact Hu|]. intros _. now apply (Hne r).
Qed.

Lemma ask_multi_call (prompt : string) (choices : list string) (ab : bool)
    (pre : option (list Z)) (t t' : Term) (res : Exn + list Z) :
  ask_multi prompt choices ab pre t = (res, t') ->
  match res with
  | inr l => selection (Z.of_nat (List.length choices)) ab l /\ shorter true t t'
  | inl e =>
      (e = EOFError \/ e = ValueError) /\
      (Forall (fun l => ascii_only l = true) (stdin t) -> e = EOFError /\ stdin t' = [])
  end.
Proof.
  unfold ask_multi. cbv zeta. intro H. destruct res as [e|l].
  - split; [now apply ask_multi_loop_exception in H|].
    intro Hall. pose proof (ask_multi_loop_ascii _ _ _ _ _ _ _ Hall H) as ->.
    split; [reflexivity|]. now apply ask_multi_loop_outcome in H as (_ & _ & _ & Hend).
  - apply ask_multi_loop_outcome in H as (Hc & (used & Hu & Hne) & _ & Hr).
    split; [exact Hr|]. split; [exact Hc|].
    exists used. split; [exact Hu|]. intros _. now apply (Hne l).
Qed.

(** ** The tables *)

Lemma lookup_in (s : string) (table : list (string * Z)) (d : Z) :
  lookup s table = Some d -> In d (map snd table).
Proof.
  induction table as [|[k v] table IH]; cbn; [discriminate|].
  destruct (String.eqb k s); [intros [= <-]; now left | right; auto].
Qed.

Lemma lookup_num_in (r : Z) (table : list (Z * string)) (v : string) :
  lookup_num r table = Some v -> In v (map snd table).
Proof.
  induction table as [|[k w] table IH]; cbn; [discriminate|].
  destruct (k =? r); [intros [= <-]; now left | right; auto].
Qed.

Lemma lookup_num_found (r : Z) (table : list (Z * string)) :
  In r (map fst table) -> exists v, lookup_num r table = Some v.
Proof.
  induction table as [|[k w] table IH]; cbn; [contradiction|].
  intros [->|H]; [rewrite Z.eqb_refl; now eexists|].
  destruct (k =? r); [now eexists | auto].
Qed.

Ltac check_numbered :=
  split; cbn;
  [ intros d H; repeat (destruct H as [<-|H]; [lia|]); contradiction
  | intros r H;
    repeat match goal with
    | |- ?k = r \/ _ => destruct (Z.eq_dec k r); [now left | right]
    end; lia ].

Lemma goal_numbered : numbered 3 goal_index goal_names.
Proof. check_numbered. Qed.
Lemma timing_numbered : numbered 3 timing_index timing_names.
Proof. check_numbered. Qed.
Lemma protein_numbered : numbered 5 protein_index protein_names.
Proof. check_numbered. Qed.
Lemma effort_numbered : numbered 4 effort_index effort_names.
Proof. check_numbered. Qed.
Lemma sodium_numbered : numbered 2 sodium_index sodium_names.
Proof. check_numbered. Qed.
Lemma spice_numbered : numbered 4 spice_index spice_names.
Proof. check_numbered. Qed.

(** An answer of [ask] to a question without zero is -1, if going back is
    allowed, or a key of the table of names. *)
Lemma offered_answer (n : Z) (index : list (string * Z)) (names : list (Z * string))
    (ab : bool) (v : option string) (r : Z) :
  numbered n index names ->
  offered n false ab (default_of index v) r ->
  (ab = true /\ r = -1) \/ exists w, lookup_num r names = Some w.
Proof.
  intros [Hd Hn] [H|[H|[[H _]|H]]].
  - right. apply lookup_num_found, Hn, Hd.
    destruct v as [s|]; [|discriminate H]. now apply (lookup_in s).
  - now left.
  - discriminate H.
  - right. now apply lookup_num_found, Hn.
Qed.

(** ** The avoidances *)

Lemma one_to_seven (i : Z) :
  1 <= i <= 7 -> i = 1 \/ i = 2 \/ i = 3 \/ i = 4 \/ i = 5 \/ i = 6 \/ i = 7.
Proof. lia. Qed.

Lemma avoids_of_in_range (idxs : list Z) :
  (forall i, In i idxs -> 1 <= i <= 7) -> avoids_of idxs = Some (map seven_name idxs).
Proof.
  induction idxs as [|i idxs IH]; intro H; [reflexivity|].
  cbn [avoids_of map]. rewrite IH by (intros k Hk; apply H; now right).
  destruct (one_to_seven i (H i ltac:(now left)))
    as [->|[->|[->|[->|[->|[->| ->]]]]]]; reflexivity.
Qed.

Lemma seven_name_in (i : Z) : 1 <= i <= 7 -> In (seven_name i) all_seven.
Proof.
  intro H. destruct (one_to_seven i H) as [->|[->|[->|[->|[->|[->| ->]]]]]];
    cbn; tauto.
Qed.

Lemma seven_name_injective (i j : Z) :
  1 <= i <= 7 -> 1 <= j <= 7 -> seven_name i = seven_name j -> i = j.
Proof.
  intros Hi Hj.
  destruct (one_to_seven i Hi) as [->|[->|[->|[->|[->|[->| ->]]]]]];
    destruct (one_to_seven j Hj) as [->|[->|[->|[->|[->|[->| ->]]]]]];
    cbn; intro H; try reflexivity; discriminate H.
Qed.

Lemma strictly_sorted_nodup (l : list Z) : StronglySorted Z.lt l -> NoDup l.
Proof.
  induction 1 as [|a l Hs IH Hall]; constructor; [|exact IH].
  intro Hin. rewrite Forall_forall in Hall. specialize (Hall a Hin). lia.
Qed.

Lemma nodup_map_injective {X Y : Type} (f : X -> Y) (l : list X) :
  (forall a b, In a l -> In b l -> f a = f b -> a = b) -> NoDup l -> NoDup (map f l).
Proof.
  intros Hinj Hnd. induction Hnd as [|a l Hnotin Hnd IH]; cbn; constructor.
  - intro Hin. apply in_map_iff in Hin as (b & Hb & Hbl).
    apply Hnotin. rewrite (Hinj a b); [exact Hbl | now left | now right | now symmetry].
  - apply IH. intros x y Hx Hy. apply Hinj; now right.
Qed.

Lemma picked_avoids_listed (avoids : list string) :
  picked_avoids avoids -> (forall a, In a avoids -> In a all_seven) /\ NoDup avoids.
Proof.
  intros (idxs & Hs & Hr & ->). split.
  - intros a Ha. apply in_map_iff in Ha as (i & <- & Hi). now apply seven_name_in, Hr.
  - apply nodup_map_injective; [|now apply strictly_sorted_nodup].
    intros i j Hi Hj. apply seven_name_injective; now apply Hr.
Qed.

(** ** The loops *)

Lemma ends_well_later {X : Type} (P : X -> Prop) (s : bool) (t t1 : Term) (o : Outcome X) :
  shorter s t t1 -> ends_well P t1 o -> ends_well P t o.
Proof.
  intros Hs. destruct o as [[e|x] t']; cbn.
  - intros [He Ha]. split; [exact He|]. intro Hall. apply Ha.
    now apply (shorter_ascii s t t1).
  - intros [Hp Hs']. split; [exact Hp|].
    pose proof (shorter_trans _ _ _ _ _ Hs Hs') as H. now rewrite orb_true_r in H.
Qed.

Lemma ends_well_weaken {X : Type} (P Q : X -> Prop) (t : Term) (o : Outcome X) :
  (forall x, P x -> Q x) -> ends_well P t o -> ends_well Q t o.
Proof. intros H. destruct o as [[e|x] t']; cbn; [tauto|]. intros [Hp Hs]. auto. Qed.

Lemma ask_exception_ends {X : Type} (P : X -> Prop) prompt choices az ab d t e t1 :
  ask prompt choices az ab d t = (inl e, t1) -> ends_well P t (inl e, t1).
Proof. intro H. exact (ask_call _ _ _ _ _ _ _ _ H). Qed.

Lemma single_loop_ends (n : Z) (index : list (string * Z)) (names : list (Z * string))
    (turns : nat) (prompt : string) (choices : list string) (v : option string) (t : Term) :
  numbered n index names -> Z.of_nat (List.length choices) = n ->
  (List.length (stdin t) < turns)%nat ->
  exists o, single_loop turns prompt choices (default_of index v) names t = Some o /\
            ends_well (fun a => In a (map snd names)) t o.
Proof.
  intros Hnum Hn. revert t. induction turns as [|turns IH]; intros t Hlen; [lia|].
  cbn [single_loop].
  destruct (ask prompt choices false true (default_of index v) t) as [[e|r] t1] eqn:E.
  - eexists. split; [reflexivity|]. now apply (ask_exception_ends _ _ _ _ _ _ _ _ _ E).
  - pose proof (ask_call _ _ _ _ _ _ _ _ E) as [Hoff Hs]. cbn beta iota in Hoff.
    rewrite Hn in Hoff.
    destruct (r =? -1) eqn:Eb.
    + destruct (IH t1) as (o & Ho & Hw);
        [pose proof (shorter_length _ _ Hs); lia|].
      exists o. split; [exact Ho|]. now apply (ends_well_later _ true t t1).
    + destruct (offered_answer _ _ _ _ _ _ Hnum Hoff) as [[_ ->]|[w Hw]];
        [discriminate Eb|].
      rewrite Hw. eexists. split; [reflexivity|]. cbn.
      split; [now apply (lookup_num_in r) | exact Hs].
Qed.

Lemma timing_loop_ends (turns : nat) (prior : Prior.t) (goal : string) (t : Term) :
  (List.length (stdin t) < turns)%nat ->
  exists o, timing_loop turns prior goal t = Some o /\
            ends_well (fun gt => (fst gt = goal \/ In (fst gt) (map snd goal_names)) /\
                                 In (snd gt) (map snd timing_names)) t o.
Proof.
  revert goal t. induction turns as [|turns IH]; intros goal t Hlen; [lia|].
  cbn [timing_loop]. cbv zeta.
  destruct (ask "When is this meal?" timing_choices false true
              (default_of timing_index (Prior.timing prior)) t) as [[e|r] t1] eqn:E.
  - eexists. split; [reflexivity|]. now apply (ask_exception_ends _ _ _ _ _ _ _ _ _ E).
  - pose proof (ask_call _ _ _ _ _ _ _ _ E) as [Hoff Hs]. cbn beta iota in Hoff.
    destruct (r =? -1) eqn:Eb.
    + destruct (ask "What's your current goal?" goal_choices false false
                  (default_of goal_index (Prior.goal prior)) t1) as [[e|g] t2] eqn:Eg.
      * eexists. split; [reflexivity|].
        apply (ends_well_later _ true t t1 _ Hs).
        now apply (ask_exception_ends _ _ _ _ _ _ _ _ _ Eg).
      * pose proof (ask_call _ _ _ _ _ _ _ _ Eg) as [Hoffg Hsg]. cbn beta iota in Hoffg.
        destruct (offered_answer 3 _ _ _ _ _ goal_numbered Hoffg) as [[Hf _]|[w Hw]];
          [discriminate Hf|].
        rewrite Hw.
        destruct (IH w t2) as (o & Ho & Hwell).
        { pose proof (shorter_length _ _ Hs). pose proof (shorter_length _ _ Hsg). lia. }
        exists o. split; [exact Ho|].
        apply (ends_well_later _ true t t1 _ Hs).
        apply (ends_well_later _ true t1 t2 _ Hsg).
        eapply ends_well_weaken; [|exact Hwell].
        cbn beta. intros gt [[->|Hin] Ht]; (split; [right|exact Ht]);
          [now apply (lookup_num_in g) | exact Hin].
    + destruct (offered_answer 3 _ _ _ _ _ timing_numbered Hoff) as [[_ ->]|[w Hw]];
        [discriminate Eb|].
      rewrite Hw. eexists. split; [reflexivity|]. cbn [ends_well fst snd].
      split; [|exact Hs]. split; [now left | now apply (lookup_num_in r)].
Qed.

Lemma shorter_print (s : bool) (x : string) (t t1 : Term) :
  shorter s t t1 -> shorter s t (print x t1).
Proof. intros H. exact H. Qed.

Lemma avoids_loop_ends (turns : nat) (prior : Prior.t) (protein_pref : string) (t : Term) :
  (List.length (stdin t) < turns)%nat ->
  exists o, avoids_loop turns prior protein_pref t = Some o /\
            ends_well (fun pa => (fst pa = protein_pref \/
                                  In (fst pa) (map snd protein_names)) /\
                                 picked_avoids (snd pa)) t o.
Proof.
  revert protein_pref t. induction turns as [|turns IH]; intros protein_pref t Hlen; [lia|].
  cbn [avoids_loop]. cbv zeta.
  destruct (ask_multi "Do you need to avoid anything? (comma-separated, Enter for none)."
              avoids_lookup true
              match pre_idxs prior with [] => None | _ :: _ => Some (pre_idxs prior) end t)
    as [[e|idxs] t1] eqn:E.
  - eexists. split; [reflexivity|]. exact (ask_multi_call _ _ _ _ _ _ _ E).
  - pose proof (ask_multi_call _ _ _ _ _ _ _ E) as [Hsel Hs]. cbn beta iota in Hsel.
    destruct (list_eq_dec Z.eq_dec idxs [-1]) as [Hback|Hpicked].
    + destruct (ask "Pick a protein preference." protein_choices false false
                  (default_of protein_index (Prior.protein_pref prior)) t1)
        as [[e|p] t2] eqn:Ep.
      * eexists. split; [reflexivity|].
        apply (ends_well_later _ true t t1 _ Hs).
        now apply (ask_exception_ends _ _ _ _ _ _ _ _ _ Ep).
      * pose proof (ask_call _ _ _ _ _ _ _ _ Ep) as [Hoffp Hsp]. cbn beta iota in Hoffp.
        destruct (offered_answer 5 _ _ _ _ _ protein_numbered Hoffp) as [[Hf _]|[w Hw]];
          [discriminate Hf|].
        rewrite Hw.
        destruct (IH w t2) as (o & Ho & Hwell).
        { pose proof (shorter_length _ _ Hs). pose proof (shorter_length _ _ Hsp). lia. }
        exists o. split; [exact Ho|].
        apply (ends_well_later _ true t t1 _ Hs).
        apply (ends_well_later _ true t1 t2 _ Hsp).
        eapply ends_well_weaken; [|exact Hwell].
        cbn beta. intros pa [[->|Hin] Ha]; (split; [right|exact Ha]);
          [now apply (lookup_num_in p) | exact Hin].
    + destruct Hsel as [[_ Hb]|[Hsorted Hrange]]; [contradiction|].
      change (Z.of_nat (List.length avoids_lookup)) with 7 in Hrange.
      rewrite (avoids_of_in_range idxs Hrange).
      eexists. split; [reflexivity|]. cbn [ends_well fst snd].
      split; [split; [now left | now exists idxs]|].
      now destruct (map seven_name idxs).
Qed.

Lemma and_then_ends {X Y : Type} (P : X -> Prop) (Q : Y -> Prop) (t : Term)
    (step : option (Outcome X)) (next : X -> Term -> option (Outcome Y)) :
  (exists o, step = Some o /\ ends_well P t o) ->
  (forall x t', P x -> shorter true t t' ->
     exists o', next x t' = Some o' /\ ends_well Q t' o') ->
  exists o', and_then step next = Some o' /\ ends_well Q t o'.
Proof.
  intros (o & -> & Ho) Hnext. destruct o as [[e|x] t']; cbn [and_then].
  - eexists. split; [reflexivity | exact Ho].
  - destruct Ho as [Hp Hs]. destruct (Hnext x t' Hp Hs) as (o' & Ho' & Hw).
    exists o'. split; [exact Ho'|]. now apply (ends_well_later _ true t t').
Qed.

Lemma and_then_returns {X Y : Type} (P : X -> Prop) (Q : Y -> Prop) (t : Term)
    (step : option (Outcome X)) (f : X -> Y) :
  (exists o, step = Some o /\ ends_well P t o) ->
  (forall x, P x -> Q (f x)) ->
  exists o', and_then step (fun x t' => Some (inr (f x), t')) = Some o' /\ ends_well Q t o'.
Proof.
  intros (o & -> & Ho) Hf. destruct o as [[e|x] t']; cbn [and_then].
  - eexists. split; [reflexivity | exact Ho].
  - destruct Ho as [Hp Hs]. eexists. split; [reflexivity|]. split; auto.
Qed.

Lemma turns_suffice (t : Term) : (List.length (stdin t) < turns_for t)%nat.
Proof. unfold turns_for. lia. Qed.

Lemma main_questions_end (no_color : bool) (prior : Prior.t) (t : Term) :
  exists o, main_questions no_color prior t = Some o /\
            ends_well well_formed
              (print "Answer with the number of your choice. Type 'b' to go back when available."
                 (print (C.BOLD (colors (snd (enable_color (negb no_color) t)))
                         ++ "=== MealMD (step-by-step) ==="
                         ++ C.RESET (colors (snd (enable_color (negb no_color) t))))
                    (snd (enable_color (negb no_color) t)))) o.
Proof.
  unfold main_questions. cbv zeta.
  set (t0 := print _ (print _ (snd (enable_color (negb no_color) t)))).
  apply (and_then_ends (fun g => In g (map snd goal_names))).
  { destruct (ask "What's your current goal?" goal_choices false false
                (default_of goal_index (Prior.goal prior)) t0) as [[e|g] t1] eqn:E.
    - eexists. split; [reflexivity|]. now apply (ask_exception_ends _ _ _ _ _ _ _ _ _ E).
    - pose proof (ask_call _ _ _ _ _ _ _ _ E) as [Hoff Hs]. cbn beta iota in Hoff.
      destruct (offered_answer 3 _ _ _ _ _ goal_numbered Hoff) as [[Hf _]|[w Hw]];
        [discriminate Hf|].
      rewrite Hw. eexists. split; [reflexivity|].
      split; [now apply (lookup_num_in g) | exact Hs]. }
  intros goal t1 Hgoal _.
  apply (and_then_ends (fun gt => In (fst gt) (map snd goal_names) /\
                                  In (snd gt) (map snd timing_names))).
  { destruct (timing_loop_ends (turns_for t1) prior goal t1 (turns_suffice t1))
      as (o & Ho & Hw).
    exists o. split; [exact Ho|]. eapply ends_well_weaken; [|exact Hw].
    cbn beta. intros gt [[->|H] Ht]; auto. }
  intros [goal' timing] t2 [Hgoal' Htiming] _. cbn [fst snd] in Hgoal', Htiming.
  apply (and_then_ends (fun p => In p (map snd protein_names))).
  { now apply (single_loop_ends 5 protein_index protein_names);
      [apply protein_numbered | reflexivity | apply turns_suffice]. }
  intros protein_pref t3 Hprotein _.
  apply (and_then_ends (fun pa => In (fst pa) (map snd protein_names) /\
                                  picked_avoids (snd pa))).
  { destruct (avoids_loop_ends (turns_for t3) prior protein_pref t3 (turns_suffice t3))
      as (o & Ho & Hw).
    exists o. split; [exact Ho|]. eapply ends_well_weaken; [|exact Hw].
    cbn beta. intros pa [[->|H] Ha]; auto. }
  intros [protein_pref' avoids] t4 [Hprotein' Havoids] _.
  cbn [fst snd] in Hprotein', Havoids.
  apply (and_then_ends (fun e => In e (map snd effort_names))).
  { now apply (single_loop_ends 4 effort_index effort_names);
      [apply effort_numbered | reflexivity | apply turns_suffice]. }
  intros effort t5 Heffort _.
  apply (and_then_ends (fun s => In s (map snd sodium_names))).
  { now apply (single_loop_ends 2 sodium_index sodium_names);
      [apply sodium_numbered | reflexivity | apply turns_suffice]. }
  intros sodium_pref t6 Hsodium _.
  apply (and_then_returns (fun s => In s (map snd spice_names))).
  { now apply (single_loop_ends 4 spice_index spice_names);
      [apply spice_numbered | reflexivity | apply turns_suffice]. }
  intros spice_pref Hspice. repeat split; assumption.
Qed.

(** ** What the questions guarantee *)


(** Whatever is typed, an answer set that the questions return is well
    formed: every single-choice key holds a value of its enum, and the
    avoidances are base allergens, each at most once. *)
Theorem main_questions_answers_well_formed
    (no_color : bool) (prior : Prior.t) (t t' : Term) (A : Ans.t) :
  main_questions no_color prior t = Some (inr A, t') ->
  In (Ans.goal A) goal_enum /\
  In (Ans.timing A) timing_enum /\
  In (Ans.protein_pref A) protein_pref_enum /\
  In (Ans.effort A) effort_enum /\
  In (Ans.sodium_pref A) sodium_pref_enum /\
  In (Ans.spice_pref A) spice_pref_enum /\
  (forall a, In a (Ans.avoids A) -> In a all_seven) /\
  NoDup (Ans.avoids A).
Proof.
  intro H. destruct (main_questions_end no_color prior t) as (o & Ho & Hw).
  rewrite H in Ho. injection Ho as <-.
  destruct Hw as [(Hg & Ht & Hp & Ha & He & Hs & Hsp) _].
  destruct (picked_avoids_listed _ Ha) as [Hin Hnd]. tauto.
Qed.

Lemma main_questions_answers_well_formed_witness :
  exists t',
    main_questions true no_prior
      (mkTerm C_initial
         ["1"; "b"; "2"; "3"; "b"; "3"; "b"; "4"; "6,1"; "b"; "1"; "2"; "1"] []) =
    Some (inr (Ans.mk "maintenance" "any" "plant-only" ["dairy"; "shellfish"]
                 "low" "lower" "mild"), t') /\
    NoDup ["dairy"; "shellfish"].
Proof.
  destruct (main_questions true no_prior
              (mkTerm C_initial
                 ["1"; "b"; "2"; "3"; "b"; "3"; "b"; "4"; "6,1"; "b"; "1"; "2"; "1"] []))
    as [[[e|A] t']|] eqn:E.
  - vm_compute in E. discriminate E.
  - exists t'.
    assert (HA : A = Ans.mk "maintenance" "any" "plant-only" ["dairy"; "shellfish"]
                       "low" "lower" "mild")
      by (vm_compute in E; injection E as <- _; reflexivity).
    subst A. split; [reflexivity|].
    exact (proj2 (proj2 (proj2 (proj2 (proj2 (proj2 (proj2
      (main_questions_answers_well_formed _ _ _ _ _ E)))))))).
  - vm_compute in E. discriminate E.
Defined.

(** The questions and the recommender together: for an answer set that
    the questions return, [recommend] never comes back with the no-meals
    message. *)
Theorem wizard_answers_always_get_meals
    {R : RandomModule} (no_color : bool) (prior : Prior.t) (t t' : Term) (A : Ans.t)
    (top_k : Z) (seed : option Z) (g : rng) :
  main_questions no_color prior t = Some (inr A, t') ->
  explanation (fst (recommend A top_k seed (startup g))) = helper_message.
Proof.
  intro H. destruct (main_questions_end no_color prior t) as (o & Ho & Hw).
  rewrite H in Ho. injection Ho as <-.
  destruct Hw as [(_ & _ & _ & Ha & _) _].
  destruct (picked_avoids_listed _ Ha) as [Hin _].
  now apply (base_avoidances_keep_meals A Hin).
Qed.

Lemma wizard_answers_always_get_meals_witness :
  exists t',
    main_questions false no_prior
      (mkTerm C_initial ["1"; "3"; "3"; "1,2,3,4,5,6,7"; "1"; "2"; "1"] []) =
    Some (inr (Ans.mk "cut" "any" "fish/seafood" all_seven "low" "lower" "mild"), t') /\
    explanation
      (fst (recommend (Ans.mk "cut" "any" "fish/seafood" all_seven "low" "lower" "mild")
              3 (Some 42) (startup (R := Lcg) 7))) = helper_message.
Proof.
  destruct (main_questions false no_prior
              (mkTerm C_initial ["1"; "3"; "3"; "1,2,3,4,5,6,7"; "1"; "2"; "1"] []))
    as [[[e|A] t']|] eqn:E.
  - vm_compute in E. discriminate E.
  - exists t'.
    assert (HA : A = Ans.mk "cut" "any" "fish/seafood" all_seven "low" "lower" "mild")
      by (vm_compute in E; injection E as <- _; reflexivity).
    subst A. split; [reflexivity|].
    exact (wizard_answers_always_get_meals (R := Lcg) _ _ _ _ _ 3 (Some 42) 7 E).
  - vm_compute in E. discriminate E.
Defined.



(** ** Straight through the questions *)

Lemma lookup_num_key (r : Z) (table : list (Z * string)) (v : string) :
  lookup_num r table = Some v -> In r (map fst table).
Proof.
  induction table as [|[k w] table IH]; cbn; [discriminate|].
  destruct (k =? r) eqn:E; [apply Z.eqb_eq in E; now left | right; auto].
Qed.

Ltac key_range H :=
  match goal with
  | |- context [Z.of_nat ?n] =>
      let v := eval vm_compute in (Z.of_nat n) in change (Z.of_nat n) with v
  end;
  let K := fresh in
  pose proof (lookup_num_key _ _ _ H) as K; cbn in K;
  repeat (destruct K as [K|K]; [lia|]); contradiction.

Lemma single_loop_on_number (turns : nat) (prompt : string) (choices : list string)
    (d : option Z) (names : list (Z * string)) (t : Term) (i : Z) (v : string)
    (rest : list string) :
  1 <= i <= Z.of_nat (List.length choices) ->
  lookup_num i names = Some v ->
  stdin t = py_str i :: rest ->
  exists t', single_loop (S turns) prompt choices d names t = Some (inr v, t') /\
             stdin t' = rest.
Proof.
  intros Hi Hv Hin. cbn [single_loop].
  destruct (ask_on_number prompt choices false true d t i rest Hi Hin) as [out ->].
  replace (i =? -1) with false by (symmetry; apply Z.eqb_neq; lia).
  rewrite Hv. eexists. split; reflexivity.
Qed.

Lemma timing_loop_on_number (turns : nat) (prior : Prior.t) (goal : string) (t : Term)
    (i : Z) (v : string) (rest : list string) :
  lookup_num i timing_names = Some v ->
  stdin t = py_str i :: rest ->
  exists t', timing_loop (S turns) prior goal t = Some (inr (goal, v), t') /\
             stdin t' = rest.
Proof.
  intros Hv Hin. cbn [timing_loop]. cbv zeta.
  assert (Hi : 1 <= i <= Z.of_nat (List.length timing_choices)) by (key_range Hv).
  destruct (ask_on_number "When is this meal?" timing_choices false true
              (default_of timing_index (Prior.timing prior)) t i rest Hi Hin) as [out ->].
  replace (i =? -1) with false by (symmetry; apply Z.eqb_neq; lia).
  rewrite Hv. eexists. split; reflexivity.
Qed.

Lemma avoids_loop_on_numbers (turns : nat) (prior : Prior.t) (protein_pref : string)
    (t : Term) (l : list Z) (rest : list string) :
  (forall i, In i l -> 1 <= i <= 7) ->
  stdin t = join "," (map py_str l) :: rest ->
  exists t', avoids_loop (S turns) prior protein_pref t =
             Some (inr (protein_pref, map seven_name (sorted_set l)), t') /\
             stdin t' = rest.
Proof.
  intros Hl Hin. cbn [avoids_loop]. cbv zeta.
  destruct (ask_multi_on_numbers
              "Do you need to avoid anything? (comma-separated, Enter for none)."
              avoids_lookup true
              (match pre_idxs prior with [] => None | _ :: _ => Some (pre_idxs prior) end)
              t l rest Hl Hin) as [out ->].
  assert (Hs : forall i, In i (sorted_set l) -> 1 <= i <= 7)
    by (intros i Hi; apply Hl; now apply (proj1 (sorted_set_in _ _))).
  destruct (list_eq_dec Z.eq_dec (sorted_set l) [-1]) as [Hback|_].
  { specialize (Hs (-1)). rewrite Hback in Hs. specialize (Hs (or_introl eq_refl)). lia. }
  rewrite (avoids_of_in_range _ Hs).
  destruct (map seven_name (sorted_set l)); eexists; split; reflexivity.
Qed.



(** ** Enter at every question *)

Ltac check_remembered :=
  intros v H; cbn in H;
  repeat (destruct H as [<-|H]; [eexists; split; reflexivity|]); contradiction.

Lemma goal_remembered : remembered goal_enum goal_index goal_names.
Proof. check_remembered. Qed.
Lemma timing_remembered : remembered timing_enum timing_index timing_names.
Proof. check_remembered. Qed.
Lemma protein_remembered : remembered protein_pref_enum protein_index protein_names.
Proof. check_remembered. Qed.
Lemma effort_remembered : remembered effort_enum effort_index effort_names.
Proof. check_remembered. Qed.
Lemma sodium_remembered : remembered sodium_pref_enum sodium_index sodium_names.
Proof. check_remembered. Qed.
Lemma spice_remembered : remembered spice_pref_enum spice_index spice_names.
Proof. check_remembered. Qed.

Lemma spaces_blank (s : string) : spaces s = true -> blank s = true.
Proof.
  induction s as [|c s IH]; cbn [spaces blank]; [reflexivity|].
  intro H. apply andb_true_iff in H as [-> Hs]. now rewrite IH.
Qed.

Lemma ask_on_empty_line
    (prompt : string) (choices : list string) (allow_zero allow_back : bool)
    (d : Z) (t : Term) (line : string) (rest : list string) :
  stdin t = line :: rest ->
  spaces line = true ->
  exists out,
    ask prompt choices allow_zero allow_back (Some d) t =
    (inr d, mkTerm (colors t) rest out).
Proof.
  intros Hin Hsp. unfold ask. cbv zeta. rewrite Hin. cbn [ask_loop]. cbv zeta.
  rewrite (spaces_strip _ Hsp). change (lower "") with "". cbn [String.eqb].
  eexists. reflexivity.
Qed.

Lemma single_loop_on_empty_line (enum : list string) (index : list (string * Z))
    (names : list (Z * string)) (turns : nat) (prompt : string) (choices : list string)
    (v : string) (t : Term) (line : string) (rest : list string) :
  remembered enum index names ->
  (forall d, In d (map snd index) -> d <> -1) ->
  In v enum ->
  stdin t = line :: rest ->
  spaces line = true ->
  exists t', single_loop (S turns) prompt choices (default_of index (Some v)) names t =
             Some (inr v, t') /\ stdin t' = rest.
Proof.
  intros Hrem Hpos Hv Hin Hsp. destruct (Hrem v Hv) as (d & Hd & Hname).
  cbn [single_loop default_of]. rewrite Hd.
  destruct (ask_on_empty_line prompt choices false true d t line rest Hin Hsp) as [out ->].
  replace (d =? -1) with false
    by (symmetry; apply Z.eqb_neq, Hpos; now apply (lookup_in v)).
  rewrite Hname. eexists. split; reflexivity.
Qed.

Ltac no_back := cbn; intros d H; repeat (destruct H as [<-|H]; [discriminate|]); contradiction.

(** With a [prior] that holds a well-formed answer set, pressing Enter at
    each of the seven questions gives every stored answer back but the
    avoidances: the preselected allergens are shown, yet an empty line at
    that question selects none. *)
Theorem enter_keeps_all_but_the_avoidances
    (no_color : bool) (A : Ans.t) (t : Term) (lines rest : list string) :
  In (Ans.goal A) goal_enum ->
  In (Ans.timing A) timing_enum ->
  In (Ans.protein_pref A) protein_pref_enum ->
  In (Ans.effort A) effort_enum ->
  In (Ans.sodium_pref A) sodium_pref_enum ->
  In (Ans.spice_pref A) spice_pref_enum ->
  List.length lines = 7%nat ->
  Forall (fun line => spaces line = true) lines ->
  stdin t = (lines ++ rest)%list ->
  exists t',
    main_questions no_color (stored A) t = Some (inr (with_avoids [] A), t') /\
    stdin t' = rest.
Proof.
  intros Hg Htm Hp He Hs Hsp Hlen Hall Hin.
  destruct lines as [|l1 [|l2 [|l3 [|l4 [|l5 [|l6 [|l7 [|]]]]]]]]; try discriminate Hlen.
  clear Hlen. cbn [app] in Hin.
  repeat match goal with
         | H : Forall _ (_ :: _) |- _ =>
             let a := fresh "Hl" in let b := fresh "Hall" in
             apply Forall_cons_iff in H as [a b]
         end.
  unfold main_questions. cbv zeta.
  set (t0 := print _ (print _ (snd (enable_color (negb no_color) t)))).
  assert (Hin0 : stdin t0 = l1 :: l2 :: l3 :: l4 :: l5 :: l6 :: l7 :: rest)
    by (subst t0; destruct no_color; exact Hin).
  cbn [stored Prior.goal Prior.timing Prior.protein_pref Prior.effort Prior.sodium_pref
       Prior.spice_pref].
  (* 1) Goal *)
  destruct (goal_remembered _ Hg) as (dg & Hdg & Hng).
  cbn [default_of] in *. rewrite Hdg.
  destruct (ask_on_empty_line "What's your current goal?" goal_choices false false dg t0
              l1 _ Hin0 ltac:(assumption)) as [out ->].
  rewrite Hng. cbn [and_then]. unfold turns_for.
  (* 2) Timing *)
  destruct (timing_remembered _ Htm) as (dt & Hdt & Hnt).
  cbn [timing_loop]. cbv zeta. cbn [stored Prior.timing default_of]. rewrite Hdt.
  match goal with
  | |- context [ask "When is this meal?" _ _ _ _ ?t1] =>
      destruct (ask_on_empty_line "When is this meal?" timing_choices false true dt t1
                  l2 _ eq_refl ltac:(assumption)) as [out2 ->]
  end.
  replace (dt =? -1) with false.
  2:{ symmetry. apply Z.eqb_neq. apply lookup_in in Hdt. revert dt Hdt Hnt. no_back. }
  rewrite Hnt. cbn [and_then].
  (* 3) Protein preference *)
  match goal with
  | |- context [single_loop (S ?n) ?pr ?ch _ ?nm ?t1] =>
      destruct (single_loop_on_empty_line protein_pref_enum protein_index protein_names
                  n pr ch (Ans.protein_pref A) t1 l3 _ protein_remembered
                  ltac:(no_back) Hp eq_refl ltac:(assumption)) as (t3 & E3 & H3);
      cbn [default_of] in E3; rewrite E3; clear E3
  end.
  cbn [and_then].
  (* 4) Avoidances *)
  cbn [avoids_loop]. cbv zeta.
  match goal with
  | |- context [ask_multi ?pr ?ch ?ab ?pre t3] =>
      destruct (ask_multi pr ch ab pre t3) as [res t4] eqn:E;
      destruct (ask_multi_on_blank_line pr ch ab pre t3 l4 _ H3
                  (spaces_blank l4 ltac:(assumption))) as [Hres H4];
      rewrite E in Hres, H4; cbn [fst snd] in Hres, H4; subst res
  end.
  destruct (list_eq_dec Z.eq_dec [] [-1]) as [Hf|_]; [discriminate Hf|].
  cbn [avoids_of and_then].
  (* 5) Effort *)
  match goal with
  | |- context [single_loop (S ?n) ?pr ?ch _ ?nm ?t1] =>
      destruct (single_loop_on_empty_line effort_enum effort_index effort_names
                  n pr ch (Ans.effort A) t1 l5 _ effort_remembered
                  ltac:(no_back) He H4 ltac:(assumption)) as (t5 & E5 & H5);
      cbn [default_of] in E5; rewrite E5; clear E5
  end.
  cbn [and_then].
  (* 6) Sodium *)
  match goal with
  | |- context [single_loop (S ?n) ?pr ?ch _ ?nm ?t1] =>
      destruct (single_loop_on_empty_line sodium_pref_enum sodium_index sodium_names
                  n pr ch (Ans.sodium_pref A) t1 l6 _ sodium_remembered
                  ltac:(no_back) Hs H5 ltac:(assumption)) as (t6 & E6 & H6);
      cbn [default_of] in E6; rewrite E6; clear E6
  end.
  cbn [and_then].
  (* 7) Spice *)
  match goal with
  | |- context [single_loop (S ?n) ?pr ?ch _ ?nm ?t1] =>
      destruct (single_loop_on_empty_line spice_pref_enum spice_index spice_names
                  n pr ch (Ans.spice_pref A) t1 l7 _ spice_remembered
                  ltac:(no_back) Hsp H6 ltac:(assumption)) as (t7 & E7 & H7);
      cbn [default_of] in E7; rewrite E7; clear E7
  end.
  cbn [and_then]. exists t7. split; [reflexivity | exact H7].
Qed.

Lemma enter_keeps_all_but_the_avoidances_witness :
  exists t',
    main_questions true
      (stored (Ans.mk "bulk" "post" "beef" ["gluten"; "soy"] "med" "lower" "spicy"))
      (mkTerm C_initial [""; " "; ""; ""; ""; ""; ""; "more"] []) =
    Some (inr (Ans.mk "bulk" "post" "beef" [] "med" "lower" "spicy"), t') /\
    stdin t' = ["more"].
Proof.
  apply (enter_keeps_all_but_the_avoidances true
           (Ans.mk "bulk" "post" "beef" ["gluten"; "soy"] "med" "lower" "spicy")
           (mkTerm C_initial [""; " "; ""; ""; ""; ""; ""; "more"] [])
           [""; " "; ""; ""; ""; ""; ""] ["more"]);
    try reflexivity; try (vm_compute; tauto).
  repeat constructor.
Defined.

(** ** Going back *)

Lemma ask_on_back
    (prompt : string) (choices : list string) (allow_zero : bool)
    (d : option Z) (t : Term) (line : string) (rest : list string) :
  stdin t = line :: rest ->
  is_back line = true ->
  exists out,
    ask prompt choices allow_zero true d t = (inr (-1), mkTerm (colors t) rest out).
Proof.
  unfold is_back. intros Hin Hb. apply String.eqb_eq in Hb.
  unfold ask. cbv zeta. rewrite Hin. cbn [ask_loop]. cbv zeta. rewrite Hb.
  cbn [String.eqb Ascii.eqb Bool.eqb andb]. destruct d; eexists; reflexivity.
Qed.

Lemma single_loop_after_backs (prompt : string) (choices : list string)
    (d : option Z) (names : list (Z * string)) (i : Z) (v : string) (rest : list string)
    (backs : list string) :
  1 <= i <= Z.of_nat (List.length choices) ->
  lookup_num i names = Some v ->
  Forall (fun line => is_back line = true) backs ->
  forall (turns : nat) (t : Term),
    stdin t = (backs ++ py_str i :: rest)%list ->
    (List.length backs < turns)%nat ->
    exists t', single_loop turns prompt choices d names t = Some (inr v, t') /\
               stdin t' = rest.
Proof.
  intros Hi Hv Hall. induction Hall as [|b backs Hb _ IH]; intros turns t Hin Hlen.
  - destruct turns as [|turns]; [cbn in Hlen; lia|].
    now apply (single_loop_on_number turns prompt choices d names t i v rest).
  - destruct turns as [|turns]; [cbn in Hlen; lia|].
    cbn [single_loop]. cbn [app] in Hin.
    destruct (ask_on_back prompt choices false d t b _ Hin Hb) as [out ->].
    cbn [Z.eqb Pos.eqb Z.opp].
    apply IH; [reflexivity | cbn in Hlen; lia].
Qed.

(** At the questions for the protein preference, the effort, the sodium
    and the spice, going back goes nowhere: the same question is asked
    again, and the answers are those of a run in which [b] was never
    typed.  The goal and the timing stay as they were answered. *)
Theorem back_at_later_questions_asks_again
    (no_color : bool) (prior : Prior.t) (t : Term) (g tm p e s sp : Z) (l : list Z)
    (goal timing protein_pref effort sodium_pref spice_pref : string)
    (b3 b5 b6 b7 rest : list string) :
  lookup_num g goal_names = Some goal ->
  lookup_num tm timing_names = Some timing ->
  lookup_num p protein_names = Some protein_pref ->
  (forall i, In i l -> 1 <= i <= 7) ->
  lookup_num e effort_names = Some effort ->
  lookup_num s sodium_names = Some sodium_pref ->
  lookup_num sp spice_names = Some spice_pref ->
  Forall (fun line => is_back line = true) (b3 ++ b5 ++ b6 ++ b7) ->
  stdin t = (py_str g :: py_str tm :: b3 ++ py_str p :: join "," (map py_str l)
             :: b5 ++ py_str e :: b6 ++ py_str s :: b7 ++ py_str sp :: rest)%list ->
  exists t',
    main_questions no_color prior t =
    Some (inr (Ans.mk goal timing protein_pref (map seven_name (sorted_set l))
                 effort sodium_pref spice_pref), t') /\
    stdin t' = rest.
Proof.
  intros Hg Htm Hp Hl He Hs Hsp Hall Hin.
  apply Forall_app in Hall as [Hb3 Hall]. apply Forall_app in Hall as [Hb5 Hall].
  apply Forall_app in Hall as [Hb6 Hb7].
  unfold main_questions. cbv zeta.
  set (t0 := print _ (print _ (snd (enable_color (negb no_color) t)))).
  assert (Hin0 : stdin t0 = stdin t) by (subst t0; now destruct no_color).
  rewrite Hin in Hin0. clear Hin.
  assert (Hgi : 1 <= g <= Z.of_nat (List.length goal_choices)) by (key_range Hg).
  destruct (ask_on_number "What's your current goal?" goal_choices false false
              (default_of goal_index (Prior.goal prior)) t0 g _ Hgi Hin0) as [out ->].
  rewrite Hg. cbn [and_then]. unfold turns_for.
  match goal with
  | |- context [timing_loop (S ?n) _ _ ?t1] =>
      destruct (timing_loop_on_number n prior goal t1 tm timing _ Htm eq_refl)
        as (t2 & -> & H2)
  end.
  cbn [and_then].
  assert (Hpi : 1 <= p <= Z.of_nat (List.length protein_choices)) by (key_range Hp).
  destruct (single_loop_after_backs "Pick a protein preference."
              protein_choices (default_of protein_index (Prior.protein_pref prior))
              protein_names p protein_pref _ b3 Hpi Hp Hb3 (S (List.length (stdin t2))) t2 H2)
    as (t3 & -> & H3); [rewrite H2, length_app; lia|].
  cbn [and_then].
  destruct (avoids_loop_on_numbers (List.length (stdin t3)) prior protein_pref t3 l _ Hl H3)
    as (t4 & -> & H4).
  cbn [and_then].
  assert (Hei : 1 <= e <= Z.of_nat (List.length effort_choices)) by (key_range He).
  destruct (single_loop_after_backs "How much cooking effort?"
              effort_choices (default_of effort_index (Prior.effort prior))
              effort_names e effort _ b5 Hei He Hb5 (S (List.length (stdin t4))) t4 H4)
    as (t5 & -> & H5); [rewrite H4, length_app; lia|].
  cbn [and_then].
  assert (Hsi : 1 <= s <= Z.of_nat (List.length sodium_choices)) by (key_range Hs).
  destruct (single_loop_after_backs "Sodium needs?"
              sodium_choices (default_of sodium_index (Prior.sodium_pref prior))
              sodium_names s sodium_pref _ b6 Hsi Hs Hb6 (S (List.length (stdin t5))) t5 H5)
    as (t6 & -> & H6); [rewrite H5, length_app; lia|].
  cbn [and_then].
  assert (Hspi : 1 <= sp <= Z.of_nat (List.length spice_choices)) by (key_range Hsp).
  destruct (single_loop_after_backs "Spice preference?"
              spice_choices (default_of spice_index (Prior.spice_pref prior))
              spice_names sp spice_pref _ b7 Hspi Hsp Hb7 (S (List.length (stdin t6))) t6 H6)
    as (t7 & -> & H7); [rewrite H6, length_app; lia|].
  cbn [and_then]. exists t7. split; [reflexivity | exact H7].
Qed.

Lemma back_at_later_questions_asks_again_witness :
  exists t',
    main_questions false no_prior
      (mkTerm C_initial ["2"; "1"; "b"; " B "; "4"; "6,1,6"; "3"; "b"; "1"; "b"; "2"] []) =
    Some (inr (Ans.mk "maintenance" "pre" "plant-only" ["dairy"; "shellfish"]
                 "high" "normal" "medium"), t') /\
    stdin t' = [].
Proof.
  apply (back_at_later_questions_asks_again false no_prior
           (mkTerm C_initial ["2"; "1"; "b"; " B "; "4"; "6,1,6"; "3"; "b"; "1"; "b"; "2"] [])
           2 1 4 3 1 2 [6; 1; 6]
           "maintenance" "pre" "plant-only" "high" "normal" "medium"
           ["b"; " B "] [] ["b"] ["b"] []);
    try reflexivity.
  - intros i [<-|[<-|[<-|[]]]]; lia.
  - repeat constructor.
Defined.

Lemma timing_loop_on_back (prior : Prior.t) (goal : string) (turns : nat) (t : Term)
    (line : string) (g tm : Z) (goal' timing : string) (rest : list string) :
  is_back line = true ->
  lookup_num g goal_names = Some goal' ->
  lookup_num tm timing_names = Some timing ->
  stdin t = line :: py_str g :: py_str tm :: rest ->
  exists t', timing_loop (S (S turns)) prior goal t = Some (inr (goal', timing), t') /\
             stdin t' = rest.
Proof.
  intros Hb Hg Htm Hin. remember (S turns) as k eqn:Ek.
  cbn [timing_loop]. cbv zeta. subst k.
  destruct (ask_on_back "When is this meal?" timing_choices false
              (default_of timing_index (Prior.timing prior)) t line _ Hin Hb) as [out ->].
  cbn [Z.eqb Pos.eqb Z.opp].
  assert (Hgi : 1 <= g <= Z.of_nat (List.length goal_choices)) by (key_range Hg).
  match goal with
  | |- context [ask ?pr ?ch ?az ?ab ?d ?t1] =>
      destruct (ask_on_number pr ch az ab d t1 g _ Hgi eq_refl) as [out1 ->]
  end.
  rewrite Hg.
  match goal with
  | |- context [timing_loop (S ?n) _ _ ?t1] =>
      exact (timing_loop_on_number n prior goal' t1 tm timing _ Htm eq_refl)
  end.
Qed.

Lemma avoids_loop_on_back (prior : Prior.t) (protein_pref : string) (turns : nat)
    (t : Term) (line : string) (p : Z) (l : list Z) (protein_pref' : string)
    (rest : list string) :
  is_back line = true ->
  lookup_num p protein_names = Some protein_pref' ->
  (forall i, In i l -> 1 <= i <= 7) ->
  stdin t = line :: py_str p :: join "," (map py_str l) :: rest ->
  exists t', avoids_loop (S (S turns)) prior protein_pref t =
             Some (inr (protein_pref', map seven_name (sorted_set l)), t') /\
             stdin t' = rest.
Proof.
  unfold is_back. intros Hb Hp Hl Hin. apply String.eqb_eq in Hb.
  remember (S turns) as k eqn:Ek. cbn [avoids_loop]. cbv zeta. subst k.
  unfold ask_multi at 1. cbv zeta. rewrite Hin. cbn [ask_multi_loop]. cbv zeta.
  rewrite Hb. cbn [String.eqb Ascii.eqb Bool.eqb andb].
  destruct (list_eq_dec Z.eq_dec [-1] [-1]) as [_|Hf]; [|now contradiction Hf].
  assert (Hpi : 1 <= p <= Z.of_nat (List.length protein_choices)) by (key_range Hp).
  match goal with
  | |- context [ask ?pr ?ch ?az ?ab ?d ?t1] =>
      destruct (ask_on_number pr ch az ab d t1 p _ Hpi eq_refl) as [out1 ->]
  end.
  rewrite Hp.
  match goal with
  | |- context [avoids_loop (S ?n) _ _ ?t1] =>
      exact (avoids_loop_on_numbers n prior protein_pref' t1 l _ Hl eq_refl)
  end.
Qed.

(** Going back at the timing question asks for the goal again, and the
    new goal replaces the one given before; going back at the avoidances
    does the same for the protein preference. *)
Theorem back_replaces_the_answer_before
    (no_color : bool) (prior : Prior.t) (t : Term)
    (g0 g tm p0 p e s sp : Z) (l : list Z) (back2 back4 : string)
    (goal0 goal timing protein_pref0 protein_pref effort sodium_pref spice_pref : string)
    (rest : list string) :
  lookup_num g0 goal_names = Some goal0 ->
  is_back back2 = true ->
  lookup_num g goal_names = Some goal ->
  lookup_num tm timing_names = Some timing ->
  lookup_num p0 protein_names = Some protein_pref0 ->
  is_back back4 = true ->
  lookup_num p protein_names = Some protein_pref ->
  (forall i, In i l -> 1 <= i <= 7) ->
  lookup_num e effort_names = Some effort ->
  lookup_num s sodium_names = Some sodium_pref ->
  lookup_num sp spice_names = Some spice_pref ->
  stdin t = py_str g0 :: back2 :: py_str g :: py_str tm
            :: py_str p0 :: back4 :: py_str p :: join "," (map py_str l)
            :: py_str e :: py_str s :: py_str sp :: rest ->
  exists t',
    main_questions no_color prior t =
    Some (inr (Ans.mk goal timing protein_pref (map seven_name (sorted_set l))
                 effort sodium_pref spice_pref), t') /\
    stdin t' = rest.
Proof.
  intros Hg0 Hb2 Hg Htm Hp0 Hb4 Hp Hl He Hs Hsp Hin.
  unfold main_questions. cbv zeta.
  set (t0 := print _ (print _ (snd (enable_color (negb no_color) t)))).
  assert (Hin0 : stdin t0 = stdin t) by (subst t0; now destruct no_color).
  rewrite Hin in Hin0. clear Hin.
  assert (Hgi : 1 <= g0 <= Z.of_nat (List.length goal_choices)) by (key_range Hg0).
  destruct (ask_on_number "What's your current goal?" goal_choices false false
              (default_of goal_index (Prior.goal prior)) t0 g0 _ Hgi Hin0) as [out ->].
  rewrite Hg0. cbn [and_then]. unfold turns_for. cbn [stdin List.length].
  match goal with
  | |- context [timing_loop (S (S ?n)) _ _ ?t1] =>
      destruct (timing_loop_on_back prior goal0 n t1 back2 g tm goal timing _
                  Hb2 Hg Htm eq_refl) as (t2 & -> & H2)
  end.
  cbn [and_then].
  assert (Hpi : 1 <= p0 <= Z.of_nat (List.length protein_choices)) by (key_range Hp0).
  destruct (single_loop_on_number (List.length (stdin t2)) "Pick a protein preference."
              protein_choices (default_of protein_index (Prior.protein_pref prior))
              protein_names t2 p0 protein_pref0 _ Hpi Hp0 H2) as (t3 & -> & H3).
  cbn [and_then]. rewrite H3. cbn [List.length].
  match goal with
  | |- context [avoids_loop (S (S ?n)) _ _ _] =>
      destruct (avoids_loop_on_back prior protein_pref0 n t3 back4 p l protein_pref _
                  Hb4 Hp Hl H3) as (t4 & -> & H4)
  end.
  cbn [and_then].
  assert (Hei : 1 <= e <= Z.of_nat (List.length effort_choices)) by (key_range He).
  destruct (single_loop_on_number (List.length (stdin t4)) "How much cooking effort?"
              effort_choices (default_of effort_index (Prior.effort prior))
              effort_names t4 e effort _ Hei He H4) as (t5 & -> & H5).
  cbn [and_then].
  assert (Hsi : 1 <= s <= Z.of_nat (List.length sodium_choices)) by (key_range Hs).
  destruct (single_loop_on_number (List.length (stdin t5)) "Sodium needs?"
              sodium_choices (default_of sodium_index (Prior.sodium_pref prior))
              sodium_names t5 s sodium_pref _ Hsi Hs H5) as (t6 & -> & H6).
  cbn [and_then].
  assert (Hspi : 1 <= sp <= Z.of_nat (List.length spice_choices)) by (key_range Hsp).
  destruct (single_loop_on_number (List.length (stdin t6)) "Spice preference?"
              spice_choices (default_of spice_index (Prior.spice_pref prior))
              spice_names t6 sp spice_pref _ Hspi Hsp H6) as (t7 & -> & H7).
  cbn [and_then]. exists t7. split; [reflexivity | exact H7].
Qed.

Lemma back_replaces_the_answer_before_witness :
  exists t',
    main_questions false no_prior
      (mkTerm C_initial ["1"; "b"; "3"; "2"; "1"; "B"; "5"; "2"; "4"; "2"; "3"] []) =
    Some (inr (Ans.mk "bulk" "post" "no-preference" ["gluten"]
                 "restaurant" "lower" "spicy"), t') /\
    stdin t' = [].
Proof.
  apply (back_replaces_the_answer_before false no_prior
           (mkTerm C_initial ["1"; "b"; "3"; "2"; "1"; "B"; "5"; "2"; "4"; "2"; "3"] [])
           1 3 2 1 5 4 2 3 [2] "b" "B"
           "cut" "bulk" "post" "beef" "no-preference" "restaurant" "lower" "spicy" []);
    try reflexivity.
  intros i [<-|[]]; lia.
Defined.

(** ** Without colour *)

Lemma plain_app (a b : string) : plain (a ++ b) = plain a && plain b.
Proof.
  induction a as [|c a IH]; cbn [plain String.append]; [reflexivity|].
  now rewrite IH, andb_assoc.
Qed.

Lemma plain_printed (s : string) : plain (printed s) = plain s.
Proof. unfold printed. rewrite plain_app. cbn. now rewrite andb_true_r. Qed.

Lemma plain_join (sep : string) (l : list string) :
  plain sep = true -> Forall (fun s => plain s = true) l -> plain (join sep l) = true.
Proof.
  intros Hsep Hl. induction Hl as [|p l Hp Hl IH]; [reflexivity|].
  cbn [join]. destruct l as [|q l]; [exact Hp|].
  now rewrite !plain_app, Hp, Hsep, IH.
Qed.

Lemma decimal_plain (s : string) : decimal s = true -> plain s = true.
Proof.
  induction s as [|c s IH]; cbn [decimal plain]; [reflexivity|].
  intro H. apply andb_true_iff in H as [Hc Hs]. rewrite (IH Hs), andb_true_r.
  apply andb_true_iff in Hc as [Hlo _]. apply Nat.leb_le in Hlo.
  apply negb_true_iff, Nat.eqb_neq. lia.
Qed.

Lemma menu_plain (choices : list string) :
  Forall (fun s => plain s = true) choices ->
  forall i, 0 <= i -> Forall (fun s => plain s = true) (menu i choices).
Proof.
  induction 1 as [|ch choices Hch _ IH]; intros i Hi; cbn [menu]; constructor.
  - now rewrite plain_printed, !plain_app, (decimal_plain _ (py_str_decimal i Hi)), Hch.
  - apply IH. lia.
Qed.

Lemma plain_snoc (out : list string) (s : string) :
  Forall (fun s => plain s = true) out -> plain s = true ->
  Forall (fun s => plain s = true) (out ++ [s]).
Proof. intros Ho Hs. apply Forall_app. split; [exact Ho | now constructor]. Qed.

Lemma C_all_attributes (P : string -> bool) (c : C.t) :
  C_all P c = true ->
  P (C.BOLD c) = true /\ P (C.DIM c) = true /\ P (C.CYAN c) = true /\
  P (C.GREEN c) = true /\ P (C.YELLOW c) = true /\ P (C.RED c) = true /\
  P (C.RESET c) = true.
Proof. unfold C_all. intro H. repeat (apply andb_true_iff in H as [H ?]). tauto. Qed.

Lemma ask_loop_plain (n : Z) (az ab : bool) (d : option Z) (c : C.t)
    (lines : list string) :
  C_all plain c = true ->
  forall out, Forall (fun s => plain s = true) out ->
    plain_term (snd (ask_loop n az ab d c lines out)).
Proof.
  intro Hc. destruct (C_all_attributes _ _ Hc) as (_ & _ & _ & _ & Hy & _ & Hr).
  induction lines as [|line rest IH]; intros out Hout; cbn [ask_loop]; cbv zeta;
    pose proof (plain_snoc out "> " Hout eq_refl) as Hout'.
  - split; assumption.
  - assert (Hagain : plain_term (snd (ask_loop n az ab d c rest
              ((out ++ ["> "]) ++
               [printed (C.YELLOW c ++ "Please enter a valid option." ++ C.RESET c)])))).
    { apply IH, plain_snoc; [exact Hout'|].
      now rewrite plain_printed, !plain_app, Hy, Hr. }
    assert (Hnow : forall r : Z,
              plain_term (snd (inr r : Exn + Z, mkTerm c rest (out ++ ["> "])%list)))
      by (intro r; split; assumption).
    assert (Hrest : plain_term (snd
              (if ab && (lower (strip line) == "b")
               then (inr (-1), mkTerm c rest (out ++ ["> "])%list)
               else if az && (lower (strip line) == "0")
               then (inr 0, mkTerm c rest (out ++ ["> "])%list)
               else if isdigit (lower (strip line))
               then match py_int (lower (strip line)) with
                    | None => (inl ValueError, mkTerm c rest (out ++ ["> "])%list)
                    | Some idx =>
                        if (1 <=? idx) && (idx <=? n)
                        then (inr idx, mkTerm c rest (out ++ ["> "])%list)
                        else ask_loop n az ab d c rest
                               ((out ++ ["> "]) ++
                                [printed (C.YELLOW c ++ "Please enter a valid option."
                                          ++ C.RESET c)])
                    end
               else ask_loop n az ab d c rest
                      ((out ++ ["> "]) ++
                       [printed (C.YELLOW c ++ "Please enter a valid option."
                                 ++ C.RESET c)])))).
    { destruct (ab && (lower (strip line) == "b")); [apply Hnow|].
      destruct (az && (lower (strip line) == "0")); [apply Hnow|].
      destruct (isdigit (lower (strip line))); [|exact Hagain].
      destruct (py_int (lower (strip line))) as [idx|]; [|split; assumption].
      destruct ((1 <=? idx) && (idx <=? n)); [apply Hnow | exact Hagain]. }
    destruct d as [d|]; [|exact Hrest].
    destruct (lower (strip line) == ""); [apply Hnow | exact Hrest].
Qed.

Lemma ask_plain (prompt : string) (choices : list string) (az ab : bool)
    (d : option Z) (t : Term) :
  plain prompt = true -> Forall (fun s => plain s = true) choices ->
  plain_term t -> plain_term (snd (ask prompt choices az ab d t)).
Proof.
  intros Hp Hch [Hc Hout]. unfold ask. cbv zeta.
  destruct (C_all_attributes _ _ Hc) as (Hb & _ & _ & _ & _ & _ & Hr).
  apply ask_loop_plain; [exact Hc|].
  assert (H1 : Forall (fun s => plain s = true)
                 ((stdout t ++ [printed (nl ++ C.BOLD (colors t) ++ prompt
                                         ++ C.RESET (colors t))]) ++ menu 1 choices)).
  { apply Forall_app. split; [|apply menu_plain; [exact Hch | lia]].
    apply plain_snoc; [exact Hout|]. now rewrite plain_printed, !plain_app, Hb, Hp, Hr. }
  destruct az, ab; repeat (apply plain_snoc; [|reflexivity]); exact H1.
Qed.

Lemma ask_multi_loop_plain (n : Z) (ab : bool) (c : C.t) (lines : list string) :
  C_all plain c = true ->
  forall out, Forall (fun s => plain s = true) out ->
    plain_term (snd (ask_multi_loop n ab c lines out)).
Proof.
  intro Hc. destruct (C_all_attributes _ _ Hc) as (_ & _ & _ & _ & Hy & _ & Hr).
  induction lines as [|line rest IH]; intros out Hout; cbn [ask_multi_loop]; cbv zeta;
    pose proof (plain_snoc out "> " Hout eq_refl) as Hout'.
  - split; assumption.
  - assert (Hagain : plain_term (snd (ask_multi_loop n ab c rest
              ((out ++ ["> "]) ++
               [printed (C.YELLOW c
                         ++ "Please enter valid numbers like 1,3,7 (or 0 for none)."
                         ++ C.RESET c)])))).
    { apply IH, plain_snoc; [exact Hout'|].
      now rewrite plain_printed, !plain_app, Hy, Hr. }
    destruct (ab && (lower (strip line) == "b")); [split; assumption|].
    destruct (lower (strip line) == "0"); [split; assumption|].
    destruct (forallb isdigit (parts_of (lower (strip line)))); [|exact Hagain].
    destruct (ints_of (parts_of (lower (strip line)))) as [idxs|]; [|split; assumption].
    destruct (forallb (fun i => (1 <=? i) && (i <=? n)) idxs);
      [split; assumption | exact Hagain].
Qed.

Lemma preselected_labels_plain (choices : list string) (pre : list Z) :
  Forall (fun s => plain s = true) choices ->
  Forall (fun s => plain s = true) (preselected_labels choices pre).
Proof.
  intro Hch. unfold preselected_labels. apply Forall_map, Forall_forall.
  intros i _. destruct (nth_in_or_default (Z.to_nat (i - 1)) choices EmptyString) as [H| ->];
    [|reflexivity].
  rewrite Forall_forall in Hch. now apply Hch.
Qed.

Lemma ask_multi_plain (prompt : string) (choices : list string) (ab : bool)
    (pre : option (list Z)) (t : Term) :
  plain prompt = true -> Forall (fun s => plain s = true) choices ->
  plain_term t -> plain_term (snd (ask_multi prompt choices ab pre t)).
Proof.
  intros Hp Hch [Hc Hout]. unfold ask_multi. cbv zeta.
  destruct (C_all_attributes _ _ Hc) as (Hb & Hd & _ & _ & _ & _ & Hr).
  apply ask_multi_loop_plain; [exact Hc|].
  apply plain_snoc; [|now rewrite plain_printed, !plain_app, Hd, Hr].
  assert (H1 : Forall (fun s => plain s = true)
                 (((stdout t ++ [printed (nl ++ C.BOLD (colors t) ++ prompt
                                          ++ C.RESET (colors t))]) ++ menu 1 choices)
                  ++ [printed "0. None/Done"])).
  { apply plain_snoc; [|reflexivity].
    apply Forall_app. split; [|apply menu_plain; [exact Hch | lia]].
    apply plain_snoc; [exact Hout|]. now rewrite plain_printed, !plain_app, Hb, Hp, Hr. }
  assert (H2 : Forall (fun s => plain s = true)
                 (if ab
                  then ((((stdout t ++ [printed (nl ++ C.BOLD (colors t) ++ prompt
                                                  ++ C.RESET (colors t))])
                          ++ menu 1 choices) ++ [printed "0. None/Done"])
                        ++ [printed "b. Back"])%list
                  else (((stdout t ++ [printed (nl ++ C.BOLD (colors t) ++ prompt
                                                 ++ C.RESET (colors t))])
                         ++ menu 1 choices) ++ [printed "0. None/Done"])%list))
    by (destruct ab; [apply plain_snoc; [exact H1 | reflexivity] | exact H1]).
  destruct pre as [[|i pre]|]; try exact H2.
  apply plain_snoc; [exact H2|].
  rewrite plain_printed, !plain_app, Hd, Hr.
  rewrite (plain_join ", " _ eq_refl (preselected_labels_plain choices (i :: pre) Hch)).
  reflexivity.
Qed.

Ltac plain_list := repeat (constructor; [reflexivity|]); constructor.

Lemma goal_choices_plain : Forall (fun s => plain s = true) goal_choices.
Proof. plain_list. Qed.
Lemma timing_choices_plain : Forall (fun s => plain s = true) timing_choices.
Proof. plain_list. Qed.
Lemma protein_choices_plain : Forall (fun s => plain s = true) protein_choices.
Proof. plain_list. Qed.
Lemma avoids_lookup_plain : Forall (fun s => plain s = true) avoids_lookup.
Proof. plain_list. Qed.
Lemma effort_choices_plain : Forall (fun s => plain s = true) effort_choices.
Proof. plain_list. Qed.
Lemma sodium_choices_plain : Forall (fun s => plain s = true) sodium_choices.
Proof. plain_list. Qed.
Lemma spice_choices_plain : Forall (fun s => plain s = true) spice_choices.
Proof. plain_list. Qed.

Lemma plain_lower_char (c : ascii) :
  (nat_of_ascii c =? 27)%nat = false -> (nat_of_ascii (lower_char c) =? 27)%nat = false.
Proof.
  intro H. unfold lower_char. cbv zeta.
  destruct ((65 <=? nat_of_ascii c)%nat && (nat_of_ascii c <=? 90)%nat
            || (192 <=? nat_of_ascii c)%nat && (nat_of_ascii c <=? 222)%nat
               && negb (nat_of_ascii c =? 215)%nat) eqn:E; [|exact H].
  pose proof (nat_ascii_bounded c) as Hb.
  rewrite nat_ascii_embedding.
  - apply Nat.eqb_neq. lia.
  - apply orb_true_iff in E as [E|E]; apply andb_true_iff in E as [E1 E2].
    + apply Nat.leb_le in E2. lia.
    + apply andb_true_iff in E1 as [_ E1]. apply Nat.leb_le in E1. lia.
Qed.

Lemma plain_lower (s : string) : plain s = true -> plain (lower s) = true.
Proof.
  induction s as [|c s IH]; cbn [plain lower]; [reflexivity|].
  intro H. apply andb_true_iff in H as [Hc Hs]. rewrite (IH Hs), andb_true_r.
  apply negb_true_iff in Hc. apply negb_true_iff. now apply plain_lower_char.
Qed.

Lemma py_index_in {X : Type} (xs : list X) (k : Z) (x : X) :
  py_index xs k = Some x -> In x xs.
Proof.
  unfold py_index. destruct (k <? 0); [destruct (k <? - Z.of_nat (List.length xs))|];
    try discriminate; apply nth_error_In.
Qed.

Lemma avoids_of_plain (idxs : list Z) (avoids : list string) :
  avoids_of idxs = Some avoids -> Forall (fun s => plain s = true) avoids.
Proof.
  revert avoids. induction idxs as [|i idxs IH]; intros avoids; cbn [avoids_of].
  - intros [= <-]. constructor.
  - destruct (py_index avoids_lookup (i - 1)) as [name|] eqn:E; [|discriminate].
    destruct (avoids_of idxs) as [names|]; [|discriminate].
    intros [= <-]. constructor; [|now apply IH].
    apply plain_lower. apply py_index_in in E.
    pose proof avoids_lookup_plain as H. rewrite Forall_forall in H. now apply H.
Qed.

Lemma print_plain (s : string) (t : Term) :
  plain s = true -> plain_term t -> plain_term (print s t).
Proof.
  intros Hs [Hc Hout]. split; [exact Hc|]. cbn [print stdout].
  apply plain_snoc; [exact Hout | now rewrite plain_printed].
Qed.

Lemma single_loop_plain (prompt : string) (choices : list string) (d : option Z)
    (names : list (Z * string)) (turns : nat) :
  plain prompt = true -> Forall (fun s => plain s = true) choices ->
  forall (t : Term) (o : Outcome string),
    plain_term t -> single_loop turns prompt choices d names t = Some o ->
    plain_term (snd o).
Proof.
  intros Hp Hch. induction turns as [|turns IH]; intros t o Ht; cbn [single_loop];
    [discriminate|].
  pose proof (ask_plain prompt choices false true d t Hp Hch Ht) as H1.
  destruct (ask prompt choices false true d t) as [[e|r] t1]; cbn [snd] in H1.
  - now intros [= <-].
  - destruct (r =? -1); [now apply IH|].
    destruct (lookup_num r names); now intros [= <-].
Qed.

Lemma timing_loop_plain (prior : Prior.t) (turns : nat) :
  forall (goal : string) (t : Term) (o : Outcome (string * string)),
    plain_term t -> timing_loop turns prior goal t = Some o -> plain_term (snd o).
Proof.
  induction turns as [|turns IH]; intros goal t o Ht; cbn [timing_loop]; cbv zeta;
    [discriminate|].
  pose proof (ask_plain "When is this meal?" timing_choices false true
                (default_of timing_index (Prior.timing prior)) t eq_refl
                timing_choices_plain Ht) as H1.
  destruct (ask "When is this meal?" timing_choices false true
              (default_of timing_index (Prior.timing prior)) t) as [[e|r] t1];
    cbn [snd] in H1.
  - now intros [= <-].
  - destruct (r =? -1).
    + pose proof (ask_plain "What's your current goal?" goal_choices false false
                    (default_of goal_index (Prior.goal prior)) t1 eq_refl
                    goal_choices_plain H1) as H2.
      destruct (ask "What's your current goal?" goal_choices false false
                  (default_of goal_index (Prior.goal prior)) t1) as [[e|g] t2];
        cbn [snd] in H2.
      * now intros [= <-].
      * destruct (lookup_num g goal_names) as [goal'|]; [now apply IH | now intros [= <-]].
    + destruct (lookup_num r timing_names); now intros [= <-].
Qed.

Lemma avoids_loop_plain (prior : Prior.t) (turns : nat) :
  forall (protein_pref : string) (t : Term) (o : Outcome (string * list string)),
    plain_term t -> avoids_loop turns prior protein_pref t = Some o -> plain_term (snd o).
Proof.
  induction turns as [|turns IH]; intros protein_pref t o Ht; cbn [avoids_loop]; cbv zeta;
    [discriminate|].
  pose proof (ask_multi_plain
                "Do you need to avoid anything? (comma-separated, Enter for none)."
                avoids_lookup true
                (match pre_idxs prior with [] => None | _ :: _ => Some (pre_idxs prior) end)
                t eq_refl avoids_lookup_plain Ht) as H1.
  destruct (ask_multi "Do you need to avoid anything? (comma-separated, Enter for none)."
              avoids_lookup true
              (match pre_idxs prior with [] => None | _ :: _ => Some (pre_idxs prior) end) t)
    as [[e|idxs] t1]; cbn [snd] in H1.
  - now intros [= <-].
  - destruct (list_eq_dec Z.eq_dec idxs [-1]) as [_|_].
    + pose proof (ask_plain "Pick a protein preference." protein_choices false false
                    (default_of protein_index (Prior.protein_pref prior)) t1 eq_refl
                    protein_choices_plain H1) as H2.
      destruct (ask "Pick a protein preference." protein_choices false false
                  (default_of protein_index (Prior.protein_pref prior)) t1) as [[e|p] t2];
        cbn [snd] in H2.
      * now intros [= <-].
      * destruct (lookup_num p protein_names) as [p'|]; [now apply IH | now intros [= <-]].
    + destruct (avoids_of idxs) as [avoids|] eqn:Ea; [|now intros [= <-]].
      intros [= <-]. cbn [snd]. destruct avoids as [|a avoids]; [exact H1|].
      destruct (C_all_attributes _ _ (proj1 H1)) as (_ & _ & Hcy & _ & _ & _ & Hr).
      apply print_plain; [|exact H1].
      change (plain (C.CYAN (colors t1) ++ "Avoiding: " ++ join ", " (a :: avoids)
                     ++ C.RESET (colors t1)) = true).
      rewrite !plain_app, Hcy, Hr.
      now rewrite (plain_join ", " _ eq_refl (avoids_of_plain _ _ Ea)).
Qed.

Lemma and_then_plain {X Y : Type} (step : option (Outcome X))
    (next : X -> Term -> option (Outcome Y)) (o : Outcome Y) :
  (forall o1, step = Some o1 -> plain_term (snd o1)) ->
  (forall x t1 o2, plain_term t1 -> next x t1 = Some o2 -> plain_term (snd o2)) ->
  and_then step next = Some o -> plain_term (snd o).
Proof.
  intros Hstep Hnext. destruct step as [[[e|x] t1]|]; cbn [and_then].
  - intros [= <-]. now apply (Hstep _ eq_refl).
  - apply Hnext. now apply (Hstep _ eq_refl).
  - discriminate.
Qed.

Lemma blank_if_escape_plain (v : string) :
  String.prefix esc v || plain v = true -> plain (blank_if_escape v) = true.
Proof.
  unfold blank_if_escape. destruct (String.prefix esc v); [reflexivity|].
  now rewrite orb_false_l.
Qed.

(** With [--no-color], and the attributes of [C] as the class statement
    sets them (each one starts with the escape character, or holds none),
    nothing that the questions write holds an escape character: not the
    banner, the menus and the warnings, nor the line that repeats the
    avoidances. *)
Theorem no_color_writes_no_escape_code (prior : Prior.t) (t : Term) (o : Outcome Ans.t) :
  C_all (fun v => String.prefix esc v || plain v) (colors t) = true ->
  Forall (fun s => plain s = true) (stdout t) ->
  main_questions true prior t = Some o ->
  Forall (fun s => plain s = true) (stdout (snd o)).
Proof.
  intros Hc Hout Hrun.
  assert (H0 : plain_term (snd (enable_color (negb true) t))).
  { destruct (C_all_attributes _ _ Hc) as (H1 & H2 & H3 & H4 & H5 & H6 & H7).
    split; [|exact Hout]. cbn [enable_color negb snd colors]. unfold C_all.
    cbn [C.BOLD C.DIM C.CYAN C.GREEN C.YELLOW C.RED C.RESET].
    now rewrite !blank_if_escape_plain. }
  enough (plain_term (snd o)) as [_ H]; [exact H|].
  revert Hrun. unfold main_questions. cbv zeta.
  set (t0 := snd (enable_color (negb true) t)) in *.
  destruct (C_all_attributes _ _ (proj1 H0)) as (Hb & _ & _ & _ & _ & _ & Hr).
  assert (H1 : plain_term
                 (print "Answer with the number of your choice. Type 'b' to go back when available."
                    (print (C.BOLD (colors t0) ++ "=== MealMD (step-by-step) ==="
                            ++ C.RESET (colors t0)) t0))).
  { apply print_plain; [reflexivity|]. apply print_plain; [|exact H0].
    now rewrite !plain_app, Hb, Hr. }
  set (t1 := print _ (print _ t0)) in *. clearbody t1.
  apply and_then_plain.
  { intros o1. pose proof (ask_plain "What's your current goal?" goal_choices false false
                  (default_of goal_index (Prior.goal prior)) t1 eq_refl
                  goal_choices_plain H1) as H2.
    destruct (ask "What's your current goal?" goal_choices false false
                (default_of goal_index (Prior.goal prior)) t1) as [[e|g] t2];
      cbn [snd] in H2; [now intros [= <-]|].
    destruct (lookup_num g goal_names); now intros [= <-]. }
  intros goal t2 o2 H2. apply and_then_plain.
  { intro o'. now apply timing_loop_plain. }
  intros [goal' timing] t3 o3 H3. apply and_then_plain.
  { intro o'. now apply single_loop_plain; [|apply protein_choices_plain|]. }
  intros protein_pref t4 o4 H4. apply and_then_plain.
  { intro o'. now apply avoids_loop_plain. }
  intros [protein_pref' avoids] t5 o5 H5. apply and_then_plain.
  { intro o'. now apply single_loop_plain; [|apply effort_choices_plain|]. }
  intros effort t6 o6 H6. apply and_then_plain.
  { intro o'. now apply single_loop_plain; [|apply sodium_choices_plain|]. }
  intros sodium_pref t7 o7 H7. apply and_then_plain.
  { intro o'. now apply single_loop_plain; [|apply spice_choices_plain|]. }
  intros spice_pref t8 o8 H8 [= <-]. exact H8.
Qed.

Lemma no_color_writes_no_escape_code_witness :
  Forall (fun s => plain s = true)
    (stdout (snd (match main_questions true
                          (stored (Ans.mk "bulk" "post" "beef" ["gluten"] "med" "lower" "spicy"))
                          (mkTerm C_initial ["x"; "1"; "b"; "2"; "2"; "1"; "3,5"; "1"; "2"] [])
                  with
                  | Some o => o
                  | None => (inl EOFError, mkTerm C_initial [] [])
                  end))).
Proof.
  destruct (main_questions true
              (stored (Ans.mk "bulk" "post" "beef" ["gluten"] "med" "lower" "spicy"))
              (mkTerm C_initial ["x"; "1"; "b"; "2"; "2"; "1"; "3,5"; "1"; "2"] []))
    as [o|] eqn:E.
  - apply (no_color_writes_no_escape_code
             (stored (Ans.mk "bulk" "post" "beef" ["gluten"] "med" "lower" "spicy"))
             (mkTerm C_initial ["x"; "1"; "b"; "2"; "2"; "1"; "3,5"; "1"; "2"] []) o);
      [reflexivity | constructor | exact E].
  - vm_compute in E. discriminate E.
Defined.
